(** * The bandit task of [experiments/task.py]

    A shallow embedding of the [Task] class: trial generation ([setup]),
    the iteration protocol ([__iter__], [__next__], [block], [__len__],
    [__getitem__]) and the evaluation and recording of a choice
    ([process]).

    Conventions of the embedding.
    - numpy's float64 cells are rationals [Q].  The code only compares
      cells, multiplies them by the 0/1 entries of [cog] and divides the
      weights by their sum; the division keeps numpy's special results
      ([npfloat]: nan and the infinities), rounding is not modelled.
    - Python exceptions are the constructors of [exn]; a statement that
      raises leaves the object as the statements before it left it
      (the monad [M]).
    - [np.random] is the class [NumpyRandom]: an ambient generator state
      threaded through [setup], with [np.random.uniform] and
      [np.random.choice] as its operations and their documented contract
      as its laws.  [TapeRandom] is an instance driven by a list of draws.
    - The json file is the value [Parameters] it parses to: the session
      list and the blocks by name, [n_trial] and [n_cue] natural numbers.
      The session list is itself a value of the file's object, under the
      key "session": a session that names that key finds the list where
      a block is expected.  Opening and parsing the file are not
      modelled.
    - The fields declared [(name, float, 1)] are scalars, as numpy read
      that dtype when the code was written.
    - What [print] writes in debug mode is not modelled. *)

From Stdlib Require Import QArith.
From stdpp Require Import base option list gmap strings.

Local Open Scope Z_scope.
Local Open Scope nat_scope.

(** ** Python values and exceptions *)

Inductive exn : Type :=
  | KeyError | ValueError | IndexError | AssertionError | TypeError
  | StopIteration.

Inductive Result (A : Type) : Type :=
  | Ok (a : A)
  | Raise (e : exn).
Arguments Ok {A} a.
Arguments Raise {A} e.

Definition is_Ok {A} (r : Result A) : Prop := ∃ a, r = Ok a.
Definition is_Raise {A} (r : Result A) : Prop := ∃ e, r = Raise e.

(** The statements of a method run in a state [S] (the object, or the
    object and the generator); [Raise] stops the method and keeps the
    state reached. *)
Definition M (S A : Type) : Type := S → Result A * S.

Definition ret {S A} (a : A) : M S A := λ s, (Ok a, s).
Definition raise {S A} (e : exn) : M S A := λ s, (Raise e, s).
Definition bind {S A B} (m : M S A) (k : A → M S B) : M S B :=
  λ s, match m s with
       | (Ok a, s') => k a s'
       | (Raise e, s') => (Raise e, s')
       end.
Definition get {S} : M S S := λ s, (Ok s, s).
Definition modify {S} (f : S → S) : M S unit := λ s, (Ok tt, f s).
Definition lift_result {S A} (r : Result A) : M S A := λ s, (r, s).

Notation "'let*' x ':=' m 'in' k" := (bind m (λ x, k))
  (at level 10, x name, m at level 100, k at level 200, only parsing).
Notation "m ';;' k" := (bind m (λ _, k))
  (at level 100, k at level 200, right associativity, only parsing).

(** [reward] is the float [0.0] when there is no choice and a boolean
    otherwise. *)
Inductive PyNum : Type :=
  | PyFloat (q : Q)
  | PyBool (b : bool).

Definition b2q (b : bool) : Q := if b then 1%Q else 0%Q.

(** The value a float field of a record receives. *)
Definition to_float (v : PyNum) : Q :=
  match v with
  | PyFloat q => q
  | PyBool b => b2q b
  end.

Definition Qlt_bool (x y : Q) : bool := negb (Qle_bool y x).

(** [seq[i]] for a Python list or a numpy axis of length [len]: a negative
    index counts from the end. *)
Definition py_index (len : nat) (i : Z) : option nat :=
  if decide (0 ≤ i < Z.of_nat len)%Z then Some (Z.to_nat i)
  else if decide (- Z.of_nat len ≤ i < 0)%Z then Some (Z.to_nat (Z.of_nat len + i))
  else None.

(** Python's [max] over a sequence: the first maximal item. *)
Fixpoint py_max_from (m : Q) (l : list Q) : Q :=
  match l with
  | [] => m
  | x :: l' => py_max_from (if Qlt_bool m x then x else m) l'
  end.

Definition py_max (l : list Q) : Result Q :=
  match l with
  | [] => Raise ValueError
  | x :: l' => Ok (py_max_from x l')
  end.

(** [np.nonzero(v)[0]]: the positions of the non-zero cells, ascending. *)
Fixpoint nonzero_from (i : nat) (v : list Q) : list nat :=
  match v with
  | [] => []
  | x :: v' =>
      if Qeq_bool x 0 then nonzero_from (S i) v' else i :: nonzero_from (S i) v'
  end.

Definition nonzero (v : list Q) : list nat := nonzero_from 0 v.

(** ** Trials and records *)

(** The number of cue slots and of positions of the two dtypes. *)
Definition N_SLOTS : nat := 4.

Record Trial : Type := mkTrial {
  mot : list Q;
  cog : list Q;
  ass : list (list Q);
  rwd : list Q;
  rnd : Q
}.

Record Rec : Type := mkRec {
  r_choice : Q;
  r_cue : Q;
  r_best : Q;
  r_valid : Q;
  r_RT : Q;
  r_reward : Q;
  r_value : list Q;
  r_ctx_ass : list Q;   (* "CTX:cog -> CTX:ass" *)
  r_ctx_str : list Q    (* "CTX:cog -> STR:cog" *)
}.

(** One cell of [np.zeros(n, dtype)]. *)
Definition zero_trial : Trial :=
  {| mot := replicate N_SLOTS 0%Q;
     cog := replicate N_SLOTS 0%Q;
     ass := replicate N_SLOTS (replicate N_SLOTS 0%Q);
     rwd := replicate N_SLOTS 0%Q;
     rnd := 0%Q |}.

Definition zero_record : Rec :=
  {| r_choice := 0%Q; r_cue := 0%Q; r_best := 0%Q; r_valid := 0%Q;
     r_RT := 0%Q; r_reward := 0%Q;
     r_value := replicate N_SLOTS 0%Q;
     r_ctx_ass := replicate N_SLOTS 0%Q;
     r_ctx_str := replicate N_SLOTS 0%Q |}.

(** The model snapshot [process] may be given: [model["value"]] and the
    [.weights] of the two connections. *)
Record Model : Type := mkModel {
  m_value : list Q;
  m_ctx_ass : list Q;
  m_ctx_str : list Q
}.

(** ** Configuration *)

Record Block : Type := mkBlock {
  n_trial : nat;
  cue : list Q;
  pos : list Q;
  b_rwd : list Q;            (* block["rwd"] *)
  n_cue : option nat         (* block.get("n_cue", 2) *)
}.

(** The parsed json file: [parameters["session"]] and the named blocks. *)
Record Parameters : Type := mkParameters {
  session : list string;
  named : gmap string Block
}.

Record Task : Type := mkTask {
  parameters : Parameters;
  blocks : list (nat * nat);
  trials : list Trial;
  records : list Rec;
  index : option Z;
  index_start : option Z;
  index_stop : option Z
}.

Definition set_cursor (i a b : option Z) (t : Task) : Task :=
  {| parameters := parameters t; blocks := blocks t; trials := trials t;
     records := records t; index := i; index_start := a; index_stop := b |}.

Definition set_records (rs : list Rec) (t : Task) : Task :=
  {| parameters := parameters t; blocks := blocks t; trials := trials t;
     records := rs; index := index t; index_start := index_start t;
     index_stop := index_stop t |}.

Definition set_blocks (bl : list (nat * nat)) (t : Task) : Task :=
  {| parameters := parameters t; blocks := bl; trials := trials t;
     records := records t; index := index t; index_start := index_start t;
     index_stop := index_stop t |}.

Definition set_trials (ts : list Trial) (t : Task) : Task :=
  {| parameters := parameters t; blocks := blocks t; trials := ts;
     records := records t; index := index t; index_start := index_start t;
     index_stop := index_stop t |}.

(** ** [process]: evaluation of a choice *)

Record Outcome : Type := mkOutcome {
  o_reward : PyNum;
  o_cue : Z;
  o_best : bool;
  o_valid : bool
}.

(** [a[:, j]] of a two-dimensional array. *)
Definition column (a : list (list Q)) (j : nat) : Result (list Q) :=
  match mapM (λ row : list Q, row !! j) a with
  | Some col => Ok col
  | None => Raise IndexError
  end.

(** The branch on [choice] of [process], up to "Record everything". *)
Definition process_outcome (trial : Trial) (choice : Z) : Result Outcome :=
  if decide (choice < 0)%Z then
    Ok {| o_cue := (-1)%Z; o_valid := false; o_best := false;
          o_reward := PyFloat 0%Q |}
  else
    let ch := Z.to_nat choice in
    match mot trial !! ch with
    | None => Raise IndexError
    | Some m =>
        let valid := Qeq_bool m 1%Q in
        match column (ass trial) ch with
        | Raise e => Raise e
        | Ok col =>
            match nonzero col with
            | [c] =>
                let present_rwd := zip_with Qmult (cog trial) (rwd trial) in
                match py_max present_rwd with
                | Raise e => Raise e
                | Ok mx =>
                    match present_rwd !! c with
                    | None => Raise IndexError
                    | Some pc =>
                        let best := Qeq_bool mx pc in
                        match rwd trial !! c with
                        | None => Raise IndexError
                        | Some rc =>
                            Ok {| o_cue := Z.of_nat c; o_valid := valid;
                                  o_best := best;
                                  o_reward := PyBool (Qlt_bool (rnd trial) rc) |}
                        end
                    end
                end
            | _ => Raise AssertionError
            end
        end
    end.

(** [self.records[self.index][field] = v].  An integer cursor addresses
    one slot; the cursor [None] is numpy's [newaxis], a view of the whole
    array, so the assignment reaches every slot. *)
Definition record_set (f : Rec → Rec) : M Task unit :=
  λ t,
    match index t with
    | None => (Ok tt, set_records (f <$> records t) t)
    | Some i =>
        match py_index (length (records t)) i with
        | None => (Raise IndexError, t)
        | Some k => (Ok tt, set_records (alter f k (records t)) t)
        end
    end.

(** Assignment of [v] to a field of shape [(4,)]. *)
Definition broadcast4 (v : list Q) : Result (list Q) :=
  match v with
  | [x] => Ok (replicate N_SLOTS x)
  | _ => if decide (length v = N_SLOTS) then Ok v else Raise ValueError
  end.

Definition record_set_vec (v : list Q) (f : list Q → Rec → Rec) : M Task unit :=
  let* v4 := lift_result (broadcast4 v) in record_set (f v4).

Definition with_choice (q : Q) (r : Rec) : Rec :=
  {| r_choice := q; r_cue := r_cue r; r_best := r_best r; r_valid := r_valid r;
     r_RT := r_RT r; r_reward := r_reward r; r_value := r_value r;
     r_ctx_ass := r_ctx_ass r; r_ctx_str := r_ctx_str r |}.
Definition with_cue (q : Q) (r : Rec) : Rec :=
  {| r_choice := r_choice r; r_cue := q; r_best := r_best r; r_valid := r_valid r;
     r_RT := r_RT r; r_reward := r_reward r; r_value := r_value r;
     r_ctx_ass := r_ctx_ass r; r_ctx_str := r_ctx_str r |}.
Definition with_best (q : Q) (r : Rec) : Rec :=
  {| r_choice := r_choice r; r_cue := r_cue r; r_best := q; r_valid := r_valid r;
     r_RT := r_RT r; r_reward := r_reward r; r_value := r_value r;
     r_ctx_ass := r_ctx_ass r; r_ctx_str := r_ctx_str r |}.
Definition with_valid (q : Q) (r : Rec) : Rec :=
  {| r_choice := r_choice r; r_cue := r_cue r; r_best := r_best r; r_valid := q;
     r_RT := r_RT r; r_reward := r_reward r; r_value := r_value r;
     r_ctx_ass := r_ctx_ass r; r_ctx_str := r_ctx_str r |}.
Definition with_RT (q : Q) (r : Rec) : Rec :=
  {| r_choice := r_choice r; r_cue := r_cue r; r_best := r_best r; r_valid := r_valid r;
     r_RT := q; r_reward := r_reward r; r_value := r_value r;
     r_ctx_ass := r_ctx_ass r; r_ctx_str := r_ctx_str r |}.
Definition with_reward (q : Q) (r : Rec) : Rec :=
  {| r_choice := r_choice r; r_cue := r_cue r; r_best := r_best r; r_valid := r_valid r;
     r_RT := r_RT r; r_reward := q; r_value := r_value r;
     r_ctx_ass := r_ctx_ass r; r_ctx_str := r_ctx_str r |}.
Definition with_value (v : list Q) (r : Rec) : Rec :=
  {| r_choice := r_choice r; r_cue := r_cue r; r_best := r_best r; r_valid := r_valid r;
     r_RT := r_RT r; r_reward := r_reward r; r_value := v;
     r_ctx_ass := r_ctx_ass r; r_ctx_str := r_ctx_str r |}.
Definition with_ctx_ass (v : list Q) (r : Rec) : Rec :=
  {| r_choice := r_choice r; r_cue := r_cue r; r_best := r_best r; r_valid := r_valid r;
     r_RT := r_RT r; r_reward := r_reward r; r_value := r_value r;
     r_ctx_ass := v; r_ctx_str := r_ctx_str r |}.
Definition with_ctx_str (v : list Q) (r : Rec) : Rec :=
  {| r_choice := r_choice r; r_cue := r_cue r; r_best := r_best r; r_valid := r_valid r;
     r_RT := r_RT r; r_reward := r_reward r; r_value := r_value r;
     r_ctx_ass := r_ctx_ass r; r_ctx_str := v |}.

(** [process(trial, choice, RT, model, debug)]; it returns
    [(reward, cue, best)]. *)
Definition process (trial : Trial) (choice : Z) (RT : Q)
    (model : option Model) (debug : bool) : M Task (PyNum * Z * bool) :=
  let* o := lift_result (process_outcome trial choice) in
  (* Record everything *)
  record_set (with_choice (inject_Z choice)) ;;
  record_set (with_cue (inject_Z (o_cue o))) ;;
  record_set (with_best (b2q (o_best o))) ;;
  record_set (with_valid (b2q (o_valid o))) ;;
  record_set (with_RT RT) ;;
  record_set (with_reward (to_float (o_reward o))) ;;
  match model with
  | None => ret tt
  | Some m =>
      record_set_vec (m_value m) with_value ;;
      record_set_vec (m_ctx_ass m) with_ctx_ass ;;
      record_set_vec (m_ctx_str m) with_ctx_str
  end ;;
  (if debug then
     (* "Trial %d" % (self.index+1) *)
     let* t := get in
     match index t with
     | None => raise TypeError
     | Some _ => ret tt
     end
   else ret tt) ;;
  ret (o_reward o, o_cue o, o_best o).

(** ** [np.random] *)

(** A float64 quotient: [x / 0.0] is nan or an infinity. *)
Inductive npfloat : Type :=
  | Finite (q : Q)
  | PosInf
  | NegInf
  | NaN.

Definition np_div (x s : Q) : npfloat :=
  if Qeq_bool s 0 then
    if Qeq_bool x 0 then NaN else if Qlt_bool 0 x then PosInf else NegInf
  else Finite (x / s).

Definition np_sum (v : list Q) : Q := foldr Qplus 0%Q v.

(** [v / np.sum(v)] *)
Definition over_sum (v : list Q) : list npfloat :=
  (λ x, np_div x (np_sum v)) <$> v.

Definition is_positive (x : npfloat) : bool :=
  match x with
  | Finite q => Qlt_bool 0 q
  | PosInf => true
  | _ => false
  end.

Definition is_negative (x : npfloat) : bool :=
  match x with
  | Finite q => Qlt_bool q 0
  | NegInf => true
  | _ => false
  end.

Definition finite_part (x : npfloat) : option Q :=
  match x with Finite q => Some q | _ => None end.

(** [np.count_nonzero(p > 0)] *)
Definition count_positive (p : list npfloat) : nat :=
  length (filter (λ x, is_positive x = true) p).

(** The arguments [np.random.choice(a, size, replace=False, p)] samples
    from: a population, one probability for each of its items, none
    negative, summing to one, and at least [size] of them positive. *)
Definition choice_accepts (a : list nat) (size : nat) (p : list npfloat) : bool :=
  bool_decide (a ≠ []) && bool_decide (length p = length a) &&
  forallb (λ x, negb (is_negative x)) p &&
  match mapM finite_part p with
  | Some qs => Qeq_bool (np_sum qs) 1
  | None => false
  end &&
  bool_decide (size ≤ count_positive p).

(** Arguments it refuses with a [ValueError]: "a and p must have same
    size", "probabilities are not non-negative", "Fewer non-zero entries
    in p than size". *)
Definition choice_rejects (a : list nat) (size : nat) (p : list npfloat) : bool :=
  negb (bool_decide (length p = length a)) ||
  existsb is_negative p ||
  bool_decide (count_positive p < size).

(** The global generator: its state, the two draws [setup] makes, and
    what numpy documents of them. *)
Class NumpyRandom : Type := {
  rng : Type;
  uniform : nat → rng → list Q * rng;
  choice : list nat → nat → list npfloat → rng → Result (list nat) * rng;
  uniform_length : ∀ n g, length (uniform n g).1 = n;
  uniform_range : ∀ n g, Forall (λ x, (0 <= x)%Q ∧ (x < 1)%Q) (uniform n g).1;
  choice_returns : ∀ a size p g l,
    (choice a size p g).1 = Ok l →
    length l = size ∧ l ⊆ a ∧ (NoDup a → NoDup l);
  choice_accepted : ∀ a size p g,
    choice_accepts a size p = true → is_Ok (choice a size p g).1;
  choice_refuse : ∀ a size p g,
    choice_rejects a size p = true →
    (choice a size p g).1 = Raise ValueError
}.

(** ** [setup] *)

(** [trial[field][idx] = 1] for an index array: every index is checked
    before a cell is written. *)
Definition fancy_set (v : list Q) (idx : list nat) : Result (list Q) :=
  if forallb (λ i, bool_decide (i < length v)) idx
  then Ok (foldl (λ acc i, <[i := 1%Q]> acc) v idx)
  else Raise IndexError.

(** [a[c, p] = 1] *)
Definition set_cell (a : list (list Q)) (c p : nat) : Result (list (list Q)) :=
  match a !! c with
  | None => Raise IndexError
  | Some row =>
      if decide (p < length row) then Ok (<[c := <[p := 1%Q]> row]> a)
      else Raise IndexError
  end.

Definition with_cog (v : list Q) (t : Trial) : Trial :=
  {| mot := mot t; cog := v; ass := ass t; rwd := rwd t; rnd := rnd t |}.
Definition with_mot (v : list Q) (t : Trial) : Trial :=
  {| mot := v; cog := cog t; ass := ass t; rwd := rwd t; rnd := rnd t |}.
Definition with_ass (a : list (list Q)) (t : Trial) : Trial :=
  {| mot := mot t; cog := cog t; ass := a; rwd := rwd t; rnd := rnd t |}.
Definition with_rwd (v : list Q) (t : Trial) : Trial :=
  {| mot := mot t; cog := cog t; ass := ass t; rwd := v; rnd := rnd t |}.
Definition with_rnd (t : Trial) (x : Q) : Trial :=
  {| mot := mot t; cog := cog t; ass := ass t; rwd := rwd t; rnd := x |}.

Definition map_result {A B} (f : A → B) (r : Result A) : Result B :=
  match r with
  | Ok a => Ok (f a)
  | Raise e => Raise e
  end.

(** A value of the file's object: a block under its name, or the
    session list under the key "session". *)
Inductive Value : Type :=
  | ABlock (b : Block)
  | SessionList.

(** [blocks.append(_[name])] for the names of the session. *)
Fixpoint lookup_names (named : gmap string Block) (names : list string)
    : Result (list Value) :=
  match names with
  | [] => Ok []
  | name :: rest =>
      if decide (name = "session"%string)
      then map_result (cons SessionList) (lookup_names named rest)
      else
        match named !! name with
        | None => Raise KeyError
        | Some b => map_result (cons (ABlock b)) (lookup_names named rest)
        end
  end.

(** The loop "Get total number of trials" over the values found:
    [self.blocks] receives the range of each block in turn;
    [block["n_trial"]] of the session list, a list indexed by a string,
    is a [TypeError].  It returns the blocks it went through. *)
Fixpoint count_trials (stop : nat) (vs : list Value) : M Task (list Block) :=
  match vs with
  | [] => ret []
  | SessionList :: _ => raise TypeError
  | ABlock b :: rest =>
      modify (λ t, set_blocks (blocks t ++ [(stop, stop + n_trial b)]) t) ;;
      let* bs := count_trials (stop + n_trial b) rest in
      ret (b :: bs)
  end.

(** The ranges that loop leaves in [self.blocks] for the blocks [bs],
    from the trial index [stop] on, and the count [n]. *)
Fixpoint block_ranges (stop : nat) (bs : list Block) : list (nat * nat) :=
  match bs with
  | [] => []
  | b :: bs' => (stop, stop + n_trial b) :: block_ranges (stop + n_trial b) bs'
  end.

Definition total_trials (bs : list Block) : nat :=
  foldl (λ n b, n + n_trial b) 0 bs.

Section Task.
Context {R : NumpyRandom}.

(** The object together with the generator it draws from. *)
Definition World : Type := Task * rng.

Definition on_task {A} (m : M Task A) : M World A :=
  λ w, let '(r, t') := m w.1 in (r, (t', w.2)).

Definition np_uniform (n : nat) : M World (list Q) :=
  λ w, let '(u, g') := uniform n w.2 in (Ok u, (w.1, g')).

Definition np_choice (a : list nat) (size : nat) (p : list npfloat)
    : M World (list nat) :=
  λ w, let '(r, g') := choice a size p w.2 in (r, (w.1, g')).

(** A statement on the view [trial = self.trials[index]]. *)
Definition trial_update (index : nat) (f : Trial → Result Trial) : M World unit :=
  λ w,
    match trials w.1 !! index with
    | None => (Raise IndexError, w)
    | Some tr =>
        match f tr with
        | Ok tr' => (Ok tt, (set_trials (<[index := tr']> (trials w.1)) w.1, w.2))
        | Raise e => (Raise e, w)
        end
    end.

(** [for c, p in zip(cues_idx, pos_idx): trial["ass"][c,p] = 1] *)
Fixpoint associate (index : nat) (pairs : list (nat * nat)) : M World unit :=
  match pairs with
  | [] => ret tt
  | (c, p) :: rest =>
      trial_update index
        (λ tr, map_result (λ a, with_ass a tr) (set_cell (ass tr) c p)) ;;
      associate index rest
  end.

(** The body of [for i in range(block["n_trial"])], [count] times from
    the trial at [index]; it returns the index reached. *)
Fixpoint build_trials (b : Block) (indices : list nat) (n_cues : nat)
    (P_cue P_pos : list npfloat) (count index : nat) : M World nat :=
  match count with
  | O => ret index
  | S count' =>
      let* cues_idx := np_choice indices n_cues P_cue in
      let* pos_idx := np_choice indices n_cues P_pos in
      trial_update index
        (λ tr, map_result (λ v, with_cog v tr) (fancy_set (cog tr) cues_idx)) ;;
      trial_update index
        (λ tr, map_result (λ v, with_mot v tr) (fancy_set (mot tr) pos_idx)) ;;
      associate index (zip cues_idx pos_idx) ;;
      trial_update index
        (λ tr, map_result (λ v, with_rwd v tr) (broadcast4 (b_rwd b))) ;;
      build_trials b indices n_cues P_cue P_pos count' (S index)
  end.

Definition build_block (b : Block) (index : nat) : M World nat :=
  let indices := seq 0 (length (cue b)) in
  let n_cues := default 2 (n_cue b) in
  let P_cue := over_sum (cue b) in
  let P_pos := over_sum (pos b) in
  build_trials b indices n_cues P_cue P_pos (n_trial b) index.

(** "Build actual trials" *)
Fixpoint build_blocks (bs : list Block) (index : nat) : M World nat :=
  match bs with
  | [] => ret index
  | b :: bs' =>
      let* index' := build_block b index in
      build_blocks bs' index'
  end.

(** "Build corresponding arrays" *)
Definition allocate (bs : list Block) (t : Task) : Task :=
  let n := total_trials bs in
  {| parameters := parameters t;
     blocks := blocks t;
     trials := replicate n zero_trial;
     records := replicate n zero_record;
     index := index t; index_start := index_start t;
     index_stop := index_stop t |}.

(** [self.trials["rnd"] = u] *)
Definition assign_rnd (u : list Q) : M World unit :=
  λ w,
    if decide (length u = length (trials w.1))
    then (Ok tt, (set_trials (zip_with with_rnd (trials w.1) u) w.1, w.2))
    else (Raise ValueError, w).

Definition setup : M World unit :=
  let* w := get in
  let p := parameters w.1 in
  let* vs := lift_result (lookup_names (named p) (session p)) in
  (* Get total number of trials *)
  on_task (modify (set_blocks [])) ;;
  let* bs := on_task (count_trials 0 vs) in
  modify (λ w, (allocate bs w.1, w.2)) ;;
  (* We draw all random probabilities at once *)
  let* u := np_uniform (total_trials bs) in
  assign_rnd u ;;
  build_blocks bs 0 ;;
  ret tt.

(** The attributes [__init__] sets before it calls [setup]. *)
Definition blank (p : Parameters) : Task :=
  {| parameters := p; blocks := []; trials := []; records := [];
     index := None; index_start := None; index_stop := None |}.

(** [Task(filename)], for the parameters read from the file: the new
    object, or the exception that leaves none. *)
Definition __init__ (p : Parameters) (g : rng) : Result Task * rng :=
  match setup (blank p, g) with
  | (Ok _, (t, g')) => (Ok t, g')
  | (Raise e, (_, g')) => (Raise e, g')
  end.

(** ** The iteration protocol *)

Definition __len__ (t : Task) : nat := length (trials t).

Definition __getitem__ (t : Task) (i : Z) : Result Trial :=
  match py_index (length (trials t)) i with
  | None => Raise IndexError
  | Some k =>
      match trials t !! k with
      | Some tr => Ok tr
      | None => Raise IndexError
      end
  end.

Definition block (i : Z) : M Task unit :=
  λ t,
    match py_index (length (blocks t)) i with
    | None => (Raise IndexError, t)
    | Some k =>
        match blocks t !! k with
        | None => (Raise IndexError, t)
        | Some (start, stop) =>
            let index_start := (Z.of_nat start - 1)%Z in
            (Ok tt, set_cursor (Some index_start) (Some index_start)
                      (Some (Z.of_nat stop)) t)
        end
    end.

Definition __iter__ : M World unit :=
  let* w := get in
  match index_start w.1 with
  | None =>
      setup ;;
      modify (λ w, (set_cursor (Some (-1)%Z) (Some (-1)%Z)
                      (Some (Z.of_nat (__len__ w.1))) w.1, w.2))
  | Some _ => ret tt
  end.

Definition __next__ : M Task Trial :=
  λ t,
    match index t with
    | None => (Raise TypeError, t)
    | Some i =>
        let i' := (i + 1)%Z in
        let t1 := set_cursor (Some i') (index_start t) (index_stop t) t in
        match index_stop t1 with
        | None => (Raise TypeError, t1)
        | Some stop =>
            if decide (i' < stop)%Z then
              (__getitem__ t1 i', t1)
            else (Raise StopIteration, set_cursor None None None t1)
        end
    end.

(** The calls of [__next__] a [for] loop makes, until [StopIteration];
    [None] when [fuel] calls did not reach it. *)
Fixpoint next_all (fuel : nat) : M Task (option (list Trial)) :=
  match fuel with
  | O => ret None
  | S fuel' =>
      λ t,
        match __next__ t with
        | (Ok tr, t') =>
            match next_all fuel' t' with
            | (Ok (Some l), t'') => (Ok (Some (tr :: l)), t'')
            | other => other
            end
        | (Raise StopIteration, t') => (Ok (Some []), t')
        | (Raise e, t') => (Raise e, t')
        end
  end.

(** [for trial in task]: the trials visited, in order. *)
Definition for_each (fuel : nat) : M World (option (list Trial)) :=
  __iter__ ;; on_task (next_all fuel).

End Task.

(** The trial of the worked example: cue A at position 1, cue C at
    position 2. *)
Definition example_trial (r : Q) : Trial :=
  {| mot := [0; 1; 1; 0]%Q;
     cog := [1; 0; 1; 0]%Q;
     ass := [[0; 1; 0; 0]; [0; 0; 0; 0]; [0; 0; 1; 0]; [0; 0; 0; 0]]%Q;
     rwd := [8 # 10; 5 # 10; 2 # 10; 5 # 10]%Q;
     rnd := r |}.

(** * Vocabulary of the statements

    The tape generator, the shapes the statements speak of (a trial as
    [setup] lays it out, what a method leaves unchanged, the valid and
    the malformed configurations, the states a task reaches) and the
    configurations of the examples. *)

(** A generator whose state is the list of the raw draws still to come
    (zero once it is exhausted): a uniform draw scales one of them into
    [0, 1). *)
Definition unit_interval (x : nat) : Q := Z.of_nat (x mod 1000) # 1000.

Definition tape_uniform (n : nat) (g : list nat) : list Q * list nat :=
  (unit_interval <$> take n (g ++ replicate n 0), drop n g).

(** A sample without replacement: the items of positive probability,
    rotated by one draw, and the first [size] of them. *)
Definition candidates (a : list nat) (p : list npfloat) : list nat :=
  (filter (λ ap, is_positive ap.2 = true) (zip a p)).*1.

Definition tape_choice (a : list nat) (size : nat) (p : list npfloat)
    (g : list nat) : Result (list nat) * list nat :=
  if choice_accepts a size p
  then (Ok (take size (rotate (hd 0 g) (candidates a p))), tail g)
  else (Raise ValueError, g).

(** The state after some writes to the slot [k] of [t]. *)
Definition written (F : Rec → Rec) (k : nat) (t : Task) : Task :=
  set_records (alter F k (records t)) t.

(** What the six scalar writes leave in a slot. *)
Definition scalars (choice : Z) (RT : Q) (o : Outcome) : Rec → Rec :=
  with_reward (to_float (o_reward o)) ∘
  (with_RT RT ∘
   (with_valid (b2q (o_valid o)) ∘
    (with_best (b2q (o_best o)) ∘
     (with_cue (inject_Z (o_cue o)) ∘ with_choice (inject_Z choice))))).

(** A slot function that leaves the six scalar fields as [scalars]
    wrote them. *)
Definition keeps_scalars (choice : Z) (RT : Q) (o : Outcome) (F : Rec → Rec) : Prop :=
  ∀ r, r_choice (F r) = inject_Z choice ∧ r_cue (F r) = inject_Z (o_cue o) ∧
       r_best (F r) = b2q (o_best o) ∧ r_valid (F r) = b2q (o_valid o) ∧
       r_RT (F r) = RT ∧ r_reward (F r) = to_float (o_reward o).

(** A vector with a one at the positions of [idx], and the association
    matrix with a one at the cells of [pairs]. *)
Definition mark (idx : list nat) : list Q :=
  (λ i, if bool_decide (i ∈ idx) then 1%Q else 0%Q) <$> seq 0 N_SLOTS.

Definition mark_pairs (pairs : list (nat * nat)) : list (list Q) :=
  (λ c, (λ p, if bool_decide ((c, p) ∈ pairs) then 1%Q else 0%Q)
          <$> seq 0 N_SLOTS) <$> seq 0 N_SLOTS.

(** The trial built from the sampled [cues_idx] and [pos_idx]. *)
Definition laid_out (cues_idx pos_idx : list nat) (tr : Trial) : Prop :=
  NoDup cues_idx ∧ NoDup pos_idx ∧ length cues_idx = length pos_idx ∧
  Forall (λ i, i < N_SLOTS) cues_idx ∧ Forall (λ i, i < N_SLOTS) pos_idx ∧
  cog tr = mark cues_idx ∧ mot tr = mark pos_idx ∧
  ass tr = mark_pairs (zip cues_idx pos_idx).

(** The object of a one-trial task that holds the worked example, with
    the cursor on its only slot. *)
Definition example_task (r : Q) : Task :=
  {| parameters := {| session := []; named := ∅ |};
     blocks := [(0, 1)];
     trials := [example_trial r];
     records := [zero_record];
     index := Some 0%Z; index_start := Some (-1)%Z; index_stop := Some 1%Z |}.

(** A laid-out trial whose four reward probabilities are all [1/2]. *)
Definition even_trial (r : Q) : Trial :=
  {| mot := [0; 1; 1; 0]%Q;
     cog := [1; 0; 1; 0]%Q;
     ass := [[0; 1; 0; 0]; [0; 0; 0; 0]; [0; 0; 1; 0]; [0; 0; 0; 0]]%Q;
     rwd := [1 # 2; 1 # 2; 1 # 2; 1 # 2]%Q;
     rnd := r |}.

(** [m] relates the state it starts in to the state it ends in by [P],
    whether it returns or raises. *)
Definition preserves {S A} (P : S → S → Prop) (m : M S A) : Prop :=
  ∀ s r s', m s = (r, s') → P s s'.

(** Only the records differ, and there are as many of them. *)
Definition records_only (t t' : Task) : Prop :=
  t' = set_records (records t') t ∧ length (records t') = length (records t).

(** Only the trials differ, and there are as many of them; the
    generator may have advanced. *)
Definition trials_only {R : NumpyRandom} (w w' : World) : Prop :=
  w'.1 = set_trials (trials w'.1) w.1 ∧
  length (trials w'.1) = length (trials w.1).

(** The association loop on one matrix. *)
Fixpoint assoc_cells (pairs : list (nat * nat)) (a : list (list Q))
    : Result (list (list Q)) :=
  match pairs with
  | [] => Ok a
  | (c, p) :: rest =>
      match set_cell a c p with
      | Ok a1 => assoc_cells rest a1
      | Raise e => Raise e
      end
  end.

(** A fresh cell of [self.trials] after the assignment of [rnd]. *)
Definition fresh (r : Q) : Trial := with_rnd zero_trial r.

(** The trial the loop body makes of a fresh cell, for the samples [cs]
    and [ps] and the block [b]. *)
Definition built (b : Block) (r : Q) (tr : Trial) : Prop :=
  ∃ cs ps, laid_out cs ps tr ∧
           length cs = default 2 (n_cue b) ∧
           broadcast4 (b_rwd b) = Ok (rwd tr) ∧ rnd tr = r.

(** The block each trial index belongs to. *)
Definition owners (bs : list Block) : list Block :=
  bs ≫= (λ b, replicate (n_trial b) b).

(** The number of positive weights of a vector. *)
Definition positive_weights (v : list Q) : nat :=
  length (filter (λ x, Qlt_bool 0 x = true) v).

(** A block as the data model describes it: at most four slots, as many
    position weights as cue weights, no negative weight, a positive sum,
    enough positive weights for the cues of a trial, and one reward
    probability for each slot. *)
Definition valid_block (b : Block) : Prop :=
  0 < length (cue b) ∧ length (cue b) ≤ N_SLOTS ∧
  length (pos b) = length (cue b) ∧
  Forall (λ x, (0 <= x)%Q) (cue b) ∧ Forall (λ x, (0 <= x)%Q) (pos b) ∧
  (0 < np_sum (cue b))%Q ∧ (0 < np_sum (pos b))%Q ∧
  default 2 (n_cue b) ≤ positive_weights (cue b) ∧
  default 2 (n_cue b) ≤ positive_weights (pos b) ∧
  length (b_rwd b) = N_SLOTS.

Definition as_block (v : Value) : option Block :=
  match v with
  | ABlock b => Some b
  | SessionList => None
  end.

(** What the two loops of [setup] over the session come to: the blocks
    of the session, the [KeyError] of the first loop, or the
    [TypeError] of the second. *)
Definition lookup_blocks (named : gmap string Block) (names : list string)
    : Result (list Block) :=
  match lookup_names named names with
  | Raise e => Raise e
  | Ok vs =>
      match mapM as_block vs with
      | Some bs => Ok bs
      | None => Raise TypeError
      end
  end.

(** The blocks the session names, in its order: every name is the key
    of a block of the file (the key "session" holds the session list,
    not a block). *)
Definition session_blocks (p : Parameters) (bs : list Block) : Prop :=
  Forall2 (λ name b, name ≠ "session"%string ∧ named p !! name = Some b)
    (session p) bs.

(** Every block of the session is defined and valid. *)
Definition valid_config (p : Parameters) : Prop :=
  ∃ bs, lookup_blocks (named p) (session p) = Ok bs ∧ Forall valid_block bs.

(** The number of ones in a vector. *)
Definition ones (v : list Q) : nat :=
  length (filter (λ x, Qeq_bool x 1 = true) v).

(** The number of ones in a two-dimensional array. *)
Definition count_ones (a : list (list Q)) : nat :=
  length (filter (λ x, Qeq_bool x 1 = true) (concat a)).

(** The value at [a[c, p]]. *)
Definition cell (a : list (list Q)) (c p : nat) : option Q :=
  a !! c ≫= (λ row, row !! p).

Definition cells : list (nat * nat) := cprod (seq 0 N_SLOTS) (seq 0 N_SLOTS).

Definition familiar : Block :=
  {| n_trial := 2; cue := [1; 1; 0; 0]%Q; pos := [1; 1; 1; 1]%Q;
     b_rwd := [3 # 4; 1 # 4; 0; 0]%Q; n_cue := None |}.

Definition novel : Block :=
  {| n_trial := 1; cue := [1; 1; 1; 1]%Q; pos := [0; 1; 1; 1]%Q;
     b_rwd := [1; 1 # 3; 1 # 2; 0]%Q; n_cue := Some 3 |}.

Definition demo : Parameters :=
  {| session := ["familiar"; "novel"]%string;
     named := <["familiar"%string := familiar]>
                (<["novel"%string := novel]> ∅) |}.

Definition demo_tape : list nat := [100; 900; 250; 3; 1; 4; 1; 5; 9; 2; 6; 5; 3; 5].





(** A session that names a block the file does not define, and blocks
    with weights that are all zero, all negative, or missing. *)
Definition zero_weights : Block :=
  {| n_trial := 1; cue := [0; 0; 0; 0]%Q; pos := [1; 1; 1; 1]%Q;
     b_rwd := [3 # 4; 1 # 4; 0; 0]%Q; n_cue := None |}.



(** A block of two trials whose four reward probabilities are positive. *)
Definition positive_rewards : Block :=
  {| n_trial := 2; cue := [1; 1; 1; 0]%Q; pos := [1; 1; 1; 1]%Q;
     b_rwd := [3 # 4; 1 # 4; 1 # 2; 1 # 2]%Q; n_cue := None |}.

Definition one_block (b : Block) : Parameters :=
  {| session := ["only"]%string; named := <["only"%string := b]> ∅ |}.



(** A block of five slots, each of them drawn at every trial. *)
Definition five_slots : Block :=
  {| n_trial := 1; cue := [1; 1; 1; 1; 1]%Q; pos := [1; 1; 1; 1; 1]%Q;
     b_rwd := [3 # 4; 1 # 4; 0; 0]%Q; n_cue := Some 5 |}.

Definition two_blocks (b1 b2 : Block) : Parameters :=
  {| session := ["first"; "second"]%string;
     named := <["first"%string := b1]> (<["second"%string := b2]> ∅) |}.

Definition long_tape : list nat := seq 1 40.

(** The parameters and the number of trials are as before. *)
Definition same_shape {R : NumpyRandom} (w w' : World) : Prop :=
  parameters w'.1 = parameters w.1 ∧
  length (trials w'.1) = length (trials w.1).

(** The states of a task built from the parameters [p], under any
    sequence of calls of its methods. *)
Inductive reachable {R : NumpyRandom} (p : Parameters) : World → Prop :=
  | reach_init g t g' :
      __init__ p g = (Ok t, g') → reachable p (t, g')
  | reach_block w i r t' :
      reachable p w → block i w.1 = (r, t') → reachable p (t', w.2)
  | reach_iter w r w' :
      reachable p w → __iter__ w = (r, w') → reachable p w'
  | reach_next w r t' :
      reachable p w → __next__ w.1 = (r, t') → reachable p (t', w.2)
  | reach_process w trial choice RT model debug r t' :
      reachable p w → process trial choice RT model debug w.1 = (r, t') →
      reachable p (t', w.2).

(** The object [setup] leaves when [__init__] runs it. *)
Definition built_task {R : NumpyRandom} (p : Parameters) (g : rng) : Task :=
  (setup (blank p, g)).2.1.

(** ** The script of the module: the best choice at every trial *)

(** [np.argmax(v)]: the first position of the maximum. *)
Fixpoint argmax_from (best : nat) (m : Q) (i : nat) (l : list Q) : nat :=
  match l with
  | [] => best
  | x :: l' =>
      if Qlt_bool m x then argmax_from i x (S i) l'
      else argmax_from best m (S i) l'
  end.

Definition argmax (l : list Q) : Result nat :=
  match l with
  | [] => Raise ValueError
  | x :: l' => Ok (argmax_from 0 x 1 l')
  end.

(** "Best choice": the position of the present cue of highest reward
    probability. *)
Definition best_choice (trial : Trial) : Result Z :=
  match argmax (zip_with Qmult (cog trial) (rwd trial)) with
  | Raise e => Raise e
  | Ok best_cue =>
      match ass trial !! best_cue with
      | None => Raise IndexError
      | Some row => map_result Z.of_nat (argmax row)
      end
  end.

(** The body of the loop of the usage note: a choice is made for the
    trial and processed. *)
Definition turn (choose : Trial → Result Z) (RT : Q) (debug : bool)
    (trial : Trial) : M Task (PyNum * Z * bool) :=
  let* choice := lift_result (choose trial) in
  process trial choice RT None debug.

(** The calls a [for trial in task] loop with that body makes, until
    [StopIteration]; [None] when [fuel] rounds did not reach it. *)
Fixpoint play (choose : Trial → Result Z) (RT : Q) (debug : bool)
    (fuel : nat) : M Task (option unit) :=
  match fuel with
  | O => ret None
  | S fuel' =>
      λ t,
        match __next__ t with
        | (Ok trial, t') =>
            match turn choose RT debug trial t' with
            | (Ok _, t'') => play choose RT debug fuel' t''
            | (Raise e, t'') => (Raise e, t'')
            end
        | (Raise StopIteration, t') => (Ok (Some tt), t')
        | (Raise e, t') => (Raise e, t')
        end
  end.

(** The script under [if __name__ == "__main__"]: a task is built and
    the best choice is processed, in debug mode, at every trial. *)
Definition __main__ {R : NumpyRandom} (p : Parameters) (fuel : nat) (g : rng)
    : Result (option unit) * option World :=
  match __init__ p g with
  | (Raise e, _) => (Raise e, None)
  | (Ok task, g') =>
      match (__iter__ ;; on_task (play best_choice 0%Q true fuel)) (task, g') with
      | (r, w) => (r, Some w)
      end
  end.

(** * Properties *)

Example process_outcome_example_1 :
  process_outcome (example_trial (3 # 10)) 1 =
  Ok {| o_reward := PyBool true; o_cue := 0; o_best := true; o_valid := true |}.
Proof. reflexivity. Qed.

Example process_outcome_example_2 :
  process_outcome (example_trial (3 # 10)) 2 =
  Ok {| o_reward := PyBool false; o_cue := 2; o_best := false; o_valid := true |}.
Proof. reflexivity. Qed.

Example process_outcome_example_0 :
  process_outcome (example_trial (3 # 10)) 0 = Raise AssertionError.
Proof. reflexivity. Qed.

(** ** The tape generator meets the contract of [np.random] *)

Lemma unit_interval_range x : (0 <= unit_interval x)%Q ∧ (unit_interval x < 1)%Q.
Proof.
  unfold unit_interval, Qle, Qlt; simpl.
  pose proof (Nat.mod_upper_bound x 1000). lia.
Qed.

Lemma candidates_sublist a p : candidates a p `sublist_of` a.
Proof.
  unfold candidates. revert p.
  induction a as [|x a IH]; intros [|y p]; simpl; try apply sublist_nil_l.
  rewrite filter_cons. simpl. destruct (decide _); simpl.
  - apply sublist_skip, IH.
  - apply sublist_cons, IH.
Qed.

Lemma candidates_length a p :
  length p = length a → length (candidates a p) = count_positive p.
Proof.
  unfold candidates, count_positive. revert p.
  induction a as [|x a IH]; intros [|y p]; simpl; try done.
  intros [= Hlen]. rewrite !filter_cons. simpl.
  specialize (IH p Hlen). rewrite length_fmap in IH.
  destruct (decide _); simpl; rewrite ?length_fmap; auto.
Qed.

Lemma NoDup_rotate {A} (n : nat) (l : list A) : NoDup l → NoDup (rotate n l).
Proof.
  intros Hl. unfold rotate.
  eapply NoDup_Permutation_proper; [|exact Hl].
  rewrite Permutation_app_comm. by rewrite take_drop.
Qed.

Lemma tape_choice_returns a size p g l :
  (tape_choice a size p g).1 = Ok l →
  length l = size ∧ l ⊆ a ∧ (NoDup a → NoDup l).
Proof.
  unfold tape_choice. destruct (choice_accepts a size p) eqn:Hacc; [|done].
  simpl. intros [= <-].
  unfold choice_accepts in Hacc.
  repeat (apply andb_prop in Hacc as [Hacc ?]).
  repeat match goal with H : bool_decide _ = true |- _ =>
    apply bool_decide_eq_true in H end.
  split; [|split].
  - rewrite length_take, length_rotate, candidates_length by done. lia.
  - intros x Hx. apply elem_of_take in Hx as (i & Hx & _).
    apply list_elem_of_lookup_2 in Hx. apply elem_of_rotate in Hx.
    eapply sublist_subseteq; [apply candidates_sublist | done].
  - intros Ha. eapply sublist_NoDup; [|apply sublist_take].
    apply NoDup_rotate.
    eapply sublist_NoDup; [exact Ha | apply candidates_sublist].
Qed.

Lemma tape_choice_accepted a size p g :
  choice_accepts a size p = true → is_Ok (tape_choice a size p g).1.
Proof. intros Hacc. unfold tape_choice. rewrite Hacc. by eexists. Qed.

Lemma choice_rejects_not_accepts a size p :
  choice_rejects a size p = true → choice_accepts a size p = false.
Proof.
  unfold choice_rejects, choice_accepts. intros Hrej.
  apply orb_prop in Hrej as [Hrej|Hrej]; [apply orb_prop in Hrej as [Hrej|Hrej]|].
  - apply negb_true_iff in Hrej. rewrite Hrej.
    by rewrite andb_false_r.
  - destruct (forallb _ p) eqn:Hall; [|by rewrite andb_false_r].
    exfalso. apply existsb_exists in Hrej as (x & Hx & Hneg).
    rewrite forallb_forall in Hall. specialize (Hall x Hx).
    by rewrite Hneg in Hall.
  - apply bool_decide_eq_true in Hrej.
    rewrite (bool_decide_eq_false_2 (size ≤ _)) by lia.
    by rewrite andb_false_r.
Qed.

Lemma tape_choice_refuse a size p g :
  choice_rejects a size p = true →
  (tape_choice a size p g).1 = Raise ValueError.
Proof.
  intros Hrej. unfold tape_choice.
  by rewrite (choice_rejects_not_accepts _ _ _ Hrej).
Qed.

Lemma tape_uniform_length n g : length (tape_uniform n g).1 = n.
Proof.
  unfold tape_uniform; simpl.
  rewrite length_fmap, length_take, length_app, length_replicate. lia.
Qed.

Lemma tape_uniform_range n g :
  Forall (λ x, (0 <= x)%Q ∧ (x < 1)%Q) (tape_uniform n g).1.
Proof.
  unfold tape_uniform; simpl. apply Forall_fmap, Forall_true.
  intros x. apply unit_interval_range.
Qed.

Instance TapeRandom : NumpyRandom := {|
  rng := list nat;
  uniform := tape_uniform;
  choice := tape_choice;
  uniform_length := tape_uniform_length;
  uniform_range := tape_uniform_range;
  choice_returns := tape_choice_returns;
  choice_accepted := tape_choice_accepted;
  choice_refuse := tape_choice_refuse
|}.

(** ** Indexing and the record writes of [process] *)

Lemma py_index_lt len i k : py_index len i = Some k → k < len.
Proof.
  unfold py_index. repeat case_decide; intros [= <-]; lia.
Qed.

Lemma py_index_nonneg len (k : nat) :
  k < len → py_index len (Z.of_nat k) = Some k.
Proof.
  intros Hk. unfold py_index. rewrite decide_True by lia.
  by rewrite Nat2Z.id.
Qed.

Lemma record_set_first f t i k :
  index t = Some i → py_index (length (records t)) i = Some k →
  record_set f t = (Ok tt, written f k t).
Proof. intros Hi Hk. unfold record_set. by rewrite Hi, Hk. Qed.

Lemma record_set_again f F t i k :
  index t = Some i → py_index (length (records t)) i = Some k →
  record_set f (written F k t) = (Ok tt, written (f ∘ F) k t).
Proof.
  intros Hi Hk. unfold record_set, written; simpl.
  rewrite Hi, length_alter, Hk. unfold set_records; simpl.
  by rewrite list_alter_alter_eq.
Qed.

Lemma record_set_vec_again v f F t i k :
  index t = Some i → py_index (length (records t)) i = Some k →
  (∃ e, record_set_vec v f (written F k t) = (Raise e, written F k t)) ∨
  (∃ v4, record_set_vec v f (written F k t) = (Ok tt, written (f v4 ∘ F) k t)).
Proof.
  intros Hi Hk. unfold record_set_vec, bind, lift_result.
  destruct (broadcast4 v) as [v4|e]; [right|left; eauto].
  exists v4. by apply (record_set_again _ _ _ i).
Qed.

(** [process] with the cursor on a slot: either the evaluation raises
    and nothing is written, or every write goes to that slot. *)
Lemma process_at_cursor trial choice RT model debug t i k r t' :
  index t = Some i → py_index (length (records t)) i = Some k →
  process trial choice RT model debug t = (r, t') →
  (∃ e, process_outcome trial choice = Raise e ∧ r = Raise e ∧ t' = t) ∨
  (∃ o F, process_outcome trial choice = Ok o ∧
          keeps_scalars choice RT o F ∧
          t' = written F k t ∧
          (r = Ok (o_reward o, o_cue o, o_best o) ∨ is_Raise r) ∧
          (model = None → r = Ok (o_reward o, o_cue o, o_best o))).
Proof.
  intros Hi Hk. unfold process, bind at 1, lift_result.
  destruct (process_outcome trial choice) as [o|e];
    [|intros [= <- <-]; left; eauto].
  assert (Hs : keeps_scalars choice RT o (scalars choice RT o)) by done.
  unfold bind at 1. rewrite (record_set_first _ _ i k) by done.
  do 5 (unfold bind at 1; rewrite (record_set_again _ _ _ i) by done).
  fold (scalars choice RT o). unfold bind at 1.
  assert (Hdebug : ∀ F : Rec → Rec,
    bind (if debug
          then bind get (λ t0 : Task,
                 match index t0 with
                 | Some _ => ret ()
                 | None => raise TypeError
                 end)
          else ret ())
      (λ _, ret (o_reward o, o_cue o, o_best o)) (written F k t) =
    (Ok (o_reward o, o_cue o, o_best o), written F k t)).
  { intros F. unfold bind, get. destruct debug; simpl; [|done].
    by rewrite Hi. }
  destruct model as [m|].
  - unfold bind at 1.
    destruct (record_set_vec_again (m_value m) with_value
                (scalars choice RT o) t i k Hi Hk) as [[e He]|[v1 H1]].
    { rewrite He. intros [= <- <-]. right. exists o, (scalars choice RT o).
      repeat split; try done. right; by eexists. }
    rewrite H1. unfold bind at 1.
    destruct (record_set_vec_again (m_ctx_ass m) with_ctx_ass
                (with_value v1 ∘ scalars choice RT o) t i k Hi Hk)
      as [[e He]|[v2 H2]].
    { rewrite He. intros [= <- <-]. right. eexists o, _.
      repeat split; try done. right; by eexists. }
    rewrite H2.
    destruct (record_set_vec_again (m_ctx_str m) with_ctx_str
                (with_ctx_ass v2 ∘ (with_value v1 ∘ scalars choice RT o))
                t i k Hi Hk) as [[e He]|[v3 H3]].
    { rewrite He. intros [= <- <-]. right. eexists o, _.
      repeat split; try done. right; by eexists. }
    rewrite H3, Hdebug. intros [= <- <-]. right. eexists o, _.
    repeat split; try done. by left.
  - unfold ret at 1. rewrite Hdebug. intros [= <- <-]. right.
    exists o, (scalars choice RT o). repeat split; try done. by left.
Qed.

(** ** Trials as [setup] lays them out *)

Lemma mark_lookup idx i :
  i < N_SLOTS →
  mark idx !! i = Some (if bool_decide (i ∈ idx) then 1%Q else 0%Q).
Proof.
  intros Hi. unfold mark. rewrite list_lookup_fmap, lookup_seq_lt by done.
  done.
Qed.

Lemma mark_length idx : length (mark idx) = N_SLOTS.
Proof. unfold mark. by rewrite length_fmap, length_seq. Qed.

Lemma mark_lookup_one idx i : mark idx !! i = Some 1%Q ↔ i < N_SLOTS ∧ i ∈ idx.
Proof.
  split.
  - intros H. assert (Hi : i < N_SLOTS).
    { apply lookup_lt_Some in H. by rewrite mark_length in H. }
    rewrite mark_lookup in H by done. split; [done|].
    by case_bool_decide.
  - intros [Hi Hin]. rewrite mark_lookup by done.
    by rewrite bool_decide_eq_true_2.
Qed.

Lemma column_mark_pairs pairs p :
  p < N_SLOTS →
  column (mark_pairs pairs) p =
  Ok ((λ c, if bool_decide ((c, p) ∈ pairs) then 1%Q else 0%Q)
        <$> seq 0 N_SLOTS).
Proof.
  intros Hp. unfold column, mark_pairs.
  erewrite (proj2 (mapM_Some _ _ _)); [reflexivity|].
  apply Forall2_fmap, Forall_Forall2_diag, Forall_forall.
  intros c _. rewrite list_lookup_fmap, lookup_seq_lt by done. done.
Qed.

Lemma nonzero_from_indicator (P : nat → Prop) `{∀ c, Decision (P c)} i n :
  nonzero_from i ((λ c, if bool_decide (P c) then 1%Q else 0%Q) <$> seq i n) =
  filter P (seq i n).
Proof.
  revert i. induction n as [|n IH]; intros i; [done|].
  simpl. rewrite IH, filter_cons.
  case_bool_decide; by destruct (decide (P i)).
Qed.

Lemma filter_seq_unique (P : nat → Prop) `{∀ c, Decision (P c)} n c0 :
  c0 < n → P c0 → (∀ c, P c → c = c0) → filter P (seq 0 n) = [c0].
Proof.
  intros Hc0 HP Huniq. apply Permutation_singleton_r, NoDup_Permutation.
  - apply NoDup_filter, NoDup_seq.
  - apply NoDup_singleton.
  - intros c. rewrite list_elem_of_filter, elem_of_seq, list_elem_of_singleton.
    split; [intros [? _]; by apply Huniq|intros ->; split; [done|lia]].
Qed.

Lemma zip_unique_l (cs ps : list nat) c1 c2 p :
  NoDup ps → (c1, p) ∈ zip cs ps → (c2, p) ∈ zip cs ps → c1 = c2.
Proof.
  intros Hnd H1 H2.
  apply list_elem_of_lookup in H1 as [i Hi], H2 as [j Hj].
  apply lookup_zip_with_Some in Hi as (x1 & y1 & [= -> ->] & Hx1 & Hy1).
  apply lookup_zip_with_Some in Hj as (x2 & y2 & [= -> ->] & Hx2 & Hy2).
  assert (i = j) as -> by (eapply NoDup_lookup; eauto). congruence.
Qed.

Lemma zip_unique_r (cs ps : list nat) c p1 p2 :
  NoDup cs → (c, p1) ∈ zip cs ps → (c, p2) ∈ zip cs ps → p1 = p2.
Proof.
  intros Hnd H1 H2.
  apply list_elem_of_lookup in H1 as [i Hi], H2 as [j Hj].
  apply lookup_zip_with_Some in Hi as (x1 & y1 & [= -> ->] & Hx1 & Hy1).
  apply lookup_zip_with_Some in Hj as (x2 & y2 & [= -> ->] & Hx2 & Hy2).
  assert (i = j) as -> by (eapply NoDup_lookup; eauto). congruence.
Qed.

Lemma zip_partner_l (cs ps : list nat) p :
  length cs = length ps → p ∈ ps → ∃ c, (c, p) ∈ zip cs ps.
Proof.
  intros Hlen Hp. apply list_elem_of_lookup in Hp as [i Hi].
  destruct (lookup_lt_is_Some_2 cs i) as [c Hc].
  { rewrite Hlen. by eapply lookup_lt_Some. }
  exists c. apply list_elem_of_lookup. exists i.
  apply lookup_zip_with_Some. eauto.
Qed.

Lemma zip_partner_r (cs ps : list nat) c :
  length cs = length ps → c ∈ cs → ∃ p, (c, p) ∈ zip cs ps.
Proof.
  intros Hlen Hc. apply list_elem_of_lookup in Hc as [i Hi].
  destruct (lookup_lt_is_Some_2 ps i) as [p Hp].
  { rewrite <- Hlen. by eapply lookup_lt_Some. }
  exists p. apply list_elem_of_lookup. exists i.
  apply lookup_zip_with_Some. eauto.
Qed.

(** The cue lookup of [process] on a laid-out trial: the one cue paired
    with a position in play, none for a position that is not. *)
Lemma nonzero_column_marked cs ps tr p :
  laid_out cs ps tr → p ∈ ps →
  ∃ c, column (ass tr) p = Ok ((λ c, if bool_decide ((c, p) ∈ zip cs ps)
                                      then 1%Q else 0%Q) <$> seq 0 N_SLOTS) ∧
       nonzero ((λ c, if bool_decide ((c, p) ∈ zip cs ps) then 1%Q else 0%Q)
                  <$> seq 0 N_SLOTS) = [c] ∧
       c ∈ cs ∧ c < N_SLOTS ∧ (c, p) ∈ zip cs ps.
Proof.
  intros (Hc & Hp & Hlen & Hcr & Hpr & _ & _ & Hass) Hin.
  destruct (zip_partner_l cs ps p Hlen Hin) as [c Hcp].
  assert (Hccs : c ∈ cs) by (by apply elem_of_zip_l in Hcp).
  assert (Hc4 : c < N_SLOTS) by (by rewrite Forall_forall in Hcr; apply Hcr).
  assert (Hp4 : p < N_SLOTS) by (by rewrite Forall_forall in Hpr; apply Hpr).
  exists c. rewrite Hass, column_mark_pairs by done.
  split; [done|]. split; [|done].
  unfold nonzero.
  rewrite (nonzero_from_indicator (λ c, (c, p) ∈ zip cs ps)).
  apply filter_seq_unique; [done..|].
  intros c' Hc'. by eapply zip_unique_l.
Qed.

Lemma nonzero_column_unmarked cs ps tr p :
  laid_out cs ps tr → p < N_SLOTS → p ∉ ps →
  ∃ col, column (ass tr) p = Ok col ∧ nonzero col = [].
Proof.
  intros (Hc & Hp & Hlen & Hcr & Hpr & _ & _ & Hass) Hp4 Hnin.
  eexists. rewrite Hass, column_mark_pairs by done. split; [done|].
  unfold nonzero.
  rewrite (nonzero_from_indicator (λ c, (c, p) ∈ zip cs ps)).
  destruct (filter _ _) as [|c l] eqn:Hf; [done|].
  assert (Hcf : c ∈ c :: l) by left. rewrite <- Hf in Hcf.
  apply list_elem_of_filter in Hcf as [Hcp _].
  by apply elem_of_zip_r in Hcp.
Qed.

(** ** [max] and the evaluation of a choice *)

Lemma Qlt_bool_iff x y : Qlt_bool x y = true ↔ (x < y)%Q.
Proof.
  unfold Qlt_bool. rewrite negb_true_iff. split.
  - intros H. apply Qnot_le_lt. intros Hle.
    apply Qle_bool_iff in Hle. congruence.
  - intros H. destruct (Qle_bool y x) eqn:Hle; [|done].
    apply Qle_bool_iff in Hle. exfalso. by eapply Qlt_not_le.
Qed.

Lemma py_max_from_spec m l :
  (py_max_from m l = m ∨ py_max_from m l ∈ l) ∧
  (m <= py_max_from m l)%Q ∧
  Forall (λ x, (x <= py_max_from m l)%Q) l.
Proof.
  revert m. induction l as [|x l IH]; intros m; simpl.
  - split; [by left|]. split; [apply Qle_refl|constructor].
  - destruct (IH (if Qlt_bool m x then x else m)) as (Hin & Hle & Hall).
    destruct (Qlt_bool m x) eqn:Hlt.
    + apply Qlt_bool_iff in Hlt. split; [|split].
      * right. destruct Hin as [->|Hin]; [left|by right].
      * eapply Qle_trans; [apply Qlt_le_weak, Hlt|done].
      * by constructor.
    + assert (Hxm : (x <= m)%Q).
      { apply Qnot_lt_le. intros H. apply Qlt_bool_iff in H. congruence. }
      split; [|split].
      * destruct Hin as [->|Hin]; [by left|by right; right].
      * done.
      * constructor; [|done]. by eapply Qle_trans.
Qed.

Lemma py_max_spec l mx :
  py_max l = Ok mx → mx ∈ l ∧ Forall (λ x, (x <= mx)%Q) l.
Proof.
  destruct l as [|x l]; [done|]. simpl. intros [= <-].
  destruct (py_max_from_spec x l) as (Hin & Hle & Hall). split.
  - destruct Hin as [->|Hin]; [left|by right].
  - by constructor.
Qed.

Lemma py_max_nonempty l : l ≠ [] → is_Ok (py_max l).
Proof. destruct l; [done|]. intros _. by eexists. Qed.

(** The outcome for a position in play of a laid-out trial. *)
Lemma process_outcome_marked cs ps tr choice :
  laid_out cs ps tr → length (rwd tr) = N_SLOTS →
  (0 ≤ choice)%Z → Z.to_nat choice ∈ ps →
  ∃ c rc mx,
    c < N_SLOTS ∧ (c, Z.to_nat choice) ∈ zip cs ps ∧
    rwd tr !! c = Some rc ∧
    py_max (zip_with Qmult (cog tr) (rwd tr)) = Ok mx ∧
    process_outcome tr choice =
    Ok {| o_cue := Z.of_nat c; o_valid := true;
          o_best := Qeq_bool mx (1 * rc);
          o_reward := PyBool (Qlt_bool (rnd tr) rc) |}.
Proof.
  intros Hlo Hrwd Hch Hin.
  destruct (nonzero_column_marked cs ps tr _ Hlo Hin)
    as (c & Hcol & Hnz & Hccs & Hc4 & Hcp).
  destruct Hlo as (Hc & Hp & Hlen & Hcr & Hpr & Hcog & Hmot & Hass).
  assert (Hp4 : Z.to_nat choice < N_SLOTS).
  { rewrite Forall_forall in Hpr. by apply Hpr. }
  destruct (lookup_lt_is_Some_2 (rwd tr) c) as [rc Hrc]; [by rewrite Hrwd|].
  destruct (py_max_nonempty (zip_with Qmult (cog tr) (rwd tr))) as [mx Hmx].
  { intros Hnil. apply (f_equal length) in Hnil.
    rewrite length_zip_with, Hcog, mark_length, Hrwd in Hnil. done. }
  exists c, rc, mx. repeat split; try done.
  unfold process_outcome. rewrite decide_False by lia.
  rewrite Hmot, (proj2 (mark_lookup_one ps _)) by done.
  rewrite Hcol, Hnz, Hmx.
  assert (Hpc : zip_with Qmult (cog tr) (rwd tr) !! c = Some (1 * rc)%Q).
  { apply lookup_zip_with_Some. exists 1%Q, rc. split; [done|].
    split; [|done]. rewrite Hcog. by apply mark_lookup_one. }
  by rewrite Hpc, Hrc.
Qed.

(** The outcome for a position that is not in play: the assertion on
    the cue lookup fails. *)
Lemma process_outcome_unmarked cs ps tr choice :
  laid_out cs ps tr → (0 ≤ choice)%Z → Z.to_nat choice < N_SLOTS →
  Z.to_nat choice ∉ ps →
  process_outcome tr choice = Raise AssertionError.
Proof.
  intros Hlo Hch Hp4 Hnin.
  destruct (nonzero_column_unmarked cs ps tr _ Hlo Hp4 Hnin)
    as (col & Hcol & Hnz).
  destruct Hlo as (Hc & Hp & Hlen & Hcr & Hpr & Hcog & Hmot & Hass).
  unfold process_outcome. rewrite decide_False by lia.
  rewrite Hmot, mark_lookup by done.
  by rewrite Hcol, Hnz.
Qed.

(** Reading the outcome of a choice back: the steps that led to it. *)
Lemma process_outcome_inv tr choice o :
  (0 ≤ choice)%Z → process_outcome tr choice = Ok o →
  ∃ m col c mx pc rc,
    mot tr !! Z.to_nat choice = Some m ∧
    column (ass tr) (Z.to_nat choice) = Ok col ∧ nonzero col = [c] ∧
    py_max (zip_with Qmult (cog tr) (rwd tr)) = Ok mx ∧
    zip_with Qmult (cog tr) (rwd tr) !! c = Some pc ∧
    rwd tr !! c = Some rc ∧
    o = {| o_cue := Z.of_nat c; o_valid := Qeq_bool m 1;
           o_best := Qeq_bool mx pc;
           o_reward := PyBool (Qlt_bool (rnd tr) rc) |}.
Proof.
  intros Hch. unfold process_outcome. rewrite decide_False by lia.
  destruct (mot tr !! _) as [m|] eqn:Hm; [|done].
  destruct (column _ _) as [col|] eqn:Hcol; [|done].
  destruct (nonzero col) as [|c [|]] eqn:Hnz; [done| |done].
  destruct (py_max _) as [mx|] eqn:Hmx; [|done].
  destruct (zip_with _ _ _ !! c) as [pc|] eqn:Hpc; [|done].
  destruct (rwd tr !! c) as [rc|] eqn:Hrc; [|done].
  intros [= <-]. by exists m, col, c, mx, pc, rc.
Qed.

Lemma process_no_model trial choice RT debug t i k o :
  index t = Some i → py_index (length (records t)) i = Some k →
  process_outcome trial choice = Ok o →
  process trial choice RT None debug t =
  (Ok (o_reward o, o_cue o, o_best o), written (scalars choice RT o) k t).
Proof.
  intros Hi Hk Ho. unfold process, bind at 1, lift_result. rewrite Ho.
  unfold bind at 1. rewrite (record_set_first _ _ i k) by done.
  do 5 (unfold bind at 1; rewrite (record_set_again _ _ _ i) by done).
  fold (scalars choice RT o). unfold bind, ret, get.
  destruct debug; simpl; [|done]. by rewrite Hi.
Qed.

Lemma process_raises trial choice RT model debug t e :
  process_outcome trial choice = Raise e →
  process trial choice RT model debug t = (Raise e, t).
Proof. intros He. unfold process, bind at 1, lift_result. by rewrite He. Qed.

Lemma written_frame F k t :
  parameters (written F k t) = parameters t ∧
  blocks (written F k t) = blocks t ∧
  trials (written F k t) = trials t ∧
  index (written F k t) = index t ∧
  index_start (written F k t) = index_start t ∧
  index_stop (written F k t) = index_stop t ∧
  length (records (written F k t)) = length (records t) ∧
  (∀ j, j ≠ k → records (written F k t) !! j = records t !! j) ∧
  records (written F k t) !! k = F <$> records t !! k.
Proof.
  unfold written; simpl. repeat split; try done.
  - apply length_alter.
  - intros j Hj. by apply list_lookup_alter_ne.
  - apply list_lookup_alter_eq.
Qed.

Lemma example_trial_laid_out r : laid_out [0; 2] [1; 2] (example_trial r).
Proof.
  unfold laid_out, N_SLOTS. repeat split; try reflexivity; compute_done.
Qed.

(** ** The choice-evaluation claims *)

(** C4: for every trial and every choice below zero the evaluation is
    [reward = 0.0], [best = False], [cue = -1], [valid = False], whatever
    the trial holds ([rnd] is not compared); with the cursor on a slot,
    [process] returns [(0.0, -1, False)] and records these values there. *)
Theorem C4_no_choice (trial : Trial) (choice : Z) :
  (choice < 0)%Z →
  process_outcome trial choice =
    Ok {| o_reward := PyFloat 0; o_cue := -1; o_best := false;
          o_valid := false |} ∧
  ∀ RT debug t i k rec0,
    index t = Some i → py_index (length (records t)) i = Some k →
    records t !! k = Some rec0 →
    ∃ t' rec,
      process trial choice RT None debug t = (Ok (PyFloat 0, (-1)%Z, false), t') ∧
      records t' !! k = Some rec ∧
      r_choice rec = inject_Z choice ∧ r_cue rec = inject_Z (-1) ∧
      r_best rec = 0%Q ∧ r_valid rec = 0%Q ∧ r_reward rec = 0%Q ∧
      r_RT rec = RT.
Proof.
  intros Hneg.
  assert (Ho : process_outcome trial choice =
    Ok {| o_reward := PyFloat 0; o_cue := -1; o_best := false;
          o_valid := false |}).
  { unfold process_outcome. by rewrite decide_True. }
  split; [done|]. intros RT debug t i k rec0 Hi Hk Hrec.
  rewrite (process_no_model _ _ _ _ _ i k _ Hi Hk Ho). simpl.
  eexists _, _. split; [reflexivity|].
  destruct (written_frame
    (scalars choice RT {| o_reward := PyFloat 0; o_cue := -1;
                          o_best := false; o_valid := false |}) k t)
    as (_ & _ & _ & _ & _ & _ & _ & _ & Hlook).
  rewrite Hlook, Hrec. simpl. split; [reflexivity|]. done.
Qed.

Lemma C4_no_choice_witness :
  process_outcome (example_trial (3 # 10)) (-1) =
    Ok {| o_reward := PyFloat 0; o_cue := -1; o_best := false;
          o_valid := false |} ∧
  (process (example_trial (3 # 10)) (-1) 0 None false
     (example_task (3 # 10))).1 = Ok (PyFloat 0, (-1)%Z, false).
Proof.
  destruct (C4_no_choice (example_trial (3 # 10)) (-1)) as [Ho Hp]; [lia|].
  split; [exact Ho|].
  destruct (Hp 0%Q false (example_task (3 # 10)) 0%Z 0 zero_record)
    as (t' & rec & -> & _); reflexivity.
Defined.

(** C2, as the code has it: for a laid-out trial and a choice within the
    four positions that is not marked in [mot], the cue lookup finds no
    association, the assertion fails and [process] raises
    [AssertionError] with nothing recorded; no [valid = False] result
    with default values is returned. *)
Theorem C2_unmarked_choice_asserts (cs ps : list nat) (trial : Trial)
    (choice : Z) (RT : Q) (model : option Model) (debug : bool) (t : Task) :
  laid_out cs ps trial →
  (0 ≤ choice)%Z → Z.to_nat choice < N_SLOTS →
  mot trial !! Z.to_nat choice ≠ Some 1%Q →
  process_outcome trial choice = Raise AssertionError ∧
  process trial choice RT model debug t = (Raise AssertionError, t).
Proof.
  intros Hlo Hch Hp4 Hmot.
  assert (Hnin : Z.to_nat choice ∉ ps).
  { intros Hin. apply Hmot.
    destruct Hlo as (_ & _ & _ & _ & _ & _ & -> & _).
    by apply mark_lookup_one. }
  pose proof (process_outcome_unmarked cs ps trial choice Hlo Hch Hp4 Hnin)
    as Ho.
  split; [done|]. by apply process_raises.
Qed.

Lemma C2_unmarked_choice_asserts_witness :
  process (example_trial (3 # 10)) 0 0 None false (example_task (3 # 10)) =
  (Raise AssertionError, example_task (3 # 10)).
Proof.
  apply (C2_unmarked_choice_asserts [0; 2] [1; 2]).
  - apply example_trial_laid_out.
  - lia.
  - simpl. unfold N_SLOTS. lia.
  - simpl. discriminate.
Defined.

(** C2 fails as stated: position 0 of the worked example is not marked
    in [mot], and [process] raises instead of returning [valid = False]
    with the default values. *)
Lemma C2_counterexample :
  (0 ≤ 0)%Z ∧
  mot (example_trial (3 # 10)) !! Z.to_nat 0 = Some 0%Q ∧
  process (example_trial (3 # 10)) 0 0 None false (example_task (3 # 10)) =
    (Raise AssertionError, example_task (3 # 10)) ∧
  ¬ (∃ t', process (example_trial (3 # 10)) 0 0 None false
             (example_task (3 # 10)) = (Ok (PyFloat 0, (-1)%Z, false), t')).
Proof.
  split; [lia|]. split; [reflexivity|]. split; [reflexivity|].
  intros [t' Ht']. discriminate Ht'.
Qed.

(** ** What a method leaves unchanged *)

Section Preserves.
Context {S : Type} (P : S → S → Prop) `{!Reflexive P, !Transitive P}.

Lemma preserves_ret {A} (a : A) : preserves P (ret a).
Proof. intros s r s' [= _ <-]. reflexivity. Qed.

Lemma preserves_raise {A} e : preserves P (@raise S A e).
Proof. intros s r s' [= _ <-]. reflexivity. Qed.

Lemma preserves_lift_result {A} (x : Result A) : preserves P (lift_result x).
Proof. intros s r s' [= _ <-]. reflexivity. Qed.

Lemma preserves_get : preserves P get.
Proof. intros s r s' [= _ <-]. reflexivity. Qed.

Lemma preserves_bind {A B} (m : M S A) (k : A → M S B) :
  preserves P m → (∀ a, preserves P (k a)) → preserves P (bind m k).
Proof.
  intros Hm Hk s r s'. unfold bind.
  destruct (m s) as [[a|e] s1] eqn:Hms.
  - intros Hks. transitivity s1; [by eapply Hm|by eapply Hk].
  - intros [= _ <-]. by eapply Hm.
Qed.
End Preserves.

Instance records_only_refl : Reflexive records_only.
Proof. intros [? ? ? ? ? ? ?]. by split. Qed.

Instance records_only_trans : Transitive records_only.
Proof.
  intros t1 t2 t3 [H12 L12] [H23 L23]. split; [|congruence].
  rewrite H23 at 1. rewrite H12. reflexivity.
Qed.

Instance trials_only_refl {R : NumpyRandom} : Reflexive trials_only.
Proof. intros [[? ? ? ? ? ? ?] g]. by split. Qed.

Instance trials_only_trans {R : NumpyRandom} : Transitive trials_only.
Proof.
  intros w1 w2 w3 [H12 L12] [H23 L23]. split; [|congruence].
  rewrite H23 at 1. rewrite H12. reflexivity.
Qed.

Lemma record_set_records_only f : preserves records_only (record_set f).
Proof.
  intros t r t'. unfold record_set.
  destruct (index t) as [i|].
  - destruct (py_index _ _) as [k|]; intros [= _ <-]; [|reflexivity].
    split; [done|]. simpl. apply length_alter.
  - intros [= _ <-]. split; [done|]. simpl. apply length_fmap.
Qed.

Lemma process_records_only trial choice RT model debug :
  preserves records_only (process trial choice RT model debug).
Proof.
  unfold process, record_set_vec.
  repeat first
    [ apply preserves_bind; [apply _ | | intros ?]
    | apply record_set_records_only
    | apply preserves_lift_result; apply _
    | apply preserves_ret; apply _
    | apply preserves_get; apply _ ].
  - destruct model; unfold record_set_vec.
    + repeat first
        [ apply preserves_bind; [apply _ | | intros ?]
        | apply record_set_records_only
        | apply preserves_lift_result; apply _ ].
    + apply preserves_ret; apply _.
  - destruct debug; [|apply preserves_ret; apply _].
    apply preserves_bind; [apply _|apply preserves_get; apply _|].
    intros t0. destruct (index t0);
      [apply preserves_ret | apply preserves_raise]; apply _.
Qed.

(** Outside iteration the cursor is [None], and numpy reads
    [self.records[None]] as the whole array: every slot is written. *)
Example process_without_cursor :
  r_choice <$>
    records (process (example_trial (3 # 10)) 1 0 None false
               (set_records [zero_record; zero_record]
                  (set_cursor None None None (example_task (3 # 10))))).2
  = [1%Q; 1%Q].
Proof. reflexivity. Qed.

(** C9: a call of [process], whether it returns or raises, leaves the
    trials, the cursor and its bounds, the block ranges and the
    parameters as they were, and as many records; with the cursor on a
    record slot it changes that slot only, every other slot is as
    before, and when it returns the slot holds the choice, the reaction
    time and the evaluated cue, best, valid and reward. *)
Theorem C9_process_frame (trial : Trial) (choice : Z) (RT : Q)
    (model : option Model) (debug : bool) (t t' : Task)
    (r : Result (PyNum * Z * bool)) :
  process trial choice RT model debug t = (r, t') →
  (trials t' = trials t ∧ index t' = index t ∧
   index_start t' = index_start t ∧ index_stop t' = index_stop t ∧
   parameters t' = parameters t ∧ blocks t' = blocks t ∧
   length (records t') = length (records t)) ∧
  (∀ i k, index t = Some i → py_index (length (records t)) i = Some k →
     (∀ j, j ≠ k → records t' !! j = records t !! j) ∧
     (∀ res, r = Ok res →
        ∃ o rec, process_outcome trial choice = Ok o ∧
          res = (o_reward o, o_cue o, o_best o) ∧
          records t' !! k = Some rec ∧
          r_choice rec = inject_Z choice ∧ r_cue rec = inject_Z (o_cue o) ∧
          r_best rec = b2q (o_best o) ∧ r_valid rec = b2q (o_valid o) ∧
          r_RT rec = RT ∧ r_reward rec = to_float (o_reward o))).
Proof.
  intros Hp. split.
  - apply process_records_only in Hp as [Heq Hlen].
    destruct t, t'. unfold set_records in Heq. simpl in *.
    by injection Heq as -> -> -> -> -> ->.
  - intros i k Hi Hk.
    destruct (process_at_cursor _ _ _ _ _ _ _ _ _ _ Hi Hk Hp)
      as [(e & He & -> & ->)|(o & F & Ho & HF & -> & Hr & _)].
    + split; [done|]. intros res [=].
    + destruct (written_frame F k t)
        as (_ & _ & _ & _ & _ & _ & _ & H8 & H9).
      split; [done|].
      intros res ->. destruct Hr as [[= ->]|[e [=]]].
      destruct (lookup_lt_is_Some_2 (records t) k) as [rec0 Hrec0].
      { by eapply py_index_lt. }
      exists o, (F rec0). split; [done|]. split; [done|].
      rewrite H9, Hrec0. split; [done|]. apply HF.
Qed.

Lemma C9_process_frame_witness :
  trials (process (example_trial (3 # 10)) 1 (1 # 2) None false
            (example_task (3 # 10))).2 = [example_trial (3 # 10)] ∧
  index (process (example_trial (3 # 10)) 1 (1 # 2) None false
           (example_task (3 # 10))).2 = Some 0%Z.
Proof.
  destruct (process (example_trial (3 # 10)) 1 (1 # 2) None false
              (example_task (3 # 10))) as [r t'] eqn:Hp.
  destruct (C9_process_frame (example_trial (3 # 10)) 1 (1 # 2) None false
              (example_task (3 # 10)) t' r Hp)
    as ((Ht & Hi & _) & _).
  simpl. by rewrite Ht, Hi.
Defined.

Lemma bind_Ok_inv {S A B} (m : M S A) (k : A → M S B) s b s' :
  bind m k s = (Ok b, s') →
  ∃ a s1, m s = (Ok a, s1) ∧ k a s1 = (Ok b, s').
Proof.
  unfold bind. destruct (m s) as [[a|e] s1]; [eauto|done].
Qed.

Lemma bind_Ok {S A B} (m : M S A) (k : A → M S B) s a s1 :
  m s = (Ok a, s1) → bind m k s = k a s1.
Proof. intros H. unfold bind. by rewrite H. Qed.

Lemma bind_Raise {S A B} (m : M S A) (k : A → M S B) s e s1 :
  m s = (Raise e, s1) → bind m k s = (Raise e, s1).
Proof. intros H. unfold bind. by rewrite H. Qed.

(** ** The reward and the best choice *)

(** What [process] returns is what the evaluation of the choice found. *)
Lemma process_Ok_inv trial choice RT model debug (t t' : Task) r :
  process trial choice RT model debug t = (Ok r, t') →
  ∃ o, process_outcome trial choice = Ok o ∧
       r = (o_reward o, o_cue o, o_best o).
Proof.
  unfold process. intros H.
  apply bind_Ok_inv in H as (o & t0 & Ho & H).
  unfold lift_result in Ho. injection Ho as Ho _.
  do 8 (apply bind_Ok_inv in H as (? & ? & _ & H)).
  injection H as <- _. by exists o.
Qed.

(** With the cursor on a slot and no model, [process] returns for every
    position in play of a laid-out trial, and records what it found. *)
Lemma process_in_play cs ps trial choice RT debug (t : Task) i k :
  laid_out cs ps trial → length (rwd trial) = N_SLOTS →
  (0 ≤ choice)%Z → mot trial !! Z.to_nat choice = Some 1%Q →
  index t = Some i → py_index (length (records t)) i = Some k →
  ∃ c rc mx rec,
    (c, Z.to_nat choice) ∈ zip cs ps ∧
    cog trial !! c = Some 1%Q ∧ rwd trial !! c = Some rc ∧
    py_max (zip_with Qmult (cog trial) (rwd trial)) = Ok mx ∧
    records t !! k = Some rec ∧
    process trial choice RT None debug t =
    (Ok (PyBool (Qlt_bool (rnd trial) rc), Z.of_nat c, Qeq_bool mx (1 * rc)),
     written
       (scalars choice RT
          {| o_cue := Z.of_nat c; o_valid := true;
             o_best := Qeq_bool mx (1 * rc);
             o_reward := PyBool (Qlt_bool (rnd trial) rc) |}) k t).
Proof.
  intros Hlo Hrwd Hch Hmot Hi Hk.
  assert (Hin : Z.to_nat choice ∈ ps).
  { destruct Hlo as (_ & _ & _ & _ & _ & _ & Hm & _).
    rewrite Hm in Hmot. by apply mark_lookup_one in Hmot as [_ ?]. }
  destruct (process_outcome_marked cs ps trial choice Hlo Hrwd Hch Hin)
    as (c & rc & mx & Hc4 & Hcp & Hrc & Hmx & Ho).
  destruct (lookup_lt_is_Some_2 (records t) k) as [rec Hrec];
    [by eapply py_index_lt|].
  exists c, rc, mx, rec. split; [done|].
  split.
  { destruct Hlo as (_ & _ & _ & _ & _ & Hcog & _ & _).
    rewrite Hcog. apply mark_lookup_one. split; [done|].
    by apply elem_of_zip_l in Hcp. }
  do 3 (split; [done|]).
  by rewrite (process_no_model _ _ _ _ _ i k _ Hi Hk Ho).
Qed.

(** C5: for a non-negative choice, whenever [process] returns, the
    reward it returns is the boolean [rnd < rwd[cue]] for the cue it
    returns.  With the cursor on a record slot it does return for every
    position in play of a laid-out trial: the cue is the one associated
    with the position, the reward is true exactly when [rnd] is below
    the reward probability of that cue, and it is recorded in the
    slot. *)
Theorem C5_reward_threshold (trial : Trial) (choice : Z) (RT : Q)
    (debug : bool) (t : Task) :
  (0 ≤ choice)%Z →
  (∀ model reward cue best t',
     process trial choice RT model debug t = (Ok (reward, cue, best), t') →
     ∃ c rc b, cue = Z.of_nat c ∧ rwd trial !! c = Some rc ∧
               reward = PyBool b ∧ (b = true ↔ (rnd trial < rc)%Q)) ∧
  (∀ cs ps i k,
     laid_out cs ps trial → length (rwd trial) = N_SLOTS →
     mot trial !! Z.to_nat choice = Some 1%Q →
     index t = Some i → py_index (length (records t)) i = Some k →
     ∃ c rc b best t' rec,
       process trial choice RT None debug t =
         (Ok (PyBool b, Z.of_nat c, best), t') ∧
       (c, Z.to_nat choice) ∈ zip cs ps ∧
       rwd trial !! c = Some rc ∧ (b = true ↔ (rnd trial < rc)%Q) ∧
       records t' !! k = Some rec ∧ r_reward rec = b2q b).
Proof.
  intros Hch. split.
  - intros model reward cue best t' H.
    apply process_Ok_inv in H as (o & Ho & [= -> -> ->]).
    destruct (process_outcome_inv trial choice o Hch Ho)
      as (m & col & c & mx & pc & rc & _ & _ & _ & _ & _ & Hrc & ->).
    exists c, rc, (Qlt_bool (rnd trial) rc). simpl.
    repeat split; try done; apply Qlt_bool_iff.
  - intros cs ps i k Hlo Hrwd Hmot Hi Hk.
    destruct (process_in_play cs ps trial choice RT debug t i k)
      as (c & rc & mx & rec & Hcp & _ & Hrc & _ & Hrec & Hp); try done.
    eexists c, rc, _, _, _, _. split; [exact Hp|].
    do 2 (split; [done|]). split; [apply Qlt_bool_iff|].
    destruct (written_frame
                (scalars choice RT
                   {| o_cue := Z.of_nat c; o_valid := true;
                      o_best := Qeq_bool mx (1 * rc);
                      o_reward := PyBool (Qlt_bool (rnd trial) rc) |}) k t)
      as (_ & _ & _ & _ & _ & _ & _ & _ & Hk').
    rewrite Hk', Hrec. done.
Qed.

Lemma C5_reward_threshold_witness :
  (∃ c best t',
     process (even_trial (3 # 10)) 1 0 None false (example_task (3 # 10)) =
     (Ok (PyBool true, Z.of_nat c, best), t')) ∧
  (∃ c best t',
     process (even_trial (7 # 10)) 1 0 None false (example_task (7 # 10)) =
     (Ok (PyBool false, Z.of_nat c, best), t')).
Proof.
  split.
  - destruct (C5_reward_threshold (even_trial (3 # 10)) 1 0 false
                (example_task (3 # 10))) as [_ H]; [lia|].
    destruct (H [0; 2] [1; 2] 0%Z 0)
      as (c & rc & b & best & t' & rec & Hp & _ & Hrc & Hiff & _);
      [unfold laid_out, N_SLOTS; repeat split; try reflexivity; compute_done
      |reflexivity|reflexivity|reflexivity|reflexivity|].
    exists c, best, t'.
    assert (Hb : b = true); [|rewrite Hb in Hp; exact Hp].
    apply Hiff.
    assert (Hc : c < 4) by (by apply lookup_lt_Some in Hrc).
    destruct c as [|[|[|[|c]]]]; [| | |  |simpl in Hc; lia];
      injection Hrc as <-; unfold Qlt; simpl; lia.
  - destruct (C5_reward_threshold (even_trial (7 # 10)) 1 0 false
                (example_task (7 # 10))) as [_ H]; [lia|].
    destruct (H [0; 2] [1; 2] 0%Z 0)
      as (c & rc & b & best & t' & rec & Hp & _ & Hrc & Hiff & _);
      [unfold laid_out, N_SLOTS; repeat split; try reflexivity; compute_done
      |reflexivity|reflexivity|reflexivity|reflexivity|].
    exists c, best, t'.
    assert (Hb : b = false); [|rewrite Hb in Hp; exact Hp].
    destruct b; [|done]. exfalso.
    assert (Hlt : (7 # 10 < rc)%Q) by (by apply Hiff).
    assert (Hc : c < 4) by (by apply lookup_lt_Some in Hrc).
    destruct c as [|[|[|[|c]]]]; [| | |  |simpl in Hc; lia];
      injection Hrc as <-; unfold Qlt in Hlt; simpl in Hlt; lia.
Defined.

(** C7: for a laid-out trial with non-negative reward probabilities and
    a choice marked in [mot], with the cursor on a record slot:
    [process] returns the cue associated with the position, itself
    marked in [cog], and [best], which is true exactly when the reward
    probability of that cue is at least that of every cue marked in
    [cog] (ties count as best); the slot records [best] and
    [valid = 1]; given a model, [process] returns the same or raises.
    In the worked example position 1 is the best choice and position 2
    is not. *)
Theorem C7_best_is_max :
  (∀ (cs ps : list nat) (trial : Trial) (choice : Z) (RT : Q)
     (debug : bool) (t : Task) (i : Z) (k : nat),
     laid_out cs ps trial → length (rwd trial) = N_SLOTS →
     Forall (λ x, (0 <= x)%Q) (rwd trial) →
     (0 ≤ choice)%Z → mot trial !! Z.to_nat choice = Some 1%Q →
     index t = Some i → py_index (length (records t)) i = Some k →
     ∃ reward c rc best t' rec,
       process trial choice RT None debug t =
         (Ok (reward, Z.of_nat c, best), t') ∧
       (∀ model r t'',
          process trial choice RT (Some model) debug t = (r, t'') →
          r = Ok (reward, Z.of_nat c, best) ∨ is_Raise r) ∧
       records t' !! k = Some rec ∧
       r_best rec = b2q best ∧ r_valid rec = 1%Q ∧
       (c, Z.to_nat choice) ∈ zip cs ps ∧
       cog trial !! c = Some 1%Q ∧ rwd trial !! c = Some rc ∧
       (best = true ↔
        ∀ j rj, cog trial !! j = Some 1%Q → rwd trial !! j = Some rj →
                (rj <= rc)%Q)) ∧
  (∀ r RT debug (t : Task) i k,
     index t = Some i → py_index (length (records t)) i = Some k →
     ∃ t', process (example_trial r) 1 RT None debug t =
           (Ok (PyBool (Qlt_bool r (8 # 10)), 0%Z, true), t')) ∧
  (∀ r RT debug (t : Task) i k,
     index t = Some i → py_index (length (records t)) i = Some k →
     ∃ t', process (example_trial r) 2 RT None debug t =
           (Ok (PyBool (Qlt_bool r (2 # 10)), 2%Z, false), t')).
Proof.
  split; [|split; intros r RT debug t i k Hi Hk; eexists].
  2: { apply (process_no_model (example_trial r) 1 RT debug t i k
                {| o_reward := PyBool (Qlt_bool r (8 # 10)); o_cue := 0;
                   o_best := true; o_valid := true |} Hi Hk).
       reflexivity. }
  2: { apply (process_no_model (example_trial r) 2 RT debug t i k
                {| o_reward := PyBool (Qlt_bool r (2 # 10)); o_cue := 2;
                   o_best := false; o_valid := true |} Hi Hk).
       reflexivity. }
  intros cs ps trial choice RT debug t i k Hlo Hrwd Hnonneg Hch Hmot Hi Hk.
  destruct (process_in_play cs ps trial choice RT debug t i k)
    as (c & rc & mx & rec & Hcp & Hcogc & Hrc & Hmx & Hrec & Hp); try done.
  destruct Hlo as (Hc & Hp' & Hlen & Hcr & Hpr & Hcog & _ & _).
  apply py_max_spec in Hmx as [Hmxin Hmxub].
  rewrite Forall_forall in Hmxub.
  assert (Hpresent : ∀ j cj rj, cog trial !! j = Some cj →
            rwd trial !! j = Some rj → (cj * rj <= mx)%Q).
  { intros j cj rj Hcj Hrj. apply Hmxub, list_elem_of_lookup. exists j.
    apply lookup_zip_with_Some. eauto. }
  eexists _, c, rc, _, _, _. split; [exact Hp|].
  split.
  { intros model r t'' Hm.
    destruct (process_at_cursor _ _ _ _ _ _ i k _ _ Hi Hk Hm)
      as [(e & He & _)|(o & F & Ho & _ & _ & Hr & _)].
    - apply process_Ok_inv in Hp as (o & Ho & _). congruence.
    - apply process_Ok_inv in Hp as (o' & Ho' & [= -> -> ->]).
      assert (o' = o) as -> by congruence. done. }
  destruct (written_frame
              (scalars choice RT
                 {| o_cue := Z.of_nat c; o_valid := true;
                    o_best := Qeq_bool mx (1 * rc);
                    o_reward := PyBool (Qlt_bool (rnd trial) rc) |}) k t)
    as (_ & _ & _ & _ & _ & _ & _ & _ & Hk').
  split; [by rewrite Hk', Hrec|]. do 2 (split; [done|]).
  do 3 (split; [done|]).
  rewrite Qeq_bool_iff. split.
  - intros Heq j rj Hcj Hrj.
    specialize (Hpresent j _ _ Hcj Hrj).
    rewrite Heq, !Qmult_1_l in Hpresent. done.
  - intros Hub. apply Qle_antisym.
    + apply list_elem_of_lookup in Hmxin as [j Hj].
      apply lookup_zip_with_Some in Hj as (cj & rj & -> & Hcj & Hrj).
      assert (Hj4 : j < N_SLOTS).
      { apply lookup_lt_Some in Hrj. by rewrite Hrwd in Hrj. }
      rewrite Hcog, mark_lookup in Hcj by done.
      injection Hcj as <-. case_bool_decide as Hjin.
      * apply Qmult_le_l; [done|]. apply (Hub j); [|done].
        rewrite Hcog. by apply mark_lookup_one.
      * rewrite Qmult_0_l, Qmult_1_l.
        rewrite Forall_forall in Hnonneg. apply Hnonneg.
        by eapply list_elem_of_lookup_2.
    + by apply (Hpresent c).
Qed.

Lemma C7_best_is_max_witness :
  ∃ reward c rc best t' rec,
    process (example_trial (3 # 10)) 2 0 None false (example_task (3 # 10)) =
      (Ok (reward, Z.of_nat c, best), t') ∧
    (∀ model r t'',
       process (example_trial (3 # 10)) 2 0 (Some model) false
         (example_task (3 # 10)) = (r, t'') →
       r = Ok (reward, Z.of_nat c, best) ∨ is_Raise r) ∧
    records t' !! 0 = Some rec ∧
    r_best rec = b2q best ∧ r_valid rec = 1%Q ∧
    (c, Z.to_nat 2%Z) ∈ zip [0; 2] [1; 2] ∧
    cog (example_trial (3 # 10)) !! c = Some 1%Q ∧
    rwd (example_trial (3 # 10)) !! c = Some rc ∧
    (best = true ↔
     ∀ j rj, cog (example_trial (3 # 10)) !! j = Some 1%Q →
             rwd (example_trial (3 # 10)) !! j = Some rj → (rj <= rc)%Q).
Proof.
  apply (proj1 C7_best_is_max [0; 2] [1; 2] (example_trial (3 # 10)) 2%Z
           0%Q false (example_task (3 # 10)) 0%Z 0).
  - apply example_trial_laid_out.
  - reflexivity.
  - simpl. repeat constructor; unfold Qle; simpl; lia.
  - lia.
  - reflexivity.
  - reflexivity.
  - reflexivity.
Defined.

(** ** Marking cells *)

Lemma mark_ext s s' : (∀ i, i ∈ s ↔ i ∈ s') → mark s = mark s'.
Proof.
  intros H. unfold mark. apply list_fmap_ext. intros _ i _.
  by rewrite (bool_decide_ext _ _ (H i)).
Qed.

Lemma mark_pairs_ext s s' :
  (∀ cp, cp ∈ s ↔ cp ∈ s') → mark_pairs s = mark_pairs s'.
Proof.
  intros H. unfold mark_pairs. apply list_fmap_ext. intros _ c _.
  apply list_fmap_ext. intros _ p _.
  by rewrite (bool_decide_ext _ _ (H (c, p))).
Qed.

Lemma mark_nil : mark [] = replicate N_SLOTS 0%Q.
Proof. reflexivity. Qed.

Lemma mark_pairs_nil : mark_pairs [] = replicate N_SLOTS (replicate N_SLOTS 0%Q).
Proof. reflexivity. Qed.

Lemma insert_mark s i : i < N_SLOTS → <[i := 1%Q]> (mark s) = mark (i :: s).
Proof.
  intros Hi. apply list_eq. intros j.
  destruct (decide (j < N_SLOTS)) as [Hj|Hj].
  - rewrite (mark_lookup (i :: s)) by done.
    destruct (decide (i = j)) as [->|Hne].
    + rewrite list_lookup_insert_eq by (by rewrite mark_length).
      rewrite bool_decide_eq_true_2; [done|left].
    + rewrite list_lookup_insert_ne, mark_lookup by done.
      f_equal. erewrite bool_decide_ext; [done|].
      rewrite elem_of_cons. split; [by right|]. intros [?|?]; done.
  - rewrite !lookup_ge_None_2; [done|rewrite ?mark_length; lia|].
    rewrite length_insert, mark_length. lia.
Qed.

Lemma foldl_insert_mark s idx :
  Forall (λ i, i < N_SLOTS) idx →
  foldl (λ acc i, <[i := 1%Q]> acc) (mark s) idx = mark (idx ++ s).
Proof.
  revert s. induction idx as [|i idx IH]; intros s Hall; [done|].
  apply Forall_cons in Hall as [Hi Hall]. simpl.
  rewrite insert_mark, IH by done. apply mark_ext. intros j.
  rewrite !elem_of_app, !elem_of_cons, elem_of_app. tauto.
Qed.

Lemma fancy_set_mark idx v :
  fancy_set (mark []) idx = Ok v →
  Forall (λ i, i < N_SLOTS) idx ∧ v = mark idx.
Proof.
  unfold fancy_set. destruct (forallb _ idx) eqn:Hall; [|done].
  intros [= <-].
  assert (Hidx : Forall (λ i, i < N_SLOTS) idx).
  { apply Forall_forall. intros i Hi. rewrite forallb_forall in Hall.
    apply list_elem_of_In, Hall, bool_decide_eq_true in Hi.
    by rewrite mark_length in Hi. }
  split; [done|]. rewrite foldl_insert_mark by done.
  by rewrite app_nil_r.
Qed.

Lemma fancy_set_mark_Ok idx :
  Forall (λ i, i < N_SLOTS) idx → fancy_set (mark []) idx = Ok (mark idx).
Proof.
  intros Hidx. unfold fancy_set.
  assert (forallb (λ i, bool_decide (i < length (mark []))) idx = true) as ->.
  { apply forallb_forall. intros i Hi. apply bool_decide_eq_true.
    rewrite mark_length. rewrite Forall_forall in Hidx.
    by apply Hidx, list_elem_of_In. }
  rewrite foldl_insert_mark by done. by rewrite app_nil_r.
Qed.

Ltac slots_length :=
  rewrite ?length_insert, ?length_fmap, ?length_seq;
  unfold N_SLOTS in *; simpl; lia.

Lemma set_cell_mark s c p :
  c < N_SLOTS → p < N_SLOTS →
  set_cell (mark_pairs s) c p = Ok (mark_pairs ((c, p) :: s)).
Proof.
  intros Hc Hp. unfold set_cell, mark_pairs.
  rewrite list_lookup_fmap, lookup_seq_lt by done.
  cbn [fmap option_fmap option_map plus].
  rewrite decide_True by slots_length.
  f_equal. apply list_eq. intros c'.
  destruct (decide (c' < N_SLOTS)) as [Hc'|Hc'].
  - rewrite (list_lookup_fmap _ (seq 0 N_SLOTS) c'), lookup_seq_lt by done.
    cbn [fmap option_fmap option_map plus].
    destruct (decide (c = c')) as [->|Hne].
    + rewrite list_lookup_insert_eq by slots_length.
      f_equal. apply list_eq. intros p'.
      destruct (decide (p' < N_SLOTS)) as [Hp'|Hp'].
      * rewrite (list_lookup_fmap _ (seq 0 N_SLOTS) p'), lookup_seq_lt by done.
        cbn [fmap option_fmap option_map plus].
        destruct (decide (p = p')) as [->|Hnp].
        -- rewrite list_lookup_insert_eq by slots_length.
           rewrite bool_decide_eq_true_2; [done|left].
        -- rewrite list_lookup_insert_ne by done.
           rewrite list_lookup_fmap, lookup_seq_lt by done.
           cbn [fmap option_fmap option_map plus].
           f_equal. erewrite bool_decide_ext; [done|].
           rewrite elem_of_cons. split; [by right|]. intros [Heq|?]; [congruence|done].
      * rewrite !lookup_ge_None_2; [done| |]; slots_length.
    + rewrite list_lookup_insert_ne by done.
      rewrite list_lookup_fmap, lookup_seq_lt by done.
      cbn [fmap option_fmap option_map plus].
      f_equal. apply list_fmap_ext. intros _ p' _.
      erewrite bool_decide_ext; [done|].
      rewrite elem_of_cons. split; [by right|]. intros [Heq|?]; [congruence|done].
  - rewrite !lookup_ge_None_2; [done| |]; slots_length.
Qed.

Lemma assoc_cells_mark pairs s :
  Forall (λ cp, cp.1 < N_SLOTS ∧ cp.2 < N_SLOTS) pairs →
  assoc_cells pairs (mark_pairs s) = Ok (mark_pairs (pairs ++ s)).
Proof.
  revert s. induction pairs as [|[c p] pairs IH]; intros s Hall; [done|].
  apply Forall_cons in Hall as [[Hc Hp] Hall]. simpl in Hc, Hp. simpl.
  rewrite set_cell_mark, IH by done. f_equal. apply mark_pairs_ext.
  intros cp. rewrite !elem_of_app, !elem_of_cons, elem_of_app. tauto.
Qed.

Lemma Forall_zip_range (cs ps : list nat) :
  Forall (λ i, i < N_SLOTS) cs → Forall (λ i, i < N_SLOTS) ps →
  Forall (λ cp, cp.1 < N_SLOTS ∧ cp.2 < N_SLOTS) (zip cs ps).
Proof.
  intros Hcs Hps. apply Forall_forall. intros [c p] Hcp. simpl.
  rewrite Forall_forall in Hcs. rewrite Forall_forall in Hps.
  split; [eapply Hcs, elem_of_zip_l, Hcp | eapply Hps, elem_of_zip_r, Hcp].
Qed.

Lemma foldl_n_trial a bs :
  foldl (λ n b, n + n_trial b) a bs = a + foldl (λ n b, n + n_trial b) 0 bs.
Proof.
  revert a. induction bs as [|b bs IH]; intros a; simpl; [lia|].
  rewrite (IH (a + n_trial b)), (IH (n_trial b)). lia.
Qed.

Lemma total_trials_cons b bs :
  total_trials (b :: bs) = n_trial b + total_trials bs.
Proof. unfold total_trials. simpl. by rewrite foldl_n_trial. Qed.

Lemma total_trials_sum bs : total_trials bs = sum_list (n_trial <$> bs).
Proof.
  induction bs as [|b bs IH]; [done|].
  rewrite total_trials_cons, IH. done.
Qed.

Lemma total_trials_app l1 l2 :
  total_trials (l1 ++ l2) = total_trials l1 + total_trials l2.
Proof.
  induction l1 as [|b l1 IH]; simpl; [done|].
  rewrite !total_trials_cons, IH. lia.
Qed.

Lemma owners_length bs : length (owners bs) = total_trials bs.
Proof.
  induction bs as [|b bs IH]; [done|].
  rewrite total_trials_cons, <- IH. unfold owners.
  rewrite bind_cons, length_app, length_replicate. done.
Qed.

Section Generation.
Context {R : NumpyRandom}.

Lemma np_choice_inv a size p (w w' : World) r :
  np_choice a size p w = (r, w') →
  w'.1 = w.1 ∧ r = (choice a size p w.2).1.
Proof.
  unfold np_choice. destruct (choice a size p w.2) as [r0 g'].
  by intros [= <- <-].
Qed.

Lemma np_choice_trials_only a size p :
  preserves trials_only (np_choice a size p).
Proof.
  intros w r w' H. apply np_choice_inv in H as [H _].
  unfold trials_only. rewrite H. destruct w as [[] ?]. by split.
Qed.

Lemma trial_update_trials_only index f :
  preserves trials_only (trial_update index f).
Proof.
  intros w r w'. unfold trial_update.
  destruct (trials w.1 !! index) as [tr|]; [|intros [= _ <-]; reflexivity].
  destruct (f tr) as [tr'|e]; intros [= _ <-]; [|reflexivity].
  split; [done|]. simpl. apply length_insert.
Qed.

Lemma associate_trials_only index pairs :
  preserves trials_only (associate index pairs).
Proof.
  induction pairs as [|[c p] pairs IH]; simpl.
  - apply preserves_ret; apply _.
  - apply preserves_bind; [apply _|apply trial_update_trials_only|done].
Qed.

Lemma build_trials_trials_only b a n P Q count index :
  preserves trials_only (build_trials b a n P Q count index).
Proof.
  revert index. induction count as [|count IH]; intros index; simpl.
  - apply preserves_ret; apply _.
  - repeat first
      [ apply preserves_bind; [apply _ | | intros ?]
      | apply np_choice_trials_only
      | apply trial_update_trials_only
      | apply associate_trials_only
      | apply IH ].
Qed.

Lemma build_blocks_trials_only bs index :
  preserves trials_only (build_blocks bs index).
Proof.
  revert index. induction bs as [|b bs IH]; intros index; simpl.
  - apply preserves_ret; apply _.
  - apply preserves_bind; [apply _| |intros ?; apply IH].
    apply build_trials_trials_only.
Qed.

Lemma trial_update_inv index f (w w' : World) :
  trial_update index f w = (Ok tt, w') →
  ∃ tr tr', trials w.1 !! index = Some tr ∧ f tr = Ok tr' ∧
            trials w'.1 = <[index := tr']> (trials w.1).
Proof.
  unfold trial_update.
  destruct (trials w.1 !! index) as [tr|]; [|done].
  destruct (f tr) as [tr'|e] eqn:Hf; [|done].
  intros [= <-]. by exists tr, tr'.
Qed.

Lemma map_result_Ok_inv {A B} (f : A → B) r b :
  map_result f r = Ok b → ∃ a, r = Ok a ∧ b = f a.
Proof. destruct r; [|done]. intros [= <-]. eauto. Qed.

Lemma associate_inv index pairs (w w' : World) tr :
  associate index pairs w = (Ok tt, w') →
  trials w.1 !! index = Some tr →
  ∃ a', assoc_cells pairs (ass tr) = Ok a' ∧
        trials w'.1 = <[index := with_ass a' tr]> (trials w.1).
Proof.
  revert w tr. induction pairs as [|[c p] pairs IH]; intros w tr; simpl.
  - intros [= <-] Htr. exists (ass tr). split; [done|].
    rewrite list_insert_id; [done|]. by destruct tr.
  - intros H Htr. apply bind_Ok_inv in H as ([] & w1 & H1 & H2).
    apply trial_update_inv in H1 as (tr0 & tr1 & Htr0 & Hf & Hw1).
    rewrite Htr in Htr0. injection Htr0 as <-.
    apply map_result_Ok_inv in Hf as (a1 & Ha1 & ->).
    rewrite Ha1.
    destruct (IH w1 (with_ass a1 tr) H2) as (a' & Ha' & Hw').
    { rewrite Hw1. apply list_lookup_insert_eq. by eapply lookup_lt_Some. }
    exists a'. split; [done|].
    by rewrite Hw', Hw1, list_insert_insert_eq.
Qed.

(** One round of the trial loop that returned: the two samples, and
    the cell at [index] rewritten from them. *)
Lemma build_trials_S_inv b a n P Q count index (w w' : World) index' :
  build_trials b a n P Q (S count) index w = (Ok index', w') →
  ∃ cs ps g1 tr0 v1 v2 a' v4 wb,
    (choice a n P w.2) = (Ok cs, g1) ∧
    (choice a n Q g1).1 = Ok ps ∧
    trials w.1 !! index = Some tr0 ∧
    fancy_set (cog tr0) cs = Ok v1 ∧
    fancy_set (mot tr0) ps = Ok v2 ∧
    assoc_cells (zip cs ps) (ass tr0) = Ok a' ∧
    broadcast4 (b_rwd b) = Ok v4 ∧
    trials wb.1 =
      <[index := {| mot := v2; cog := v1; ass := a'; rwd := v4;
                    rnd := rnd tr0 |}]> (trials w.1) ∧
    build_trials b a n P Q count (S index) wb = (Ok index', w').
Proof.
  simpl. intros H.
  apply bind_Ok_inv in H as (cs & w1 & Hcs & H).
  apply bind_Ok_inv in H as (ps & w2 & Hps & H).
  apply bind_Ok_inv in H as ([] & w3 & Hcog & H).
  apply bind_Ok_inv in H as ([] & w4 & Hmot & H).
  apply bind_Ok_inv in H as ([] & w5 & Hass & H).
  apply bind_Ok_inv in H as ([] & w6 & Hrwd & H).
  pose proof (np_choice_inv _ _ _ _ _ _ Hcs) as [Hw1 Hcs'].
  pose proof (np_choice_inv _ _ _ _ _ _ Hps) as [Hw2 Hps'].
  assert (Hg1 : w1.2 = (choice a n P w.2).2).
  { revert Hcs. unfold np_choice. destruct (choice a n P w.2).
    by intros [= _ <-]. }
  apply trial_update_inv in Hcog as (tr0 & tr1 & Htr0 & Hf1 & Hw3).
  rewrite Hw2, Hw1 in Htr0, Hw3.
  assert (Hlt : index < length (trials w.1)) by (by eapply lookup_lt_Some).
  apply map_result_Ok_inv in Hf1 as (v1 & Hv1 & ->).
  apply trial_update_inv in Hmot as (tr1 & tr2 & Htr1 & Hf2 & Hw4).
  rewrite Hw3, list_lookup_insert_eq in Htr1 by done.
  injection Htr1 as <-.
  apply map_result_Ok_inv in Hf2 as (v2 & Hv2 & ->).
  rewrite Hw3, list_insert_insert_eq in Hw4.
  destruct (associate_inv _ _ _ _ (with_mot v2 (with_cog v1 tr0)) Hass)
    as (a' & Ha' & Hw5).
  { rewrite Hw4. by apply list_lookup_insert_eq. }
  rewrite Hw4, list_insert_insert_eq in Hw5.
  apply trial_update_inv in Hrwd as (tr3 & tr4 & Htr3 & Hf4 & Hw6).
  rewrite Hw5, list_lookup_insert_eq in Htr3 by done.
  injection Htr3 as <-.
  apply map_result_Ok_inv in Hf4 as (v4 & Hv4 & ->).
  rewrite Hw5, list_insert_insert_eq in Hw6.
  exists cs, ps, w1.2, tr0, v1, v2, a', v4, w6.
  split. { rewrite Hg1, Hcs'. by destruct (choice a n P w.2). }
  split. { by rewrite Hps'. }
  repeat split; done.
Qed.
End Generation.

Section Content.
Context {R : NumpyRandom}.

Lemma build_trials_content b len P Q count :
  ∀ index (w w' : World) index',
    build_trials b (seq 0 len) (default 2 (n_cue b)) P Q count index w
      = (Ok index', w') →
    index' = index + count ∧
    (∀ i, ¬ (index ≤ i < index + count) →
          trials w'.1 !! i = trials w.1 !! i) ∧
    (∀ i r, index ≤ i < index + count →
            trials w.1 !! i = Some (fresh r) →
            ∃ tr, trials w'.1 !! i = Some tr ∧ built b r tr).
Proof.
  induction count as [|count IH]; intros index w w' index' H.
  { simpl in H. injection H as <- <-.
    split; [lia|]. split; [done|]. intros i r Hi. lia. }
  apply build_trials_S_inv in H
    as (cs & ps & g1 & tr0 & v1 & v2 & a' & v4 & wb &
        Hcs & Hps & Htr0 & Hv1 & Hv2 & Ha' & Hv4 & Hwb & Hrest).
  destruct (IH _ _ _ _ Hrest) as (-> & Hout & Hin).
  assert (Hlt : index < length (trials w.1)) by (by eapply lookup_lt_Some).
  split; [lia|]. split.
  - intros i Hi. rewrite Hout by lia.
    rewrite Hwb. apply list_lookup_insert_ne. lia.
  - intros i r Hi Hfresh. destruct (decide (i = index)) as [->|Hne].
    + rewrite Hout by lia. rewrite Hwb, list_lookup_insert_eq by done.
      eexists. split; [done|].
      rewrite Htr0 in Hfresh. injection Hfresh as ->.
      apply fancy_set_mark in Hv1 as [Hcr ->].
      apply fancy_set_mark in Hv2 as [Hpr ->].
      change (ass (fresh r)) with (mark_pairs []) in Ha'.
      rewrite assoc_cells_mark, app_nil_r in Ha'
        by (by apply Forall_zip_range).
      injection Ha' as <-.
      assert (Hcs' : (choice (seq 0 len) (default 2 (n_cue b)) P w.2).1
                     = Ok cs) by (by rewrite Hcs).
      destruct (choice_returns _ _ _ _ _ Hcs') as (Hlc & _ & Hndc).
      destruct (choice_returns _ _ _ _ _ Hps) as (Hlp & _ & Hndp).
      exists cs, ps. unfold laid_out. simpl.
      repeat split; try done; try congruence;
        [apply Hndc | apply Hndp]; apply NoDup_seq.
    + destruct (Hin i r) as (tr & Htr & Hb); [lia| |by exists tr].
      rewrite Hwb, list_lookup_insert_ne by done. done.
Qed.

Lemma build_blocks_content bs :
  ∀ index (w w' : World) index',
    build_blocks bs index w = (Ok index', w') →
    index' = index + total_trials bs ∧
    (∀ i, ¬ (index ≤ i < index + total_trials bs) →
          trials w'.1 !! i = trials w.1 !! i) ∧
    (∀ j b r, owners bs !! j = Some b →
              trials w.1 !! (index + j) = Some (fresh r) →
              ∃ tr, trials w'.1 !! (index + j) = Some tr ∧ built b r tr).
Proof.
  induction bs as [|b bs IH]; intros index w w' index' H.
  { simpl in H. injection H as <- <-. unfold total_trials; simpl.
    split; [lia|]. split; [done|]. intros j b r Hj. done. }
  simpl in H. apply bind_Ok_inv in H as (i1 & w1 & Hb & Hbs).
  unfold build_block in Hb.
  apply build_trials_content in Hb as (-> & Hout1 & Hin1).
  destruct (IH _ _ _ _ Hbs) as (-> & Hout & Hin).
  rewrite total_trials_cons. split; [lia|]. split.
  - intros i Hi. rewrite Hout, Hout1 by lia. done.
  - intros j b' r Hj Hfresh. unfold owners in Hj.
    rewrite bind_cons in Hj. fold (owners bs) in Hj.
    destruct (decide (j < n_trial b)) as [Hlt|Hge].
    + rewrite lookup_app_l in Hj by (by rewrite length_replicate).
      apply lookup_replicate in Hj as [-> _].
      rewrite Hout by lia. apply Hin1; [lia|done].
    + rewrite lookup_app_r, length_replicate in Hj
        by (rewrite length_replicate; lia).
      replace (index + j) with (index + n_trial b + (j - n_trial b)) by lia.
      eapply Hin; [done|].
      rewrite Hout1 by lia.
      by replace (index + n_trial b + (j - n_trial b)) with (index + j)
        by lia.
Qed.

(** The two loops over the session: what they find and leave. *)
Lemma lookup_names_Raise named names e :
  lookup_names named names = Raise e → e = KeyError.
Proof.
  induction names as [|name names IH]; simpl; [done|].
  destruct (decide (name = "session"%string)) as [Hs|Hs].
  - destruct (lookup_names named names) as [vs'|e']; [done|].
    intros [= <-]. by apply IH.
  - destruct (named !! name) as [b|]; [|by intros [= <-]].
    destruct (lookup_names named names) as [vs'|e']; [done|].
    intros [= <-]. by apply IH.
Qed.

Lemma lookup_blocks_Ok named names bs :
  lookup_blocks named names = Ok bs ↔
  Forall2 (λ name b, name ≠ "session"%string ∧ named !! name = Some b)
    names bs.
Proof.
  unfold lookup_blocks. revert bs.
  induction names as [|name names IH]; intros bs; simpl.
  - split; [intros [= <-]; constructor|]. intros H. by inversion H.
  - destruct (decide (name = "session"%string)) as [Hs|Hs].
    + split.
      * by destruct (lookup_names named names) as [vs|].
      * intros H. inversion H as [|? ? ? ? [Hne _]]. done.
    + destruct (named !! name) as [b|] eqn:Hb.
      * destruct (lookup_names named names) as [vs|e]; simpl.
        -- destruct (mapM as_block vs) as [bs'|]; simpl.
           ++ split.
              ** intros [= <-]. constructor; [done|]. by apply IH.
              ** intros H. inversion H as [|? b0 ? bs0 [_ Hb0] Hrest]; subst.
                 apply IH in Hrest. congruence.
           ++ split; [done|].
              intros H. inversion H as [|? b0 ? bs0 _ Hrest]; subst.
              by apply IH in Hrest.
        -- split; [done|].
           intros H. inversion H as [|? b0 ? bs0 _ Hrest]; subst.
           by apply IH in Hrest.
      * split; [done|].
        intros H. inversion H as [|? ? ? ? [_ Hn]]. congruence.
Qed.



Lemma count_trials_Ok vs :
  ∀ stop bs (t : Task),
    mapM as_block vs = Some bs →
    count_trials stop vs t =
    (Ok bs, set_blocks (blocks t ++ block_ranges stop bs) t).
Proof.
  induction vs as [|v vs IH]; intros stop bs t.
  - intros [= <-]. simpl. unfold ret. f_equal.
    rewrite app_nil_r. by destruct t.
  - destruct v as [b|]; [|done].
    simpl. destruct (mapM as_block vs) as [bs'|] eqn:Hvs; [|done].
    simpl. intros [= <-].
    unfold bind at 1, modify. unfold bind at 1.
    rewrite (IH _ bs') by done. unfold ret. f_equal.
    unfold set_blocks; simpl. by rewrite <- app_assoc.
Qed.

Lemma count_trials_Raise vs :
  ∀ stop (t : Task),
    mapM as_block vs = None →
    ∃ t', count_trials stop vs t = (Raise TypeError, t').
Proof.
  induction vs as [|v vs IH]; intros stop t; [done|].
  destruct v as [b|]; [|by exists t]. simpl.
  destruct (mapM as_block vs) as [bs'|] eqn:Hvs; [done|]. intros _.
  unfold bind at 1, modify. unfold bind at 1.
  edestruct (IH (stop + n_trial b)) as [t' Ht']; [done|].
  rewrite Ht'. by exists t'.
Qed.

(** [setup] once the blocks of the session are found: the ranges and the
    empty arrays, then the draws. *)
Lemma setup_found (t : Task) (g : rng) bs :
  lookup_blocks (named (parameters t)) (session (parameters t)) = Ok bs →
  setup (t, g) =
  (let* u := np_uniform (total_trials bs) in
   assign_rnd u ;; build_blocks bs 0 ;; ret tt)
    (allocate bs (set_blocks (block_ranges 0 bs) t), g).
Proof.
  unfold lookup_blocks. intros Hbs.
  destruct (lookup_names _ _) as [vs|] eqn:Hvs; [|done].
  destruct (mapM as_block vs) as [bs'|] eqn:Hm; [|done].
  injection Hbs as ->. unfold setup.
  erewrite bind_Ok; [|reflexivity]. simpl.
  erewrite bind_Ok; [|unfold lift_result; by rewrite Hvs]. cbv beta.
  erewrite bind_Ok; [|reflexivity]. cbv beta.
  erewrite bind_Ok;
    [|unfold on_task; simpl; by rewrite (count_trials_Ok vs 0 bs)].
  cbv beta. erewrite bind_Ok; [|reflexivity]. reflexivity.
Qed.

(** [setup] when they are not: nothing is drawn. *)
Lemma setup_not_found (t : Task) (g : rng) e :
  lookup_blocks (named (parameters t)) (session (parameters t)) = Raise e →
  ∃ t', setup (t, g) = (Raise e, (t', g)).
Proof.
  unfold lookup_blocks. intros Hbs.
  destruct (lookup_names _ _) as [vs|e'] eqn:Hvs.
  - destruct (mapM as_block vs) as [bs'|] eqn:Hm; [done|].
    injection Hbs as <-. unfold setup.
    erewrite bind_Ok; [|reflexivity]. simpl.
    erewrite bind_Ok; [|unfold lift_result; by rewrite Hvs]. cbv beta.
    erewrite bind_Ok; [|reflexivity]. cbv beta.
    destruct (count_trials_Raise vs 0 (set_blocks [] t) Hm) as [t' Ht'].
    exists t'. erewrite bind_Raise; [done|].
    unfold on_task; simpl. by rewrite Ht'.
  - injection Hbs as ->. exists t. unfold setup.
    erewrite bind_Ok; [|reflexivity]. simpl.
    erewrite bind_Raise; [done|]. unfold lift_result. by rewrite Hvs.
Qed.

(** A successful [setup]: the ranges and the zeroed records of the
    session's blocks, one uniform draw and one built trial for each
    index. *)
Lemma setup_Ok_inv (t : Task) (g : rng) (w' : World) :
  setup (t, g) = (Ok tt, w') →
  ∃ bs,
    lookup_blocks (named (parameters t)) (session (parameters t)) = Ok bs ∧
    parameters w'.1 = parameters t ∧
    blocks w'.1 = block_ranges 0 bs ∧
    records w'.1 = replicate (total_trials bs) zero_record ∧
    index w'.1 = index t ∧ index_start w'.1 = index_start t ∧
    index_stop w'.1 = index_stop t ∧
    length (trials w'.1) = total_trials bs ∧
    (∀ i b, owners bs !! i = Some b →
       ∃ tr r, trials w'.1 !! i = Some tr ∧
               (uniform (total_trials bs) g).1 !! i = Some r ∧
               built b r tr).
Proof.
  intros H.
  destruct (lookup_blocks (named (parameters t)) (session (parameters t)))
    as [bs|e] eqn:Hbs;
    [|destruct (setup_not_found t g e Hbs) as [t0 Ht0]; congruence].
  rewrite (setup_found t g bs Hbs) in H.
  apply bind_Ok_inv in H as (u & w2 & Hu & H).
  unfold np_uniform in Hu. simpl in Hu.
  pose proof (uniform_length (total_trials bs) g) as Hlen.
  destruct (uniform (total_trials bs) g) as [u0 g1] eqn:Hug.
  simpl in Hlen. injection Hu as <- <-.
  apply bind_Ok_inv in H as ([] & w3 & Hrnd & H).
  unfold assign_rnd in Hrnd. simpl in Hrnd.
  rewrite decide_True in Hrnd by (by rewrite length_replicate).
  injection Hrnd as <-.
  apply bind_Ok_inv in H as (ix & w4 & Hbuild & H).
  injection H as <-.
  pose proof (build_blocks_trials_only _ _ _ _ _ Hbuild) as [Hfr Hfl].
  apply build_blocks_content in Hbuild as (_ & _ & Hin).
  simpl in Hfr, Hfl, Hin.
  rewrite length_zip_with, length_replicate, Hlen, Nat.min_id in Hfl.
  exists bs. split; [done|]. rewrite Hfr. simpl.
  do 6 (split; [done|]). split; [done|].
  intros i b Hb.
  assert (Hi : i < total_trials bs).
  { rewrite <- owners_length. by eapply lookup_lt_Some. }
  destruct (lookup_lt_is_Some_2 u0 i) as [r Hr]; [by rewrite Hlen|].
  destruct (Hin i b r Hb) as (tr & Htr & Hbuilt).
  { apply lookup_zip_with_Some. exists zero_trial, r.
    split; [done|]. split; [by apply lookup_replicate_2|done]. }
  exists tr, r. by rewrite Hug.
Qed.
End Content.

(** ** Configurations [setup] accepts *)

Lemma np_sum_scale (v : list Q) (s : Q) :
  (np_sum ((λ x, x / s) <$> v) == np_sum v / s)%Q.
Proof.
  induction v as [|x v IH]; simpl.
  - unfold Qdiv. by rewrite Qmult_0_l.
  - rewrite IH. unfold Qdiv. by rewrite Qmult_plus_distr_l.
Qed.

Lemma Qdiv_pos_iff (x s : Q) :
  (0 < s)%Q → Qlt_bool 0 (x / s) = Qlt_bool 0 x.
Proof.
  intros Hs. destruct (Qlt_bool 0 x) eqn:Hx.
  - apply Qlt_bool_iff. apply Qlt_bool_iff in Hx.
    apply Qlt_shift_div_l; [done|]. by rewrite Qmult_0_l.
  - destruct (Qlt_bool 0 (x / s)) eqn:Hxs; [|done].
    apply Qlt_bool_iff in Hxs.
    assert (Hle : (x <= 0)%Q).
    { apply Qnot_lt_le. intros H. apply Qlt_bool_iff in H. congruence. }
    exfalso. eapply Qlt_not_le; [exact Hxs|].
    apply Qle_shift_div_r; [done|]. by rewrite Qmult_0_l.
Qed.

Lemma over_sum_finite (v : list Q) :
  (0 < np_sum v)%Q → over_sum v = (λ x, Finite (x / np_sum v)) <$> v.
Proof.
  intros Hs. unfold over_sum. apply list_fmap_ext. intros _ x _.
  unfold np_div. destruct (Qeq_bool (np_sum v) 0) eqn:H0; [|done].
  apply Qeq_bool_eq in H0. rewrite H0 in Hs. by apply Qlt_irrefl in Hs.
Qed.

Lemma count_positive_over_sum (v : list Q) :
  (0 < np_sum v)%Q → count_positive (over_sum v) = positive_weights v.
Proof.
  intros Hs. rewrite over_sum_finite by done.
  unfold count_positive, positive_weights.
  revert Hs. generalize (np_sum v) as s. intros s Hs.
  induction v as [|x v IH]; [done|].
  rewrite fmap_cons, !filter_cons. simpl.
  rewrite (Qdiv_pos_iff x _ Hs).
  destruct (decide (Qlt_bool 0 x = true)); simpl; by rewrite IH.
Qed.

(** The weights of a valid block, divided by their sum, are arguments
    the sampler accepts. *)
Lemma choice_accepts_valid (v : list Q) (len n : nat) :
  0 < len → length v = len → Forall (λ x, (0 <= x)%Q) v →
  (0 < np_sum v)%Q → n ≤ positive_weights v →
  choice_accepts (seq 0 len) n (over_sum v) = true.
Proof.
  intros Hlen Hv Hnn Hs Hn. unfold choice_accepts.
  rewrite count_positive_over_sum by done.
  rewrite (bool_decide_eq_true_2 (n ≤ _)) by done.
  rewrite (bool_decide_eq_true_2 (seq 0 len ≠ [])) by (destruct len; [lia|done]).
  rewrite over_sum_finite by done.
  rewrite (bool_decide_eq_true_2 (length _ = _))
    by (by rewrite length_fmap, length_seq).
  assert (mapM finite_part ((λ x, Finite (x / np_sum v)) <$> v)
          = Some ((λ x, (x / np_sum v)%Q) <$> v)) as ->.
  { apply mapM_Some. apply Forall2_fmap, Forall_Forall2_diag, Forall_forall.
    by intros x _. }
  assert (Qeq_bool (np_sum ((λ x, (x / np_sum v)%Q) <$> v)) 1 = true) as ->.
  { apply Qeq_eq_bool. rewrite np_sum_scale. field.
    intros H0. rewrite H0 in Hs. by apply Qlt_irrefl in Hs. }
  rewrite !andb_true_r. apply forallb_forall. intros y Hy.
  apply list_elem_of_In, list_elem_of_fmap in Hy as (x & -> & Hx).
  simpl. rewrite negb_true_iff.
  destruct (Qlt_bool (x / np_sum v) 0) eqn:Hneg; [|done].
  apply Qlt_bool_iff in Hneg. exfalso.
  eapply Qlt_not_le; [exact Hneg|].
  apply Qle_shift_div_l; [done|]. rewrite Qmult_0_l.
  rewrite Forall_forall in Hnn. by apply Hnn.
Qed.

Lemma broadcast4_full v : length v = N_SLOTS → broadcast4 v = Ok v.
Proof.
  intros Hv. unfold broadcast4.
  destruct v as [|x [|y v]]; [done|done|]. by rewrite decide_True.
Qed.

Section Progress.
Context {R : NumpyRandom}.

Lemma trial_update_Ok index f (w : World) tr tr' :
  trials w.1 !! index = Some tr → f tr = Ok tr' →
  trial_update index f w =
  (Ok tt, (set_trials (<[index := tr']> (trials w.1)) w.1, w.2)).
Proof. intros Htr Hf. unfold trial_update. by rewrite Htr, Hf. Qed.

Lemma associate_Ok index pairs :
  ∀ (w : World) tr a',
    trials w.1 !! index = Some tr → assoc_cells pairs (ass tr) = Ok a' →
    ∃ w', associate index pairs w = (Ok tt, w') ∧
          trials w'.1 = <[index := with_ass a' tr]> (trials w.1).
Proof.
  induction pairs as [|[c p] pairs IH]; intros w tr a' Htr Ha; simpl in *.
  - injection Ha as <-. exists w. split; [done|].
    rewrite list_insert_id; [done|]. by destruct tr.
  - destruct (set_cell (ass tr) c p) as [a1|] eqn:Ha1; [|done].
    erewrite bind_Ok;
      [|apply (trial_update_Ok _ _ _ tr (with_ass a1 tr)); [done|]; by rewrite Ha1].
    edestruct (IH (set_trials (<[index := with_ass a1 tr]> (trials w.1)) w.1, w.2)
                  (with_ass a1 tr) a') as (w' & Hw' & Htw'); [|done|].
    { simpl. apply list_lookup_insert_eq. by eapply lookup_lt_Some. }
    exists w'. split; [done|].
    rewrite Htw'. simpl. by rewrite list_insert_insert_eq.
Qed.

Lemma build_trials_progress b len P Q count :
  choice_accepts (seq 0 len) (default 2 (n_cue b)) P = true →
  choice_accepts (seq 0 len) (default 2 (n_cue b)) Q = true →
  len ≤ N_SLOTS → length (b_rwd b) = N_SLOTS →
  ∀ index (w : World),
    (∀ i, index ≤ i < index + count →
          ∃ r, trials w.1 !! i = Some (fresh r)) →
    ∃ w', build_trials b (seq 0 len) (default 2 (n_cue b)) P Q count index w
          = (Ok (index + count), w').
Proof.
  intros HP HQ Hlen Hrwd.
  assert (Hrange : ∀ g X l,
    (choice (seq 0 len) (default 2 (n_cue b)) X g).1 = Ok l →
    Forall (λ i, i < N_SLOTS) l).
  { intros g X l Hl. apply choice_returns in Hl as (_ & Hsub & _).
    apply Forall_forall. intros i Hi. apply Hsub, elem_of_seq in Hi. lia. }
  induction count as [|count IH]; intros index w Hfresh.
  { exists w. simpl. unfold ret. do 2 f_equal. lia. }
  destruct (Hfresh index) as [r Hr]; [lia|].
  assert (Hlt : index < length (trials w.1)) by (by eapply lookup_lt_Some).
  destruct (choice_accepted _ _ _ w.2 HP) as [cs Hcs].
  destruct (choice (seq 0 len) (default 2 (n_cue b)) P w.2)
    as [rc g1] eqn:HcP.
  simpl in Hcs. subst rc.
  destruct (choice_accepted _ _ _ g1 HQ) as [ps Hps].
  destruct (choice (seq 0 len) (default 2 (n_cue b)) Q g1)
    as [rp g2] eqn:HcQ.
  simpl in Hps. subst rp.
  assert (Hcr : Forall (λ i, i < N_SLOTS) cs).
  { apply (Hrange w.2 P). by rewrite HcP. }
  assert (Hpr : Forall (λ i, i < N_SLOTS) ps).
  { apply (Hrange g1 Q). by rewrite HcQ. }
  simpl.
  erewrite bind_Ok; [|unfold np_choice; by rewrite HcP]. cbv beta.
  erewrite bind_Ok; [|unfold np_choice; simpl; by rewrite HcQ]. cbv beta.
  erewrite bind_Ok;
    [|apply (trial_update_Ok _ _ _ (fresh r)); [exact Hr|];
      change (cog (fresh r)) with (mark []);
      by rewrite (fancy_set_mark_Ok cs Hcr)].
  cbv beta.
  erewrite bind_Ok;
    [|eapply trial_update_Ok;
      [simpl; by apply list_lookup_insert_eq|];
      change (mot (with_cog (mark cs) (fresh r))) with (mark []);
      by rewrite (fancy_set_mark_Ok ps Hpr)].
  cbv beta.
  edestruct (associate_Ok index (zip cs ps)) as (w5 & Hw5 & Htw5);
    [| |erewrite bind_Ok; [|exact Hw5]].
  { simpl. rewrite list_insert_insert_eq.
    by apply list_lookup_insert_eq. }
  { change (ass (with_mot (mark ps) (with_cog (mark cs) (fresh r))))
      with (mark_pairs []).
    apply assoc_cells_mark. by apply Forall_zip_range. }
  cbv beta. simpl in Htw5.
  rewrite !list_insert_insert_eq in Htw5.
  erewrite bind_Ok;
    [|eapply trial_update_Ok;
      [rewrite Htw5; by apply list_lookup_insert_eq|];
      by rewrite (broadcast4_full _ Hrwd)].
  cbv beta.
  edestruct (IH (S index)) as (w' & Hw'); [|exists w'; rewrite Hw'].
  - intros i Hi. simpl.
    rewrite Htw5, list_insert_insert_eq, list_lookup_insert_ne by lia.
    apply Hfresh. lia.
  - do 2 f_equal. lia.
Qed.

Lemma build_blocks_progress bs :
  Forall valid_block bs →
  ∀ index (w : World),
    (∀ i, index ≤ i < index + total_trials bs →
          ∃ r, trials w.1 !! i = Some (fresh r)) →
    ∃ ix w', build_blocks bs index w = (Ok ix, w').
Proof.
  induction 1 as [|b bs Hb Hbs IH]; intros index w Hfresh.
  { by exists index, w. }
  rewrite total_trials_cons in Hfresh.
  destruct Hb as (Hl0 & Hl4 & Hlp & Hcn & Hpn & Hcs & Hps & Hnc & Hnp & Hrw).
  destruct (build_trials_progress b (length (cue b)) (over_sum (cue b))
              (over_sum (pos b)) (n_trial b)) with (index := index) (w := w)
    as (w1 & Hw1); try done.
  { by apply choice_accepts_valid. }
  { by apply choice_accepts_valid. }
  { intros i Hi. apply Hfresh. lia. }
  simpl. erewrite bind_Ok; [|exact Hw1].
  apply IH. intros i Hi.
  apply build_trials_content in Hw1 as (_ & Hout & _).
  rewrite Hout by lia. apply Hfresh. lia.
Qed.

(** [setup] returns for every valid configuration. *)
Lemma setup_progress (t : Task) (g : rng) :
  valid_config (parameters t) → ∃ w', setup (t, g) = (Ok tt, w').
Proof.
  intros (bs & Hbs & Hvalid). rewrite (setup_found t g bs Hbs).
  pose proof (uniform_length (total_trials bs) g) as Hlen.
  destruct (uniform (total_trials bs) g) as [u g1] eqn:Hu. simpl in Hlen.
  erewrite bind_Ok; [|unfold np_uniform; simpl; by rewrite Hu]. cbv beta.
  erewrite bind_Ok;
    [|unfold assign_rnd; simpl;
      by rewrite decide_True by (by rewrite length_replicate)].
  cbv beta.
  edestruct (build_blocks_progress bs Hvalid 0) as (ix & w' & Hw');
    [|erewrite bind_Ok; [|exact Hw']; by exists w'].
  intros i Hi. simpl.
  destruct (lookup_lt_is_Some_2 u i) as [r Hr]; [lia|].
  exists r. apply lookup_zip_with_Some. exists zero_trial, r.
  split; [done|]. split; [apply lookup_replicate_2; lia|done].
Qed.
End Progress.

(** ** Counting the cells of the association matrix *)

Lemma concat_mark_pairs s :
  concat (mark_pairs s) =
  (λ cp, if bool_decide (cp ∈ s) then 1%Q else 0%Q) <$> cells.
Proof. reflexivity. Qed.

Lemma count_indicator {A} (P : A → Prop) `{∀ x, Decision (P x)} (l : list A) :
  length (filter (λ x, Qeq_bool x 1 = true)
            ((λ x, if bool_decide (P x) then 1%Q else 0%Q) <$> l)) =
  length (filter P l).
Proof.
  induction l as [|x l IH]; [done|].
  rewrite fmap_cons, !filter_cons.
  case_bool_decide; destruct (decide (P x)); try done; simpl; by rewrite IH.
Qed.

Lemma count_ones_mark_pairs s :
  NoDup s → Forall (λ cp, cp.1 < N_SLOTS ∧ cp.2 < N_SLOTS) s →
  count_ones (mark_pairs s) = length s.
Proof.
  intros Hnd Hrange. unfold count_ones.
  rewrite concat_mark_pairs, (count_indicator (λ cp, cp ∈ s)).
  apply Permutation_length, NoDup_Permutation; [|done|].
  - apply NoDup_filter. unfold cells, N_SLOTS. compute_done.
  - intros [c p]. rewrite list_elem_of_filter. unfold cells.
    rewrite list_elem_of_cprod, !elem_of_seq. simpl.
    split; [tauto|]. intros Hin. split; [done|].
    rewrite Forall_forall in Hrange. specialize (Hrange _ Hin). simpl in *.
    lia.
Qed.

Lemma cell_mark_pairs s c p :
  cell (mark_pairs s) c p = Some 1%Q ↔
  c < N_SLOTS ∧ p < N_SLOTS ∧ (c, p) ∈ s.
Proof.
  unfold cell, mark_pairs. rewrite list_lookup_fmap.
  destruct (decide (c < N_SLOTS)) as [Hc|Hc].
  - rewrite lookup_seq_lt by done. cbn [fmap option_fmap option_map mbind option_bind plus].
    rewrite list_lookup_fmap.
    destruct (decide (p < N_SLOTS)) as [Hp|Hp].
    + rewrite lookup_seq_lt by done. cbn [fmap option_fmap option_map plus].
      case_bool_decide; split; try done; tauto.
    + rewrite lookup_seq_ge by lia. split; [done|]. tauto.
  - rewrite lookup_seq_ge by lia. split; [done|]. tauto.
Qed.

Lemma ones_mark idx :
  NoDup idx → Forall (λ i, i < N_SLOTS) idx → ones (mark idx) = length idx.
Proof.
  intros Hnd Hrange. unfold ones, mark.
  rewrite (count_indicator (λ i, i ∈ idx)).
  apply Permutation_length, NoDup_Permutation; [|done|].
  - apply NoDup_filter, NoDup_seq.
  - intros i. rewrite list_elem_of_filter, elem_of_seq.
    split; [tauto|]. intros Hin. split; [done|].
    rewrite Forall_forall in Hrange. specialize (Hrange _ Hin). lia.
Qed.

(** In a laid-out trial a cue has one position and a position one cue. *)
Lemma laid_out_one_to_one cs ps tr :
  laid_out cs ps tr →
  (∀ c p p', cell (ass tr) c p = Some 1%Q → cell (ass tr) c p' = Some 1%Q →
             p = p') ∧
  (∀ c c' p, cell (ass tr) c p = Some 1%Q → cell (ass tr) c' p = Some 1%Q →
             c = c').
Proof.
  intros (Hc & Hp & Hlen & Hcr & Hpr & _ & _ & ->). split.
  - intros c p p' H1 H2.
    apply cell_mark_pairs in H1 as (_ & _ & H1), H2 as (_ & _ & H2).
    exact (zip_unique_r cs ps c p p' Hc H1 H2).
  - intros c c' p H1 H2.
    apply cell_mark_pairs in H1 as (_ & _ & H1), H2 as (_ & _ & H2).
    exact (zip_unique_l cs ps c c' p Hp H1 H2).
Qed.

(** The rows, the columns and the count of ones of a laid-out trial. *)
Lemma laid_out_counts cs ps tr :
  laid_out cs ps tr →
  count_ones (ass tr) = length cs ∧
  (∀ c, (∃ p, cell (ass tr) c p = Some 1%Q) ↔ cog tr !! c = Some 1%Q) ∧
  (∀ p, (∃ c, cell (ass tr) c p = Some 1%Q) ↔ mot tr !! p = Some 1%Q).
Proof.
  intros (Hc & Hp & Hlen & Hcr & Hpr & -> & -> & ->).
  pose proof (Forall_zip_range cs ps Hcr Hpr) as Hzr.
  split; [|split].
  - rewrite count_ones_mark_pairs; [|by apply NoDup_zip_l|done].
    by rewrite length_zip_with_l_eq.
  - intros c. rewrite mark_lookup_one. split.
    + intros (p & H). apply cell_mark_pairs in H as (Hc4 & _ & Hin).
      split; [done|]. by apply elem_of_zip_l in Hin.
    + intros [Hc4 Hin]. destruct (zip_partner_r cs ps c Hlen Hin) as [p Hcp].
      exists p. apply cell_mark_pairs. split; [done|]. split; [|done].
      rewrite Forall_forall in Hpr. by eapply Hpr, elem_of_zip_r.
  - intros p. rewrite mark_lookup_one. split.
    + intros (c & H). apply cell_mark_pairs in H as (_ & Hp4 & Hin).
      split; [done|]. by apply elem_of_zip_r in Hin.
    + intros [Hp4 Hin]. destruct (zip_partner_l cs ps p Hlen Hin) as [c Hcp].
      exists c. apply cell_mark_pairs. split; [|done].
      rewrite Forall_forall in Hcr. by eapply Hcr, elem_of_zip_l.
Qed.

(** ** A session of two blocks, for the examples *)

Lemma demo_blocks_valid : Forall valid_block [familiar; novel].
Proof.
  repeat constructor; simpl; unfold N_SLOTS, Qle, Qlt; simpl; try lia;
    try reflexivity.
Qed.

Lemma demo_valid : valid_config demo.
Proof.
  exists [familiar; novel]. split; [reflexivity|]. apply demo_blocks_valid.
Qed.

Section SetupClaims.
Context {R : NumpyRandom}.

(** C8: for every valid configuration (the session names blocks of the
    file, and each of them is valid) the construction returns a task
    whose trial sequence and whose records sequence both have as many
    items as the [n_trial] of the blocks the session names sum to. *)
Theorem C8_trial_count (p : Parameters) (g : rng) (bs : list Block) :
  session_blocks p bs → Forall valid_block bs →
  ∃ t g',
    __init__ p g = (Ok t, g') ∧
    length (trials t) = sum_list (n_trial <$> bs) ∧
    length (records t) = sum_list (n_trial <$> bs) ∧
    __len__ t = sum_list (n_trial <$> bs).
Proof.
  intros Hsession Hvalid. apply lookup_blocks_Ok in Hsession.
  assert (Hcfg : valid_config p) by (by exists bs).
  unfold __init__.
  destruct (setup_progress (blank p) g Hcfg) as [[t g'] Hsetup].
  rewrite Hsetup.
  apply setup_Ok_inv in Hsetup
    as (bs' & Hbs & _ & _ & Hrec & _ & _ & _ & Hlen & _).
  simpl in *. assert (bs' = bs) as -> by congruence.
  exists t, g'. rewrite <- total_trials_sum.
  repeat split; try done.
  by rewrite Hrec, length_replicate.
Qed.

(** C6: in every trial a successful [setup] produces, for the block
    of the session the trial belongs to: the cues marked in [cog] and
    the positions marked in [mot] are two samples of [n_cue] slots each,
    pairwise distinct; [cog] and [mot] hold [n_cue] ones each; [ass]
    has its ones exactly at the pairs of the two samples, [n_cue] of
    them; its rows with a one are the cues marked in [cog], its columns
    with a one the positions marked in [mot], and no row and no column
    holds two. *)
Theorem C6_trial_layout (t : Task) (g : rng) (w' : World) :
  setup (t, g) = (Ok tt, w') →
  ∃ bs,
    session_blocks (parameters t) bs ∧
    length (trials w'.1) = length (owners bs) ∧
    ∀ i tr b,
      trials w'.1 !! i = Some tr → owners bs !! i = Some b →
      ∃ cues_idx pos_idx,
        NoDup cues_idx ∧ NoDup pos_idx ∧
        Forall (λ c, c < N_SLOTS) cues_idx ∧
        Forall (λ p, p < N_SLOTS) pos_idx ∧
        length cues_idx = default 2 (n_cue b) ∧
        length pos_idx = default 2 (n_cue b) ∧
        cog tr = mark cues_idx ∧ mot tr = mark pos_idx ∧
        ass tr = mark_pairs (zip cues_idx pos_idx) ∧
        ones (cog tr) = default 2 (n_cue b) ∧
        ones (mot tr) = default 2 (n_cue b) ∧
        count_ones (ass tr) = default 2 (n_cue b) ∧
        (∀ c, (∃ p, cell (ass tr) c p = Some 1%Q) ↔
              cog tr !! c = Some 1%Q) ∧
        (∀ p, (∃ c, cell (ass tr) c p = Some 1%Q) ↔
              mot tr !! p = Some 1%Q) ∧
        (∀ c p p', cell (ass tr) c p = Some 1%Q →
                   cell (ass tr) c p' = Some 1%Q → p = p') ∧
        (∀ c c' p, cell (ass tr) c p = Some 1%Q →
                   cell (ass tr) c' p = Some 1%Q → c = c').
Proof.
  intros Hsetup.
  apply setup_Ok_inv in Hsetup
    as (bs & Hbs & _ & _ & _ & _ & _ & _ & Hlen & Hbuilt).
  exists bs. split; [by apply lookup_blocks_Ok|].
  split; [by rewrite owners_length|].
  intros i tr b Htr Hb.
  destruct (Hbuilt i b Hb) as (tr' & r & Htr' & _ & cs & ps & Hlo & Hn & _).
  rewrite Htr in Htr'. injection Htr' as <-.
  destruct (laid_out_counts cs ps tr Hlo) as (Hcount & Hrows & Hcols).
  destruct (laid_out_one_to_one cs ps tr Hlo) as (Hrow1 & Hcol1).
  destruct Hlo as (Hc & Hp & Hl & Hcr & Hpr & Hcog & Hmot & Hass).
  exists cs, ps.
  do 4 (split; [done|]). split; [done|]. split; [congruence|].
  do 3 (split; [done|]).
  split; [rewrite Hcog, ones_mark by done; congruence|].
  split; [rewrite Hmot, ones_mark by done; congruence|].
  split; [congruence|]. done.
Qed.
End SetupClaims.

Lemma C8_trial_count_witness :
  ∃ t g',
    @__init__ TapeRandom demo demo_tape = (Ok t, g') ∧
    length (trials t) = sum_list (n_trial <$> [familiar; novel]) ∧
    length (records t) = sum_list (n_trial <$> [familiar; novel]) ∧
    __len__ t = sum_list (n_trial <$> [familiar; novel]).
Proof.
  apply (@C8_trial_count TapeRandom demo demo_tape [familiar; novel]).
  - repeat constructor; done.
  - repeat constructor; simpl; unfold N_SLOTS, Qle, Qlt; simpl; try lia;
      try reflexivity.
Defined.

Lemma C6_trial_layout_witness :
  ∃ bs,
    session_blocks (parameters (blank demo)) bs ∧
    length (trials (@setup TapeRandom (blank demo, demo_tape)).2.1)
      = length (owners bs) ∧
    ∀ i tr b,
      trials (@setup TapeRandom (blank demo, demo_tape)).2.1 !! i = Some tr →
      owners bs !! i = Some b →
      ∃ cues_idx pos_idx,
        NoDup cues_idx ∧ NoDup pos_idx ∧
        Forall (λ c, c < N_SLOTS) cues_idx ∧
        Forall (λ p, p < N_SLOTS) pos_idx ∧
        length cues_idx = default 2 (n_cue b) ∧
        length pos_idx = default 2 (n_cue b) ∧
        cog tr = mark cues_idx ∧ mot tr = mark pos_idx ∧
        ass tr = mark_pairs (zip cues_idx pos_idx) ∧
        ones (cog tr) = default 2 (n_cue b) ∧
        ones (mot tr) = default 2 (n_cue b) ∧
        count_ones (ass tr) = default 2 (n_cue b) ∧
        (∀ c, (∃ p, cell (ass tr) c p = Some 1%Q) ↔
              cog tr !! c = Some 1%Q) ∧
        (∀ p, (∃ c, cell (ass tr) c p = Some 1%Q) ↔
              mot tr !! p = Some 1%Q) ∧
        (∀ c p p', cell (ass tr) c p = Some 1%Q →
                   cell (ass tr) c p' = Some 1%Q → p = p') ∧
        (∀ c c' p, cell (ass tr) c p = Some 1%Q →
                   cell (ass tr) c' p = Some 1%Q → c = c').
Proof.
  apply (@C6_trial_layout TapeRandom (blank demo) demo_tape).
  vm_compute. reflexivity.
Defined.

(** ** Configurations [setup] refuses *)





Section Refusal.
Context {R : NumpyRandom}.











End Refusal.


(** Behind a block that is not valid the earlier failure comes first: a
    block of five slots stops the construction with the [IndexError] of
    its own fifth slot, before the block without a positive cue weight
    is sampled. *)
Example earlier_failure_first :
  ∃ g', @__init__ TapeRandom (two_blocks five_slots zero_weights) demo_tape
        = (Raise IndexError, g').
Proof. eexists. vm_compute. reflexivity. Qed.


(** ** Iteration *)

Lemma next_all_drop (t : Task) (a : option Z) :
  ∀ fuel i,
    i ≤ length (trials t) → length (trials t) - i < fuel →
    next_all fuel
      (set_cursor (Some (Z.of_nat i - 1)%Z) a
         (Some (Z.of_nat (length (trials t)))) t)
    = (Ok (Some (drop i (trials t))), set_cursor None None None t).
Proof.
  induction fuel as [|fuel IH]; intros i Hi Hfuel; [lia|].
  cbn [next_all]. unfold __next__. cbn [index index_stop index_start set_cursor].
  replace (Z.of_nat i - 1 + 1)%Z with (Z.of_nat i) by lia.
  destruct (decide (Z.of_nat i < Z.of_nat (length (trials t)))%Z) as [Hlt|Hge].
  - unfold __getitem__. cbn [trials set_cursor].
    rewrite py_index_nonneg by lia.
    destruct (lookup_lt_is_Some_2 (trials t) i) as [tr Htr]; [lia|].
    rewrite Htr.
    assert (Hstate :
      set_cursor (Some (Z.of_nat i)) a (Some (Z.of_nat (length (trials t))))
        (set_cursor (Some (Z.of_nat i - 1)%Z) a
           (Some (Z.of_nat (length (trials t)))) t)
      = set_cursor (Some (Z.of_nat (S i) - 1)%Z) a
          (Some (Z.of_nat (length (trials t)))) t).
    { unfold set_cursor; simpl. do 2 f_equal. lia. }
    rewrite Hstate.
    rewrite IH by lia.
    by rewrite (drop_S _ _ _ Htr).
  - assert (i = length (trials t)) as -> by lia.
    by rewrite drop_all.
Qed.

Section Iteration.
Context {R : NumpyRandom}.

(** A loop over a task that is not started, when its [setup] returns:
    the trials of that [setup], in order, and the cursor reset. *)
Lemma for_each_fresh (t t1 : Task) (g g1 : rng) fuel :
  index_start t = None →
  setup (t, g) = (Ok tt, (t1, g1)) →
  length (trials t1) < fuel →
  for_each fuel (t, g) =
  (Ok (Some (trials t1)), (set_cursor None None None t1, g1)).
Proof.
  intros Hstart Hsetup Hfuel. unfold for_each, __iter__.
  erewrite bind_Ok; [|erewrite bind_Ok; [|reflexivity]; simpl;
    rewrite Hstart; erewrite bind_Ok; [|exact Hsetup]; reflexivity].
  unfold on_task. cbn [fst snd].
  pose proof (next_all_drop t1 (Some (-1)%Z) fuel 0) as Hn.
  change (Z.of_nat 0 - 1)%Z with (-1)%Z in Hn.
  unfold modify, __len__. cbn [fst snd].
  rewrite Hn by lia. by rewrite drop_0.
Qed.

(** C1, as the code has it: a loop over a task that is not started
    runs [setup] and visits its trials in order, then resets the
    cursor; the next loop runs [setup] again, from the generator state
    the first left, and visits the trials of this new [setup]: as many
    as before, drawn afresh. *)
Theorem C1_restart (t : Task) (g : rng) (fuel : nat) :
  valid_config (parameters t) → index_start t = None →
  ∃ t1 g1 t2 g2,
    setup (t, g) = (Ok tt, (t1, g1)) ∧
    setup (set_cursor None None None t1, g1) = (Ok tt, (t2, g2)) ∧
    length (trials t2) = length (trials t1) ∧
    (length (trials t1) < fuel →
     for_each fuel (t, g) =
       (Ok (Some (trials t1)), (set_cursor None None None t1, g1)) ∧
     for_each fuel (set_cursor None None None t1, g1) =
       (Ok (Some (trials t2)), (set_cursor None None None t2, g2))).
Proof.
  intros Hvalid Hstart.
  destruct (setup_progress t g Hvalid) as [[t1 g1] H1].
  pose proof (setup_Ok_inv _ _ _ H1)
    as (bs1 & Hbs1 & Hp1 & _ & _ & _ & _ & _ & Hl1 & _).
  simpl in Hp1, Hl1.
  destruct (setup_progress (set_cursor None None None t1) g1) as [[t2 g2] H2].
  { simpl. by rewrite Hp1. }
  pose proof (setup_Ok_inv _ _ _ H2)
    as (bs2 & Hbs2 & _ & _ & _ & _ & _ & _ & Hl2 & _).
  simpl in Hbs2, Hl2. rewrite Hp1, Hbs1 in Hbs2. injection Hbs2 as <-.
  exists t1, g1, t2, g2. do 2 (split; [done|]). split; [congruence|].
  intros Hfuel. split.
  - by apply for_each_fresh.
  - apply for_each_fresh; [done|done|]. congruence.
Qed.
End Iteration.

Lemma C1_restart_witness :
  ∃ t1 g1 t2 g2,
    @setup TapeRandom (blank demo, long_tape) = (Ok tt, (t1, g1)) ∧
    @setup TapeRandom (set_cursor None None None t1, g1) = (Ok tt, (t2, g2)) ∧
    length (trials t2) = length (trials t1) ∧
    (length (trials t1) < 4 →
     @for_each TapeRandom 4 (blank demo, long_tape) =
       (Ok (Some (trials t1)), (set_cursor None None None t1, g1)) ∧
     @for_each TapeRandom 4 (set_cursor None None None t1, g1) =
       (Ok (Some (trials t2)), (set_cursor None None None t2, g2))).
Proof.
  apply (@C1_restart TapeRandom (blank demo) long_tape 4).
  - exact demo_valid.
  - reflexivity.
Defined.

(** C1 fails as stated: two successive loops over the same task visit
    trials with different [rnd] values. *)
Lemma C1_counterexample :
  ∃ t g l1 w1 l2 w2,
    @__init__ TapeRandom demo long_tape = (Ok t, g) ∧
    @for_each TapeRandom 4 (t, g) = (Ok (Some l1), w1) ∧
    @for_each TapeRandom 4 w1 = (Ok (Some l2), w2) ∧
    rnd <$> l1 = [10 # 1000; 11 # 1000; 12 # 1000]%Q ∧
    rnd <$> l2 = [19 # 1000; 20 # 1000; 21 # 1000]%Q ∧
    l1 ≠ l2.
Proof.
  eexists _, _, _, _, _, _.
  split; [vm_compute; reflexivity|].
  split; [vm_compute; reflexivity|].
  split; [vm_compute; reflexivity|].
  split; [reflexivity|]. split; [reflexivity|].
  intros Heq. discriminate Heq.
Qed.

(** ** The length of a task *)

Instance same_shape_refl {R : NumpyRandom} : Reflexive same_shape.
Proof. by intros w. Qed.

Instance same_shape_trans {R : NumpyRandom} : Transitive same_shape.
Proof. intros w1 w2 w3 [? ?] [? ?]. split; congruence. Qed.

Section Length.
Context {R : NumpyRandom}.

Lemma trials_only_same_shape (w w' : World) :
  trials_only w w' → same_shape w w'.
Proof. intros [Hw Hl]. split; [|done]. by rewrite Hw. Qed.

(** Whatever [setup] does once the blocks of the session are found,
    it leaves as many trials as their [n_trial] sum to. *)
Lemma setup_shape (t : Task) (g : rng) r (w' : World) bs :
  lookup_blocks (named (parameters t)) (session (parameters t)) = Ok bs →
  setup (t, g) = (r, w') →
  parameters w'.1 = parameters t ∧ length (trials w'.1) = total_trials bs.
Proof.
  intros Hbs. rewrite (setup_found t g bs Hbs).
  intros H.
  assert (Hshape :
    same_shape (allocate bs (set_blocks (block_ranges 0 bs) t), g) w').
  { revert H. apply preserves_bind; [apply _| |intros u].
    - intros w0 r0 w0'. unfold np_uniform.
      destruct (uniform _ _). by intros [= _ <-].
    - apply preserves_bind; [apply _| |intros _].
      + intros w0 r0 w0'. unfold assign_rnd.
        destruct (decide _) as [Hlen|_]; intros [= _ <-]; [|done].
        split; [done|]. simpl. rewrite length_zip_with. lia.
      + apply preserves_bind; [apply _| |intros _; apply preserves_ret; apply _].
        intros w0 r0 w0' H0. apply trials_only_same_shape.
        by eapply build_blocks_trials_only. }
  destruct Hshape as [Hp Hl]. simpl in Hp, Hl.
  by rewrite length_replicate in Hl.
Qed.

Lemma block_frame i (t t' : Task) r :
  block i t = (r, t') →
  parameters t' = parameters t ∧ blocks t' = blocks t ∧
  trials t' = trials t ∧ records t' = records t.
Proof.
  unfold block. destruct (py_index _ _) as [k|]; [|by intros [= _ <-]].
  destruct (blocks t !! k) as [[start stop]|]; by intros [= _ <-].
Qed.

Lemma next_frame (t t' : Task) r :
  __next__ t = (r, t') →
  parameters t' = parameters t ∧ blocks t' = blocks t ∧
  trials t' = trials t ∧ records t' = records t.
Proof.
  unfold __next__. destruct (index t) as [i|]; [|by intros [= _ <-]].
  cbn [index_stop set_cursor].
  destruct (index_stop t) as [stop|]; [|by intros [= _ <-]].
  destruct (decide _); by intros [= _ <-].
Qed.

Lemma reachable_length p (w : World) :
  reachable p w →
  parameters w.1 = p ∧
  ∃ bs, lookup_blocks (named p) (session p) = Ok bs ∧
        __len__ w.1 = sum_list (n_trial <$> bs).
Proof.
  unfold __len__. induction 1 as
    [g t g' Hinit
    |w i r t' _ IH Hblock
    |w r w' _ IH Hiter
    |w r t' _ IH Hnext
    |w trial choice RT model debug r t' _ IH Hproc].
  - unfold __init__ in Hinit.
    destruct (setup (blank p, g)) as [[[]|e] [t0 g0]] eqn:Hsetup; [|done].
    injection Hinit as <- <-.
    apply setup_Ok_inv in Hsetup
      as (bs & Hbs & Hp & _ & _ & _ & _ & _ & Hlen & _).
    simpl in *. split; [done|]. exists bs.
    by rewrite <- total_trials_sum.
  - apply block_frame in Hblock as (Hp & _ & Ht & _). simpl.
    by rewrite Hp, Ht.
  - destruct IH as (Hp & bs & Hbs & Hlen).
    revert Hiter. unfold __iter__.
    erewrite bind_Ok; [|reflexivity]. simpl.
    destruct (index_start w.1); [by intros [= _ <-]; eauto|].
    unfold bind.
    destruct (setup w) as [[[]|e] w1] eqn:Hsetup.
    + unfold modify. intros [= _ <-]. simpl.
      destruct w as [t g]. eapply setup_shape in Hsetup as [Hp1 Hl1];
        [|simpl in *; by rewrite Hp].
      simpl in *. split; [congruence|]. exists bs.
      by rewrite Hl1, <- total_trials_sum.
    + intros [= _ <-].
      destruct w as [t g]. eapply setup_shape in Hsetup as [Hp1 Hl1];
        [|simpl in *; by rewrite Hp].
      simpl in *. split; [congruence|]. exists bs.
      by rewrite Hl1, <- total_trials_sum.
  - apply next_frame in Hnext as (Hp & _ & Ht & _). simpl.
    by rewrite Hp, Ht.
  - apply process_records_only in Hproc as [Heq _]. simpl.
    rewrite Heq. simpl. done.
Qed.

(** C10: in every state a task reaches, [len] is the sum of the
    [n_trial] of the session's blocks; [block(index)] leaves the
    trials, and so the length and what each index addresses, as they
    were, and changes the cursor and its bounds only. *)
Theorem C10_len_total (p : Parameters) (t : Task) (g : rng) :
  reachable p (t, g) →
  (∃ bs, lookup_blocks (named p) (session p) = Ok bs ∧
         __len__ t = sum_list (n_trial <$> bs)) ∧
  (∀ i r t', block i t = (r, t') →
     reachable p (t', g) ∧
     __len__ t' = __len__ t ∧
     trials t' = trials t ∧ records t' = records t ∧
     blocks t' = blocks t ∧ parameters t' = parameters t ∧
     (∀ j, __getitem__ t' j = __getitem__ t j)).
Proof.
  intros Hreach. split; [by apply (reachable_length p (t, g))|].
  intros i r t' Hblock.
  split; [by apply (reach_block p (t, g) i r t')|].
  apply block_frame in Hblock as (Hp & Hb & Ht & Hr).
  unfold __len__, __getitem__. rewrite Ht. done.
Qed.
End Length.

Lemma C10_len_total_witness :
  (∃ bs, lookup_blocks (named demo) (session demo) = Ok bs ∧
         __len__ (@built_task TapeRandom demo demo_tape)
           = sum_list (n_trial <$> bs)) ∧
  (∀ i r t', block i (@built_task TapeRandom demo demo_tape) = (r, t') →
     @reachable TapeRandom demo (t', [2; 6; 5; 3; 5]) ∧
     __len__ t' = __len__ (@built_task TapeRandom demo demo_tape) ∧
     trials t' = trials (@built_task TapeRandom demo demo_tape) ∧
     records t' = records (@built_task TapeRandom demo demo_tape) ∧
     blocks t' = blocks (@built_task TapeRandom demo demo_tape) ∧
     parameters t' = parameters (@built_task TapeRandom demo demo_tape) ∧
     (∀ j, __getitem__ t' j =
           __getitem__ (@built_task TapeRandom demo demo_tape) j)).
Proof.
  apply (@C10_len_total TapeRandom demo
           (@built_task TapeRandom demo demo_tape) [2; 6; 5; 3; 5]).
  apply (@reach_init TapeRandom demo demo_tape). vm_compute. reflexivity.
Defined.

(** * Further properties of the iteration protocol *)

Lemma next_all_range (t : Task) (a : option Z) (stop : nat) :
  stop ≤ length (trials t) →
  ∀ fuel i,
    i ≤ stop → stop - i < fuel →
    next_all fuel
      (set_cursor (Some (Z.of_nat i - 1)%Z) a (Some (Z.of_nat stop)) t)
    = (Ok (Some (take (stop - i) (drop i (trials t)))),
       set_cursor None None None t).
Proof.
  intros Hstop. induction fuel as [|fuel IH]; intros i Hi Hfuel; [lia|].
  cbn [next_all]. unfold __next__. cbn [index index_stop index_start set_cursor].
  replace (Z.of_nat i - 1 + 1)%Z with (Z.of_nat i) by lia.
  destruct (decide (Z.of_nat i < Z.of_nat stop)%Z) as [Hlt|Hge].
  - unfold __getitem__. cbn [trials set_cursor].
    rewrite py_index_nonneg by lia.
    destruct (lookup_lt_is_Some_2 (trials t) i) as [tr Htr]; [lia|].
    rewrite Htr.
    assert (Hstate :
      set_cursor (Some (Z.of_nat i)) a (Some (Z.of_nat stop))
        (set_cursor (Some (Z.of_nat i - 1)%Z) a (Some (Z.of_nat stop)) t)
      = set_cursor (Some (Z.of_nat (S i) - 1)%Z) a (Some (Z.of_nat stop)) t).
    { unfold set_cursor; simpl. do 2 f_equal. lia. }
    rewrite Hstate, IH by lia.
    rewrite (drop_S _ _ _ Htr).
    replace (stop - i) with (S (stop - S i)) by lia. done.
  - assert (i = stop) as -> by lia.
    by rewrite Nat.sub_diag, take_0.
Qed.

Lemma set_cursor_id (t : Task) i a b :
  index t = i → index_start t = a → index_stop t = b → set_cursor i a b t = t.
Proof. destruct t. simpl. by intros -> -> ->. Qed.

Lemma next_all_done fuel :
  ∀ (t t' : Task) l,
    next_all fuel t = (Ok (Some l), t') →
    index t' = None ∧ index_start t' = None ∧ index_stop t' = None ∧
    trials t' = trials t ∧ records t' = records t.
Proof.
  induction fuel as [|fuel IH]; intros t t' l; [done|].
  cbn [next_all].
  destruct (__next__ t) as [[tr|e] t1] eqn:Hnext.
  - destruct (next_all fuel t1) as [[[l1|]|e1] t2] eqn:Hrest; try done.
    intros [= _ <-]. apply IH in Hrest as (? & ? & ? & Ht & Hr).
    apply next_frame in Hnext as (_ & _ & Ht1 & Hr1).
    repeat split; try done; congruence.
  - destruct e; try done. intros [= _ <-].
    revert Hnext. unfold __next__.
    destruct (index t) as [i|]; [|done]. cbn [index_stop set_cursor].
    destruct (index_stop t) as [stop|]; [|done].
    destruct (decide _); [|by intros [= <-]].
    unfold __getitem__. destruct (py_index _ _); [|done].
    by destruct (_ !! _).
Qed.

Section IterationMore.
Context {R : NumpyRandom}.

(** X1: a loop over a task that is started (by [block], or by a loop
    left before its end) does not run [setup]: it visits the trials from
    the one after the cursor up to the bound, in order, leaves the
    generator alone and resets the cursor. *)
Theorem started_loop_visits_range (t : Task) (g : rng) (a : Z)
    (i stop fuel : nat) :
  index t = Some (Z.of_nat i - 1)%Z → index_start t = Some a →
  index_stop t = Some (Z.of_nat stop) →
  i ≤ stop → stop ≤ length (trials t) → stop - i < fuel →
  for_each fuel (t, g) =
  (Ok (Some (take (stop - i) (drop i (trials t)))),
   (set_cursor None None None t, g)).
Proof.
  intros Hi Ha Hs Hle Hstop Hfuel. unfold for_each, __iter__.
  erewrite bind_Ok; [|erewrite bind_Ok; [|reflexivity]; simpl;
    rewrite Ha; reflexivity].
  unfold on_task. cbn [fst snd].
  rewrite <- (set_cursor_id t _ _ _ Hi Ha Hs) at 1.
  by rewrite (next_all_range t (Some a) stop Hstop fuel i Hle Hfuel).
Qed.

(** X3: a loop that ran to its end leaves the task not started: the
    cursor and both bounds are [None], and a further call of [__next__]
    raises [TypeError], not [StopIteration], and changes nothing. *)
Theorem finished_loop_not_started (t : Task) (g : rng) (fuel : nat)
    (l : list Trial) (w' : World) :
  for_each fuel (t, g) = (Ok (Some l), w') →
  index w'.1 = None ∧ index_start w'.1 = None ∧ index_stop w'.1 = None ∧
  __next__ w'.1 = (Raise TypeError, w'.1).
Proof.
  unfold for_each. intros H.
  apply bind_Ok_inv in H as ([] & [t1 g1] & _ & H).
  unfold on_task in H. cbn [fst snd] in H.
  destruct (next_all fuel t1) as [r t2] eqn:Hn.
  injection H as -> <-. apply next_all_done in Hn as (Hi & Ha & Hs & _).
  simpl. repeat split; try done. unfold __next__. by rewrite Hi.
Qed.
End IterationMore.

Lemma started_loop_visits_range_witness :
  @for_each TapeRandom 2
    (set_cursor (Some (Z.of_nat 0 - 1)%Z) (Some (-1)%Z) (Some (Z.of_nat 1))
       (example_task (3 # 10)), [7; 8]) =
  (Ok (Some (take (1 - 0)
               (drop 0
                  (trials
                     (set_cursor (Some (Z.of_nat 0 - 1)%Z) (Some (-1)%Z)
                        (Some (Z.of_nat 1)) (example_task (3 # 10))))))),
   (set_cursor None None None
      (set_cursor (Some (Z.of_nat 0 - 1)%Z) (Some (-1)%Z) (Some (Z.of_nat 1))
         (example_task (3 # 10))), [7; 8])).
Proof.
  apply (@started_loop_visits_range TapeRandom
           (set_cursor (Some (Z.of_nat 0 - 1)%Z) (Some (-1)%Z)
              (Some (Z.of_nat 1)) (example_task (3 # 10)))
           [7; 8] (-1)%Z 0 1 2).
  - reflexivity.
  - reflexivity.
  - reflexivity.
  - lia.
  - simpl. lia.
  - lia.
Defined.

Lemma finished_loop_not_started_witness :
  index (set_cursor None None None (example_task (3 # 10))) = None ∧
  index_start (set_cursor None None None (example_task (3 # 10))) = None ∧
  index_stop (set_cursor None None None (example_task (3 # 10))) = None ∧
  __next__ (set_cursor None None None (example_task (3 # 10))) =
    (Raise TypeError, set_cursor None None None (example_task (3 # 10))).
Proof.
  apply (@finished_loop_not_started TapeRandom
           (set_cursor (Some (-1)%Z) (Some (-1)%Z) (Some 1%Z)
              (example_task (3 # 10)))
           [7; 8] 2 [example_trial (3 # 10)]
           (set_cursor None None None (example_task (3 # 10)), [7; 8])).
  reflexivity.
Defined.

(** ** The ranges of the blocks *)

Lemma block_ranges_length s bs : length (block_ranges s bs) = length bs.
Proof.
  revert s. induction bs as [|b bs IH]; intros s; simpl; [done|].
  by rewrite IH.
Qed.

Lemma block_ranges_lookup bs :
  ∀ s k b,
    bs !! k = Some b →
    block_ranges s bs !! k =
    Some (s + total_trials (take k bs),
          s + total_trials (take k bs) + n_trial b).
Proof.
  induction bs as [|b0 bs IH]; intros s k b Hk; [done|].
  destruct k as [|k]; simpl in *.
  - injection Hk as ->. unfold total_trials; simpl.
    by rewrite Nat.add_0_r.
  - rewrite (IH _ _ _ Hk), total_trials_cons. do 2 f_equal; lia.
Qed.

Lemma total_trials_take bs :
  ∀ k b, bs !! k = Some b →
         total_trials (take k bs) + n_trial b ≤ total_trials bs.
Proof.
  induction bs as [|b0 bs IH]; intros k b Hk; [done|].
  destruct k as [|k]; simpl in *.
  - injection Hk as ->. rewrite total_trials_cons.
    unfold total_trials at 1; simpl. lia.
  - rewrite !total_trials_cons. specialize (IH _ _ Hk). lia.
Qed.

Lemma owners_lookup bs :
  ∀ k b i,
    bs !! k = Some b →
    total_trials (take k bs) ≤ i < total_trials (take k bs) + n_trial b →
    owners bs !! i = Some b.
Proof.
  induction bs as [|b0 bs IH]; intros k b i Hk Hi; [done|].
  unfold owners. rewrite bind_cons. fold (owners bs).
  destruct k as [|k]; simpl in *.
  - injection Hk as ->. unfold total_trials in Hi; simpl in Hi.
    rewrite lookup_app_l by (rewrite length_replicate; lia).
    apply lookup_replicate_2. lia.
  - rewrite total_trials_cons in Hi.
    rewrite lookup_app_r, length_replicate by (rewrite length_replicate; lia).
    apply (IH k); [done|]. lia.
Qed.

Section BlockScope.
Context {R : NumpyRandom}.

(** X2: on a task just built, [block(k)] followed by a loop visits
    exactly the [n_trial] trials of the [k]-th block of the session, in
    order: the slice of the trial sequence that starts after the trials
    of the blocks before it.  Each of them is laid out for that block
    (its [n_cue], its reward probabilities); nothing is drawn and the
    cursor is reset at the end. *)
Theorem block_scoped_loop (p : Parameters) (g g1 : rng) (t1 : Task)
    (bs : list Block) (k : nat) (b : Block) (fuel : nat) :
  __init__ p g = (Ok t1, g1) →
  lookup_blocks (named p) (session p) = Ok bs →
  bs !! k = Some b → n_trial b < fuel →
  ∃ t2 visited,
    block (Z.of_nat k) t1 = (Ok tt, t2) ∧
    index_start t2 = Some (Z.of_nat (total_trials (take k bs)) - 1)%Z ∧
    index_stop t2 = Some (Z.of_nat (total_trials (take k bs) + n_trial b)) ∧
    for_each fuel (t2, g1) =
      (Ok (Some visited), (set_cursor None None None t1, g1)) ∧
    visited = take (n_trial b) (drop (total_trials (take k bs)) (trials t1)) ∧
    length visited = n_trial b ∧
    ∀ tr, tr ∈ visited → ∃ r, built b r tr.
Proof.
  intros Hinit Hbs Hk Hfuel. unfold __init__ in Hinit.
  destruct (setup (blank p, g)) as [[[]|e] [t0 g0]] eqn:Hsetup; [|done].
  injection Hinit as -> ->.
  apply setup_Ok_inv in Hsetup
    as (bs' & Hbs' & _ & Hblocks & _ & _ & _ & _ & Hlen & Hbuilt).
  simpl in *. rewrite Hbs in Hbs'. injection Hbs' as <-.
  set (start := total_trials (take k bs)).
  pose proof (total_trials_take bs k b Hk) as Hstop. fold start in Hstop.
  assert (Hklt : k < length bs) by (by eapply lookup_lt_Some).
  exists (set_cursor (Some (Z.of_nat start - 1)%Z) (Some (Z.of_nat start - 1)%Z)
            (Some (Z.of_nat (start + n_trial b))) t1),
         (take (n_trial b) (drop start (trials t1))).
  split.
  { unfold block. rewrite Hblocks, block_ranges_length.
    rewrite py_index_nonneg by done.
    rewrite (block_ranges_lookup bs 0 k b Hk). reflexivity. }
  cbn [index_start index_stop set_cursor].
  split; [done|]. split; [done|]. split.
  { rewrite (started_loop_visits_range _ g1
               (Z.of_nat start - 1)%Z start (start + n_trial b) fuel);
      [|done|done|done|lia|simpl; lia|lia].
    replace (start + n_trial b - start) with (n_trial b) by lia.
    reflexivity. }
  split; [done|]. split.
  { rewrite length_take, length_drop. lia. }
  intros tr Htr. apply list_elem_of_lookup in Htr as [j Hj].
  apply lookup_take_Some in Hj as [Hj Hjn].
  rewrite lookup_drop in Hj.
  destruct (Hbuilt (start + j) b) as (tr' & r & Htr' & _ & Hb).
  { apply (owners_lookup bs k); [done|]. fold start. lia. }
  rewrite Hj in Htr'. injection Htr' as <-. by exists r.
Qed.
End BlockScope.

Lemma block_scoped_loop_witness :
  ∃ t2 visited,
    block (Z.of_nat 1) (@built_task TapeRandom demo demo_tape) = (Ok tt, t2) ∧
    index_start t2
      = Some (Z.of_nat (total_trials (take 1 [familiar; novel])) - 1)%Z ∧
    index_stop t2
      = Some (Z.of_nat (total_trials (take 1 [familiar; novel])
                        + n_trial novel)) ∧
    @for_each TapeRandom 2 (t2, [2; 6; 5; 3; 5]) =
      (Ok (Some visited),
       (set_cursor None None None (@built_task TapeRandom demo demo_tape),
        [2; 6; 5; 3; 5])) ∧
    visited = take (n_trial novel)
                (drop (total_trials (take 1 [familiar; novel]))
                   (trials (@built_task TapeRandom demo demo_tape))) ∧
    length visited = n_trial novel ∧
    ∀ tr, tr ∈ visited → ∃ r, built novel r tr.
Proof.
  apply (@block_scoped_loop TapeRandom demo demo_tape [2; 6; 5; 3; 5]
           (@built_task TapeRandom demo demo_tape) [familiar; novel] 1 novel 2).
  - vm_compute. reflexivity.
  - reflexivity.
  - reflexivity.
  - simpl. lia.
Defined.

(** * Further properties of [process] *)

(** X4: on a trial laid out by [setup], the evaluation of a choice
    returns exactly when the choice is negative or is a position in
    play; a choice beyond the four positions raises [IndexError]. *)
Theorem process_outcome_returns_iff (cs ps : list nat) (trial : Trial)
    (choice : Z) :
  laid_out cs ps trial → length (rwd trial) = N_SLOTS →
  (is_Ok (process_outcome trial choice) ↔
   (choice < 0)%Z ∨
   ((0 ≤ choice)%Z ∧ mot trial !! Z.to_nat choice = Some 1%Q)) ∧
  ((0 ≤ choice)%Z → N_SLOTS ≤ Z.to_nat choice →
   process_outcome trial choice = Raise IndexError).
Proof.
  intros Hlo Hrwd.
  assert (Hmot : mot trial = mark ps) by (by destruct Hlo as (_&_&_&_&_&_&?&_)).
  assert (Hoob : (0 ≤ choice)%Z → N_SLOTS ≤ Z.to_nat choice →
                 process_outcome trial choice = Raise IndexError).
  { intros Hch Hge. unfold process_outcome. rewrite decide_False by lia.
    rewrite Hmot, lookup_ge_None_2; [done|]. by rewrite mark_length. }
  split; [|done]. split.
  - intros [o Ho]. destruct (decide (choice < 0)%Z) as [?|Hch]; [by left|].
    right. split; [lia|].
    destruct (decide (Z.to_nat choice < N_SLOTS)) as [Hlt|Hge].
    + destruct (decide (Z.to_nat choice ∈ ps)) as [Hin|Hnin].
      * rewrite Hmot. by apply mark_lookup_one.
      * rewrite (process_outcome_unmarked cs ps) in Ho; try done. lia.
    + rewrite Hoob in Ho; [done|lia|lia].
  - intros [Hneg|[Hch Hm]].
    + unfold process_outcome. rewrite decide_True by done. by eexists.
    + assert (Hin : Z.to_nat choice ∈ ps).
      { rewrite Hmot in Hm. by apply mark_lookup_one in Hm as [_ ?]. }
      destruct (process_outcome_marked cs ps trial choice Hlo Hrwd Hch Hin)
        as (c & rc & mx & _ & _ & _ & _ & Ho).
      by eexists.
Qed.

Lemma process_outcome_returns_iff_witness :
  is_Ok (process_outcome (example_trial (3 # 10)) 2) ∧
  process_outcome (example_trial (3 # 10)) 4 = Raise IndexError.
Proof.
  destruct (process_outcome_returns_iff [0; 2] [1; 2]
              (example_trial (3 # 10)) 2) as [Hiff _];
    [apply example_trial_laid_out|reflexivity|].
  destruct (process_outcome_returns_iff [0; 2] [1; 2]
              (example_trial (3 # 10)) 4) as [_ Hoob];
    [apply example_trial_laid_out|reflexivity|].
  split.
  - apply Hiff. right. split; [lia|reflexivity].
  - apply Hoob; [lia|]. unfold N_SLOTS. simpl. lia.
Defined.

Lemma record_set_all f rs (t : Task) :
  index t = None →
  record_set f (set_records rs t) = (Ok tt, set_records (f <$> rs) t).
Proof. intros Hi. unfold record_set. simpl. by rewrite Hi. Qed.

Lemma set_records_id (t : Task) : set_records (records t) t = t.
Proof. by destruct t. Qed.

(** X5: when the task is not started (the cursor is [None]), a call of
    [process] that evaluates the choice writes the choice, the cue, best,
    valid, the reaction time and the reward into every record slot; in
    debug mode it then raises [TypeError]. *)
Theorem process_not_started_writes_all (trial : Trial) (choice : Z) (RT : Q)
    (debug : bool) (t : Task) (o : Outcome) :
  index t = None → process_outcome trial choice = Ok o →
  process trial choice RT None debug t =
  (if debug then Raise TypeError else Ok (o_reward o, o_cue o, o_best o),
   set_records (scalars choice RT o <$> records t) t).
Proof.
  intros Hi Ho. unfold process, bind at 1, lift_result. rewrite Ho.
  rewrite <- (set_records_id t) at 1.
  do 6 (unfold bind at 1; rewrite (record_set_all _ _ _ Hi)).
  rewrite <- !list_fmap_compose. fold (scalars choice RT o).
  unfold bind, ret, get, raise. destruct debug; simpl; [|done].
  by rewrite Hi.
Qed.

Lemma process_not_started_writes_all_witness :
  process (example_trial (3 # 10)) 2 0 None false
    (set_records [zero_record; zero_record]
       (set_cursor None None None (example_task (3 # 10)))) =
  (Ok (PyBool false, 2%Z, false),
   set_records
     (scalars 2 0 {| o_reward := PyBool false; o_cue := 2; o_best := false;
                     o_valid := true |} <$> [zero_record; zero_record])
     (set_records [zero_record; zero_record]
        (set_cursor None None None (example_task (3 # 10))))).
Proof.
  apply (process_not_started_writes_all (example_trial (3 # 10)) 2 0 false
           (set_records [zero_record; zero_record]
              (set_cursor None None None (example_task (3 # 10))))
           {| o_reward := PyBool false; o_cue := 2; o_best := false;
              o_valid := true |}); reflexivity.
Defined.

Lemma written_id k (t : Task) : written id k t = t.
Proof.
  unfold written.
  assert (alter id k (records t) = records t) as ->; [|apply set_records_id].
  apply list_eq. intros j. rewrite list_lookup_alter.
  destruct (decide (k = j)) as [->|]; [|done]. by destruct (records t !! j).
Qed.

Lemma record_set_vec_written v f F (t : Task) i k :
  index t = Some i → py_index (length (records t)) i = Some k →
  record_set_vec v f (written F k t) =
  match broadcast4 v with
  | Ok v4 => (Ok tt, written (f v4 ∘ F) k t)
  | Raise e => (Raise e, written F k t)
  end.
Proof.
  intros Hi Hk. unfold record_set_vec, bind, lift_result.
  destruct (broadcast4 v) as [v4|e]; [|done].
  by apply (record_set_again _ _ _ i).
Qed.

(** A call of [process] with the cursor on the slot [k], after some
    writes [F0] to that slot: one more write [F], the same whatever was
    there, and writing it twice is writing it once. *)
Lemma process_on_written trial choice RT model debug i o :
  process_outcome trial choice = Ok o →
  ∃ r F, (∀ x, F (F x) = F x) ∧
    ∀ (t : Task) k F0,
      index t = Some i → py_index (length (records t)) i = Some k →
      process trial choice RT model debug (written F0 k t)
      = (r, written (F ∘ F0) k t).
Proof.
  intros Ho.
  assert (Hdebug : ∀ (t : Task) k F,
    index t = Some i →
    bind (if debug
          then bind get (λ t0 : Task,
                 match index t0 with
                 | Some _ => ret ()
                 | None => raise TypeError
                 end)
          else ret ())
      (λ _, ret (o_reward o, o_cue o, o_best o)) (written F k t) =
    (Ok (o_reward o, o_cue o, o_best o), written F k t)).
  { intros t k F Hi. unfold bind, get. destruct debug; simpl; [|done].
    by rewrite Hi. }
  destruct model as [m|].
  - destruct (broadcast4 (m_value m)) as [v1|e1] eqn:H1;
      [destruct (broadcast4 (m_ctx_ass m)) as [v2|e2] eqn:H2;
        [destruct (broadcast4 (m_ctx_str m)) as [v3|e3] eqn:H3|]|].
    + exists (Ok (o_reward o, o_cue o, o_best o)),
        (with_ctx_str v3 ∘ (with_ctx_ass v2 ∘
           (with_value v1 ∘ scalars choice RT o))).
      split; [intros x; reflexivity|]. intros t k F0 Hi Hk.
      unfold process, bind at 1, lift_result. rewrite Ho.
      do 6 (unfold bind at 1; rewrite (record_set_again _ _ _ i) by done).
      unfold bind at 1. unfold bind at 1.
      rewrite (record_set_vec_written _ _ _ _ i k Hi Hk), H1.
      unfold bind at 1.
      rewrite (record_set_vec_written _ _ _ _ i k Hi Hk), H2.
      rewrite (record_set_vec_written _ _ _ _ i k Hi Hk), H3.
      rewrite Hdebug by exact Hi. unfold compose, scalars. reflexivity.
    + exists (Raise e3),
        (with_ctx_ass v2 ∘ (with_value v1 ∘ scalars choice RT o)).
      split; [intros x; reflexivity|]. intros t k F0 Hi Hk.
      unfold process, bind at 1, lift_result. rewrite Ho.
      do 6 (unfold bind at 1; rewrite (record_set_again _ _ _ i) by done).
      unfold bind at 1. unfold bind at 1.
      rewrite (record_set_vec_written _ _ _ _ i k Hi Hk), H1.
      unfold bind at 1.
      rewrite (record_set_vec_written _ _ _ _ i k Hi Hk), H2.
      rewrite (record_set_vec_written _ _ _ _ i k Hi Hk), H3.
      unfold compose, scalars. reflexivity.
    + exists (Raise e2), (with_value v1 ∘ scalars choice RT o).
      split; [intros x; reflexivity|]. intros t k F0 Hi Hk.
      unfold process, bind at 1, lift_result. rewrite Ho.
      do 6 (unfold bind at 1; rewrite (record_set_again _ _ _ i) by done).
      unfold bind at 1. unfold bind at 1.
      rewrite (record_set_vec_written _ _ _ _ i k Hi Hk), H1.
      unfold bind at 1.
      rewrite (record_set_vec_written _ _ _ _ i k Hi Hk), H2.
      unfold compose, scalars. reflexivity.
    + exists (Raise e1), (scalars choice RT o).
      split; [intros x; reflexivity|]. intros t k F0 Hi Hk.
      unfold process, bind at 1, lift_result. rewrite Ho.
      do 6 (unfold bind at 1; rewrite (record_set_again _ _ _ i) by done).
      unfold bind at 1. unfold bind at 1.
      rewrite (record_set_vec_written _ _ _ _ i k Hi Hk), H1.
      unfold compose, scalars. reflexivity.
  - exists (Ok (o_reward o, o_cue o, o_best o)), (scalars choice RT o).
    split; [intros x; reflexivity|]. intros t k F0 Hi Hk.
    unfold process, bind at 1, lift_result. rewrite Ho.
    do 6 (unfold bind at 1; rewrite (record_set_again _ _ _ i) by done).
    unfold bind at 1, ret at 1. rewrite Hdebug by exact Hi.
    unfold compose, scalars. reflexivity.
Qed.

(** X6: with the cursor on a record slot, calling [process] again with
    the same arguments returns (or raises) the same and leaves the task
    exactly as the first call left it. *)
Theorem process_twice (trial : Trial) (choice : Z) (RT : Q)
    (model : option Model) (debug : bool) (t t1 : Task) (i : Z) (k : nat)
    (r : Result (PyNum * Z * bool)) :
  index t = Some i → py_index (length (records t)) i = Some k →
  process trial choice RT model debug t = (r, t1) →
  process trial choice RT model debug t1 = (r, t1).
Proof.
  intros Hi Hk Hp.
  destruct (process_outcome trial choice) as [o|e] eqn:Ho.
  - destruct (process_on_written trial choice RT model debug i o Ho)
      as (r0 & F & Hidem & Hrun).
    pose proof (Hrun t k id Hi Hk) as H1. rewrite written_id, Hp in H1.
    injection H1 as -> ->. rewrite (Hrun t k (F ∘ id) Hi Hk).
    f_equal. unfold written. f_equal.
    apply list_alter_ext; [|done]. intros x _. apply Hidem.
  - rewrite (process_raises _ _ _ _ _ _ _ Ho) in Hp. injection Hp as <- <-.
    by apply process_raises.
Qed.

Lemma process_twice_witness :
  process (example_trial (3 # 10)) 1 (1 # 2) None true
    (process (example_trial (3 # 10)) 1 (1 # 2) None true
       (example_task (3 # 10))).2
  = process (example_trial (3 # 10)) 1 (1 # 2) None true
      (example_task (3 # 10)).
Proof.
  destruct (process (example_trial (3 # 10)) 1 (1 # 2) None true
              (example_task (3 # 10))) as [r t1] eqn:Hp.
  exact (process_twice (example_trial (3 # 10)) 1 (1 # 2) None true
           (example_task (3 # 10)) t1 0%Z 0 r eq_refl eq_refl Hp).
Defined.

(** * Further properties of [setup] *)

Lemma lookup_blocks_Forall2 named names bs :
  lookup_blocks named names = Ok bs →
  Forall2 (λ name b, named !! name = Some b) names bs.
Proof.
  intros H. apply lookup_blocks_Ok in H.
  eapply Forall2_impl; [exact H|]. by intros name b [_ ?].
Qed.

Section SetupMore.
Context {R : NumpyRandom}.

(** X7: in every trial a successful [setup] produces, [rwd] is the
    reward vector of the block the trial belongs to (broadcast to the
    four slots) and [rnd] is the draw of the same index in the one batch
    of uniform draws made first, a number in [0, 1). *)
Theorem setup_trial_data (t : Task) (g : rng) (w' : World) :
  setup (t, g) = (Ok tt, w') →
  ∃ bs,
    lookup_blocks (named (parameters t)) (session (parameters t)) = Ok bs ∧
    ∀ i tr b,
      trials w'.1 !! i = Some tr → owners bs !! i = Some b →
      broadcast4 (b_rwd b) = Ok (rwd tr) ∧
      (length (b_rwd b) = N_SLOTS → rwd tr = b_rwd b) ∧
      (uniform (length (owners bs)) g).1 !! i = Some (rnd tr) ∧
      (0 <= rnd tr)%Q ∧ (rnd tr < 1)%Q.
Proof.
  intros Hsetup.
  apply setup_Ok_inv in Hsetup
    as (bs & Hbs & _ & _ & _ & _ & _ & _ & Hlen & Hbuilt).
  exists bs. split; [done|]. intros i tr b Htr Hb.
  destruct (Hbuilt i b Hb) as (tr' & r & Htr' & Hr & cs & ps & _ & _ & Hrwd & Hrnd).
  rewrite Htr in Htr'. injection Htr' as <-. subst r.
  rewrite owners_length.
  pose proof (uniform_range (total_trials bs) g) as Hrange.
  rewrite Forall_forall in Hrange.
  destruct (Hrange (rnd tr)) as [H0 H1]; [by eapply list_elem_of_lookup_2|].
  repeat split; try done.
  intros Hfull. rewrite (broadcast4_full _ Hfull) in Hrwd. by injection Hrwd.
Qed.

(** X8: after a successful [setup], [self.blocks] holds one range for
    each name of the session, in session order, and the ranges tile the
    trial indices: the first starts at 0, each is as long as the
    [n_trial] of its block and starts where the one before stops, and
    the last stops at the length of the trial sequence. *)
Theorem setup_ranges_tile (t : Task) (g : rng) (w' : World) :
  setup (t, g) = (Ok tt, w') →
  ∃ bs,
    lookup_blocks (named (parameters t)) (session (parameters t)) = Ok bs ∧
    length (blocks w'.1) = length (session (parameters t)) ∧
    (∀ k b, bs !! k = Some b →
       ∃ start, blocks w'.1 !! k = Some (start, start + n_trial b) ∧
                start = total_trials (take k bs) ∧
                start + n_trial b ≤ __len__ w'.1 ∧
                (k = 0 → start = 0) ∧
                (S k = length bs → start + n_trial b = __len__ w'.1) ∧
                (∀ b', bs !! S k = Some b' →
                   ∃ stop', blocks w'.1 !! S k
                            = Some (start + n_trial b, stop'))).
Proof.
  intros Hsetup.
  apply setup_Ok_inv in Hsetup
    as (bs & Hbs & _ & Hblocks & _ & _ & _ & _ & Hlen & _).
  exists bs. split; [done|]. unfold __len__. rewrite Hblocks, Hlen. split.
  { rewrite block_ranges_length.
    apply lookup_blocks_Forall2, Forall2_length in Hbs. done. }
  intros k b Hk. exists (total_trials (take k bs)).
  rewrite (block_ranges_lookup bs 0 k b Hk). simpl.
  split; [done|]. split; [done|].
  split; [by apply total_trials_take|]. split; [by intros ->|]. split.
  - intros Hlast.
    pose proof (take_drop k bs) as Hsplit.
    rewrite (drop_S _ _ _ Hk), drop_ge in Hsplit by lia.
    transitivity (total_trials (take k bs ++ [b])); [|by rewrite Hsplit].
    rewrite total_trials_app, total_trials_cons. unfold total_trials at 3.
    simpl. lia.
  - intros b' Hk'. eexists.
    rewrite (block_ranges_lookup bs 0 (S k) b' Hk'). simpl.
    rewrite (take_S_r _ _ _ Hk), total_trials_app, total_trials_cons.
    unfold total_trials at 2. simpl. do 2 f_equal. lia.
Qed.

(** X9: a loop over a task that is not started (a new task, or one
    whose last loop ran to its end) starts with a new [setup]: when
    [__iter__] returns, every record is zero again, whatever was recorded
    before, and the cursor is before the first trial with the whole
    sequence as its range. *)
Theorem iter_resets_records (t : Task) (g : rng) (w' : World) :
  index_start t = None → __iter__ (t, g) = (Ok tt, w') →
  records w'.1 = replicate (__len__ w'.1) zero_record ∧
  length (records w'.1) = __len__ w'.1 ∧
  index w'.1 = Some (-1)%Z ∧ index_start w'.1 = Some (-1)%Z ∧
  index_stop w'.1 = Some (Z.of_nat (__len__ w'.1)).
Proof.
  intros Hstart. unfold __iter__.
  erewrite bind_Ok; [|reflexivity]. simpl. rewrite Hstart. intros H.
  apply bind_Ok_inv in H as ([] & [t1 g1] & Hsetup & Hmod).
  injection Hmod as <-. simpl.
  apply setup_Ok_inv in Hsetup
    as (bs & _ & _ & _ & Hrec & _ & _ & _ & Hlen & _).
  simpl in *. unfold __len__. cbn [trials set_cursor].
  rewrite Hrec, Hlen, length_replicate. done.
Qed.
End SetupMore.

Lemma setup_trial_data_witness :
  ∃ bs,
    lookup_blocks (named demo) (session demo) = Ok bs ∧
    ∀ i tr b,
      trials (@setup TapeRandom (blank demo, demo_tape)).2.1 !! i = Some tr →
      owners bs !! i = Some b →
      broadcast4 (b_rwd b) = Ok (rwd tr) ∧
      (length (b_rwd b) = N_SLOTS → rwd tr = b_rwd b) ∧
      (@uniform TapeRandom (length (owners bs)) demo_tape).1 !! i
        = Some (rnd tr) ∧
      (0 <= rnd tr)%Q ∧ (rnd tr < 1)%Q.
Proof.
  apply (@setup_trial_data TapeRandom (blank demo) demo_tape).
  vm_compute. reflexivity.
Defined.

Lemma setup_ranges_tile_witness :
  ∃ bs,
    lookup_blocks (named demo) (session demo) = Ok bs ∧
    length (blocks (@setup TapeRandom (blank demo, demo_tape)).2.1)
      = length (session demo) ∧
    (∀ k b, bs !! k = Some b →
       ∃ start,
         blocks (@setup TapeRandom (blank demo, demo_tape)).2.1 !! k
           = Some (start, start + n_trial b) ∧
         start = total_trials (take k bs) ∧
         start + n_trial b
           ≤ __len__ (@setup TapeRandom (blank demo, demo_tape)).2.1 ∧
         (k = 0 → start = 0) ∧
         (S k = length bs →
          start + n_trial b
            = __len__ (@setup TapeRandom (blank demo, demo_tape)).2.1) ∧
         (∀ b', bs !! S k = Some b' →
            ∃ stop',
              blocks (@setup TapeRandom (blank demo, demo_tape)).2.1 !! S k
                = Some (start + n_trial b, stop'))).
Proof.
  apply (@setup_ranges_tile TapeRandom (blank demo) demo_tape).
  vm_compute. reflexivity.
Defined.

Lemma iter_resets_records_witness :
  records (@__iter__ TapeRandom (blank demo, demo_tape)).2.1
    = replicate (__len__ (@__iter__ TapeRandom (blank demo, demo_tape)).2.1)
        zero_record ∧
  length (records (@__iter__ TapeRandom (blank demo, demo_tape)).2.1)
    = __len__ (@__iter__ TapeRandom (blank demo, demo_tape)).2.1 ∧
  index (@__iter__ TapeRandom (blank demo, demo_tape)).2.1 = Some (-1)%Z ∧
  index_start (@__iter__ TapeRandom (blank demo, demo_tape)).2.1
    = Some (-1)%Z ∧
  index_stop (@__iter__ TapeRandom (blank demo, demo_tape)).2.1
    = Some (Z.of_nat
              (__len__ (@__iter__ TapeRandom (blank demo, demo_tape)).2.1)).
Proof.
  apply (@iter_resets_records TapeRandom (blank demo) demo_tape).
  - reflexivity.
  - vm_compute. reflexivity.
Defined.

(** * The script of the module *)

Lemma argmax_from_lookup l :
  ∀ pre best m i,
    length pre = i → pre !! best = Some m →
    (pre ++ l) !! argmax_from best m i l = Some (py_max_from m l).
Proof.
  induction l as [|x l IH]; intros pre best m i Hlen Hbest; simpl.
  - by rewrite app_nil_r.
  - rewrite cons_middle, app_assoc.
    destruct (Qlt_bool m x).
    + apply IH; [rewrite length_app; simpl; lia|].
      rewrite lookup_app_r by lia. by rewrite Hlen, Nat.sub_diag.
    + apply IH; [rewrite length_app; simpl; lia|].
      by apply lookup_app_l_Some.
Qed.

Lemma argmax_spec l k :
  argmax l = Ok k → ∃ v, l !! k = Some v ∧ py_max l = Ok v.
Proof.
  destruct l as [|x l]; [done|]. simpl. intros [= <-].
  exists (py_max_from x l). split; [|done].
  by apply (argmax_from_lookup l [x] 0 x 1).
Qed.

Lemma argmax_nonempty l : l ≠ [] → is_Ok (argmax l).
Proof. destruct l; [done|]. intros _. by eexists. Qed.

Lemma mark_pairs_row s c :
  c < N_SLOTS →
  mark_pairs s !! c =
  Some ((λ p, if bool_decide ((c, p) ∈ s) then 1%Q else 0%Q)
          <$> seq 0 N_SLOTS).
Proof.
  intros Hc. unfold mark_pairs.
  rewrite list_lookup_fmap, lookup_seq_lt by done. done.
Qed.

(** X10: on a trial laid out by [setup] in which some present cue has a
    positive reward probability, the choice of the script (the position
    of the first cue of highest [cog * rwd]) is a position in play, and
    [process] evaluates it as valid and best. *)
Theorem best_choice_is_best (cs ps : list nat) (trial : Trial) :
  laid_out cs ps trial → length (rwd trial) = N_SLOTS →
  (∃ c rc, cog trial !! c = Some 1%Q ∧ rwd trial !! c = Some rc ∧
           (0 < rc)%Q) →
  ∃ choice o,
    best_choice trial = Ok choice ∧ (0 ≤ choice)%Z ∧
    mot trial !! Z.to_nat choice = Some 1%Q ∧
    process_outcome trial choice = Ok o ∧
    o_valid o = true ∧ o_best o = true.
Proof.
  intros Hlo Hrwd (c0 & rc0 & Hc0 & Hrc0 & Hpos).
  pose proof Hlo as (Hc & Hp & Hlen & Hcr & Hpr & Hcog & Hmot & Hass).
  set (present := zip_with Qmult (cog trial) (rwd trial)).
  assert (Hplen : length present = N_SLOTS).
  { unfold present. by rewrite length_zip_with, Hcog, mark_length, Hrwd. }
  destruct (argmax_nonempty present) as [bc Hbc].
  { intros Hnil. by rewrite Hnil in Hplen. }
  destruct (argmax_spec _ _ Hbc) as (mx & Hmxl & Hmx).
  pose proof (py_max_spec _ _ Hmx) as [_ Hub]. rewrite Forall_forall in Hub.
  assert (Hmxpos : (0 < mx)%Q).
  { eapply Qlt_le_trans; [exact Hpos|].
    rewrite <- (Qmult_1_l rc0). apply Hub, list_elem_of_lookup. exists c0.
    apply lookup_zip_with_Some. eauto. }
  apply lookup_zip_with_Some in Hmxl as (cb & rb & Hmxeq & Hcb & Hrb).
  assert (Hbc4 : bc < N_SLOTS).
  { apply lookup_lt_Some in Hrb. by rewrite Hrwd in Hrb. }
  assert (Hbcin : bc ∈ cs).
  { rewrite Hcog, mark_lookup in Hcb by done. injection Hcb as <-.
    case_bool_decide; [done|]. exfalso.
    rewrite Hmxeq, Qmult_0_l in Hmxpos. by apply Qlt_irrefl in Hmxpos. }
  destruct (zip_partner_r cs ps bc Hlen Hbcin) as [p0 Hp0].
  assert (Hp04 : p0 < N_SLOTS).
  { rewrite Forall_forall in Hpr. by eapply Hpr, elem_of_zip_r. }
  set (row := (λ p, if bool_decide ((bc, p) ∈ zip cs ps) then 1%Q else 0%Q)
                <$> seq 0 N_SLOTS).
  assert (Hrow : ass trial !! bc = Some row).
  { rewrite Hass. by apply mark_pairs_row. }
  destruct (argmax_nonempty row) as [k Hk]; [done|].
  destruct (argmax_spec _ _ Hk) as (v & Hvl & Hv).
  pose proof (py_max_spec _ _ Hv) as [_ Hvub]. rewrite Forall_forall in Hvub.
  assert (Hk4 : k < N_SLOTS).
  { apply lookup_lt_Some in Hvl. unfold row in Hvl.
    by rewrite length_fmap, length_seq in Hvl. }
  assert (Hkin : (bc, k) ∈ zip cs ps).
  { unfold row in Hvl. rewrite list_lookup_fmap, lookup_seq_lt in Hvl by done.
    simpl in Hvl. injection Hvl as Hvl.
    case_bool_decide; [done|]. exfalso.
    assert (H1v : (1 <= v)%Q).
    { apply Hvub, list_elem_of_lookup. exists p0. unfold row.
      rewrite list_lookup_fmap, lookup_seq_lt by done. simpl.
      by rewrite bool_decide_eq_true_2. }
    rewrite <- Hvl in H1v. by apply Qle_not_lt in H1v. }
  assert (Hkps : k ∈ ps) by (by apply elem_of_zip_r in Hkin).
  destruct (process_outcome_marked cs ps trial (Z.of_nat k) Hlo Hrwd)
    as (c & rc & mx' & Hc4 & Hcp & Hrc & Hmx' & Ho);
    [lia|by rewrite Nat2Z.id|].
  rewrite Nat2Z.id in Hcp.
  assert (c = bc) as -> by (by eapply zip_unique_l).
  fold present in Hmx'. rewrite Hmx in Hmx'. injection Hmx' as <-.
  assert (Hone : cb = 1%Q).
  { rewrite Hcog in Hcb.
    rewrite (proj2 (mark_lookup_one cs bc) (conj Hbc4 Hbcin)) in Hcb.
    by injection Hcb. }
  rewrite Hrc in Hrb. injection Hrb as <-. subst cb.
  exists (Z.of_nat k). eexists. split.
  { unfold best_choice. fold present. rewrite Hbc, Hrow, Hk. done. }
  split; [lia|]. rewrite Nat2Z.id. split.
  { rewrite Hmot. by apply mark_lookup_one. }
  split; [exact Ho|]. simpl. split; [done|].
  rewrite Hmxeq. apply Qeq_bool_refl.
Qed.

Lemma best_choice_is_best_witness :
  ∃ choice o,
    best_choice (example_trial (3 # 10)) = Ok choice ∧ (0 ≤ choice)%Z ∧
    mot (example_trial (3 # 10)) !! Z.to_nat choice = Some 1%Q ∧
    process_outcome (example_trial (3 # 10)) choice = Ok o ∧
    o_valid o = true ∧ o_best o = true.
Proof.
  apply (best_choice_is_best [0; 2] [1; 2]).
  - apply example_trial_laid_out.
  - reflexivity.
  - exists 0, (8 # 10)%Q. split; [reflexivity|]. split; [reflexivity|].
    unfold Qlt; simpl; lia.
Defined.

(** Without a present cue of positive reward probability the script can
    pick a position that is not in play: all products are zero, the
    first slot wins, and its row of [ass] is empty. *)
Example best_choice_all_zero :
  let trial := {| mot := [0; 1; 1; 0]%Q; cog := [0; 1; 1; 0]%Q;
                  ass := [[0; 0; 0; 0]; [0; 1; 0; 0]; [0; 0; 1; 0];
                          [0; 0; 0; 0]]%Q;
                  rwd := [0; 0; 0; 0]%Q; rnd := 0%Q |} in
  best_choice trial = Ok 0%Z ∧
  process_outcome trial 0 = Raise AssertionError.
Proof. split; reflexivity. Qed.

Lemma next_at (t : Task) (i n : nat) :
  index t = Some (Z.of_nat i - 1)%Z → index_stop t = Some (Z.of_nat n) →
  (∀ tr, i < n → trials t !! i = Some tr →
     __next__ t =
     (Ok tr, set_cursor (Some (Z.of_nat i)) (index_start t)
               (Some (Z.of_nat n)) t)) ∧
  (n ≤ i → __next__ t = (Raise StopIteration, set_cursor None None None t)).
Proof.
  intros Hi Hs. unfold __next__. rewrite Hi.
  cbn [index_stop set_cursor]. rewrite Hs.
  replace (Z.of_nat i - 1 + 1)%Z with (Z.of_nat i) by lia. split.
  - intros tr Hlt Htr. rewrite decide_True by lia.
    unfold __getitem__. cbn [trials set_cursor].
    rewrite py_index_nonneg by (by eapply lookup_lt_Some). by rewrite Htr.
  - intros Hge. by rewrite decide_False by lia.
Qed.

(** X11: a loop that processes, at every trial, the choice made for it:
    from a cursor before the trial [i] with the bound [n], when every
    choice made for the trials ahead can be evaluated, the loop ends
    normally with the cursor reset; the record slots [i] to [n - 1] hold,
    each, the choice and the evaluation for the trial of the same index;
    the other slots and the trials are as before. *)
Theorem play_records (choose : Trial → Result Z) (RT : Q) (debug : bool) :
  ∀ fuel (t : Task) (i n : nat),
    index t = Some (Z.of_nat i - 1)%Z → index_stop t = Some (Z.of_nat n) →
    n ≤ length (trials t) → n ≤ length (records t) →
    i ≤ n → n - i < fuel →
    (∀ j tr, i ≤ j < n → trials t !! j = Some tr →
       ∃ c o, choose tr = Ok c ∧ process_outcome tr c = Ok o) →
    ∃ t',
      play choose RT debug fuel t = (Ok (Some tt), t') ∧
      trials t' = trials t ∧
      index t' = None ∧ index_start t' = None ∧ index_stop t' = None ∧
      length (records t') = length (records t) ∧
      (∀ j, ¬ (i ≤ j < n) → records t' !! j = records t !! j) ∧
      (∀ j tr c o rec,
         i ≤ j < n → trials t !! j = Some tr →
         choose tr = Ok c → process_outcome tr c = Ok o →
         records t !! j = Some rec →
         records t' !! j = Some (scalars c RT o rec)).
Proof.
  induction fuel as [|fuel IH]; intros t i n Hi Hs Hnt Hnr Hin Hfuel Hall;
    [lia|].
  destruct (next_at t i n Hi Hs) as [Hnext Hstop].
  cbn [play].
  destruct (decide (i < n)) as [Hlt|Hge].
  - destruct (lookup_lt_is_Some_2 (trials t) i) as [tr Htr]; [lia|].
    rewrite (Hnext tr Hlt Htr).
    destruct (Hall i tr) as (c & o & Hc & Ho); [lia|done|].
    set (t1 := set_cursor (Some (Z.of_nat i)) (index_start t)
                 (Some (Z.of_nat n)) t).
    assert (Hturn : turn choose RT debug tr t1 =
      (Ok (o_reward o, o_cue o, o_best o), written (scalars c RT o) i t1)).
    { unfold turn, bind at 1, lift_result. rewrite Hc.
      apply (process_no_model _ _ _ _ _ (Z.of_nat i)); [done| |done].
      apply py_index_nonneg. simpl. lia. }
    rewrite Hturn.
    destruct (IH (written (scalars c RT o) i t1) (S i) n) as
      (t' & Hplay & Ht & Hi' & Ha' & Hs' & Hl & Hout & Hin').
    { simpl. f_equal. lia. }
    { done. }
    { done. }
    { simpl. by rewrite length_alter. }
    { lia. }
    { lia. }
    { intros j tr' Hj Htr'. apply (Hall j); [lia|done]. }
    exists t'. split; [done|]. split; [done|].
    do 3 (split; [done|]). split.
    { rewrite Hl. simpl. by rewrite length_alter. }
    split.
    + intros j Hj. rewrite Hout by lia. simpl.
      apply list_lookup_alter_ne. lia.
    + intros j tr' c' o' rec Hj Htr' Hc' Ho' Hrec.
      destruct (decide (j = i)) as [->|Hne].
      * rewrite Hout by lia. simpl.
        rewrite list_lookup_alter_eq, Hrec. simpl.
        rewrite Htr in Htr'. injection Htr' as <-.
        rewrite Hc in Hc'. injection Hc' as <-.
        rewrite Ho in Ho'. by injection Ho' as <-.
      * apply (Hin' j tr'); try done; [lia|]. simpl.
        rewrite list_lookup_alter_ne by done. done.
  - rewrite Hstop by lia. eexists. split; [done|]. simpl.
    repeat split; try done. intros j tr c o rec Hj. lia.
Qed.

Lemma play_records_witness :
  ∃ t',
    play best_choice 0 false 2
      (set_cursor (Some (Z.of_nat 0 - 1)%Z) (Some (-1)%Z) (Some (Z.of_nat 1))
         (example_task (3 # 10))) = (Ok (Some tt), t') ∧
    trials t' = [example_trial (3 # 10)] ∧
    index t' = None ∧ index_start t' = None ∧ index_stop t' = None ∧
    length (records t') = 1 ∧
    (∀ j, ¬ (0 ≤ j < 1) → records t' !! j = [zero_record] !! j) ∧
    (∀ j tr c o rec,
       0 ≤ j < 1 → [example_trial (3 # 10)] !! j = Some tr →
       best_choice tr = Ok c → process_outcome tr c = Ok o →
       [zero_record] !! j = Some rec →
       records t' !! j = Some (scalars c 0 o rec)).
Proof.
  apply (play_records best_choice 0 false 2
           (set_cursor (Some (Z.of_nat 0 - 1)%Z) (Some (-1)%Z)
              (Some (Z.of_nat 1)) (example_task (3 # 10))) 0 1).
  - reflexivity.
  - reflexivity.
  - simpl. lia.
  - simpl. lia.
  - lia.
  - lia.
  - intros j tr Hj Htr. assert (j = 0) as -> by lia.
    injection Htr as <-. eexists _, _. split; reflexivity.
Defined.

Lemma owners_elem bs : ∀ j b, owners bs !! j = Some b → b ∈ bs.
Proof.
  induction bs as [|b0 bs IH]; intros j b; [done|].
  unfold owners. rewrite bind_cons. fold (owners bs). intros Hj.
  apply lookup_app_Some in Hj as [Hj|[_ Hj]].
  - apply lookup_replicate in Hj as [-> _]. left.
  - right. by eapply IH.
Qed.

Section Script.
Context {R : NumpyRandom}.

(** A trial built for a block that presents at least one cue and whose
    reward probabilities are all positive has a present cue of positive
    reward probability. *)
Lemma built_rewarding (b : Block) (r : Q) (tr : Trial) :
  built b r tr → 0 < default 2 (n_cue b) →
  length (b_rwd b) = N_SLOTS → Forall (λ x, (0 < x)%Q) (b_rwd b) →
  ∃ cs ps, laid_out cs ps tr ∧ length (rwd tr) = N_SLOTS ∧
    ∃ c rc, cog tr !! c = Some 1%Q ∧ rwd tr !! c = Some rc ∧ (0 < rc)%Q.
Proof.
  intros (cs & ps & Hlo & Hn & Hrwd & _) Hcues Hlen Hpos.
  rewrite (broadcast4_full _ Hlen) in Hrwd. injection Hrwd as Hrwd.
  exists cs, ps. split; [done|]. split; [by rewrite <- Hrwd|].
  destruct Hlo as (_ & _ & _ & Hcr & _ & Hcog & _ & _).
  destruct cs as [|c cs]; [simpl in Hn; lia|].
  apply Forall_cons in Hcr as [Hc4 _].
  destruct (lookup_lt_is_Some_2 (rwd tr) c) as [rc Hrc];
    [by rewrite <- Hrwd, Hlen|].
  exists c, rc. split; [|split; [done|]].
  - rewrite Hcog. apply mark_lookup_one. split; [done|left].
  - rewrite Forall_forall in Hpos. apply Hpos. rewrite Hrwd.
    by eapply list_elem_of_lookup_2.
Qed.

(** X12: for a valid configuration whose blocks present at least one
    cue and have positive reward probabilities only, the script runs to
    its end without an exception, and every record then holds
    [valid = 1], [best = 1] and the reaction time [0]: the assertion of
    [process] never fails on the choices the script makes. *)
Theorem main_completes (p : Parameters) (g : rng) (bs : list Block)
    (fuel : nat) :
  lookup_blocks (named p) (session p) = Ok bs →
  Forall valid_block bs →
  Forall (λ b, 0 < default 2 (n_cue b) ∧
               Forall (λ x, (0 < x)%Q) (b_rwd b)) bs →
  total_trials bs < fuel →
  ∃ t' g',
    __main__ p fuel g = (Ok (Some tt), Some (t', g')) ∧
    length (records t') = total_trials bs ∧
    index_start t' = None ∧
    ∀ rec, rec ∈ records t' →
           r_valid rec = 1%Q ∧ r_best rec = 1%Q ∧ r_RT rec = 0%Q.
Proof.
  intros Hbs Hvalid Hrew Hfuel.
  assert (Hcfg : valid_config p) by (by exists bs).
  destruct (setup_progress (blank p) g Hcfg) as [[t1 g1] H1].
  pose proof (setup_Ok_inv _ _ _ H1)
    as (bs1 & _ & Hp1 & _ & _ & _ & Hstart1 & _).
  simpl in Hp1, Hstart1.
  destruct (setup_progress t1 g1) as [[t2 g2] H2]; [by rewrite Hp1|].
  pose proof (setup_Ok_inv _ _ _ H2)
    as (bs2 & Hbs2 & _ & _ & Hrec2 & _ & _ & _ & Hlen2 & Hbuilt2).
  simpl in Hbs2, Hrec2, Hlen2, Hbuilt2.
  rewrite Hp1, Hbs in Hbs2. injection Hbs2 as <-.
  set (t3 := set_cursor (Some (-1)%Z) (Some (-1)%Z)
               (Some (Z.of_nat (__len__ t2))) t2).
  destruct (play_records best_choice 0 true fuel t3 0 (total_trials bs))
    as (t' & Hplay & _ & _ & Ha & _ & Hl & _ & Hin).
  { reflexivity. }
  { simpl. unfold __len__. by rewrite Hlen2. }
  { simpl. lia. }
  { simpl. rewrite Hrec2, length_replicate. lia. }
  { lia. }
  { lia. }
  { intros j tr Hj Htr. simpl in Htr.
    destruct (lookup_lt_is_Some_2 (owners bs) j) as [b Hb];
      [rewrite owners_length; lia|].
    destruct (Hbuilt2 j b Hb) as (tr' & r & Htr' & _ & Hbuilt).
    rewrite Htr in Htr'. injection Htr' as <-.
    assert (Hbin : b ∈ bs).
    { by eapply owners_elem. }
    rewrite Forall_forall in Hvalid. rewrite Forall_forall in Hrew.
    destruct (Hrew b Hbin) as [Hcues Hpos].
    destruct (Hvalid b Hbin) as (_ & _ & _ & _ & _ & _ & _ & _ & _ & Hrl).
    destruct (built_rewarding b r tr Hbuilt Hcues Hrl Hpos)
      as (cs & ps & Hlo & Hrwd & Hex).
    destruct (best_choice_is_best cs ps tr Hlo Hrwd Hex)
      as (c & o & Hc & _ & _ & Ho & _). eauto. }
  exists t', g2. split.
  { unfold __main__, __init__. rewrite H1.
    erewrite bind_Ok;
      [|unfold __iter__; erewrite bind_Ok; [|reflexivity]; simpl;
        rewrite Hstart1; erewrite bind_Ok; [|exact H2]; reflexivity].
    unfold on_task. cbn [fst snd]. fold t3. by rewrite Hplay. }
  split. { rewrite Hl. simpl. by rewrite Hrec2, length_replicate. }
  split; [done|].
  intros rec Hrec. apply list_elem_of_lookup in Hrec as [j Hj].
  assert (Hjn : j < total_trials bs).
  { apply lookup_lt_Some in Hj. rewrite Hl in Hj. simpl in Hj.
    by rewrite Hrec2, length_replicate in Hj. }
  destruct (lookup_lt_is_Some_2 (trials t2) j) as [tr Htr]; [lia|].
  destruct (lookup_lt_is_Some_2 (owners bs) j) as [b Hb];
    [rewrite owners_length; lia|].
  destruct (Hbuilt2 j b Hb) as (tr' & r & Htr' & _ & Hbuilt).
  rewrite Htr in Htr'. injection Htr' as <-.
  assert (Hbin : b ∈ bs).
  { by eapply owners_elem. }
  rewrite Forall_forall in Hvalid. rewrite Forall_forall in Hrew.
  destruct (Hrew b Hbin) as [Hcues Hpos].
  destruct (Hvalid b Hbin) as (_ & _ & _ & _ & _ & _ & _ & _ & _ & Hrl).
  destruct (built_rewarding b r tr Hbuilt Hcues Hrl Hpos)
    as (cs & ps & Hlo & Hrwd & Hex).
  destruct (best_choice_is_best cs ps tr Hlo Hrwd Hex)
    as (c & o & Hc & _ & _ & Ho & Hv & Hbest).
  rewrite (Hin j tr c o zero_record) in Hj; try done; [|lia|].
  - injection Hj as <-. simpl. by rewrite Hv, Hbest.
  - simpl. rewrite Hrec2. apply lookup_replicate_2. lia.
Qed.
End Script.

(** A valid session of one block with positive reward probabilities. *)
Lemma main_completes_witness :
  ∃ t' g',
    @__main__ TapeRandom (one_block positive_rewards) 3 long_tape
      = (Ok (Some tt), Some (t', g')) ∧
    length (records t') = total_trials [positive_rewards] ∧
    index_start t' = None ∧
    ∀ rec, rec ∈ records t' →
           r_valid rec = 1%Q ∧ r_best rec = 1%Q ∧ r_RT rec = 0%Q.
Proof.
  apply (@main_completes TapeRandom (one_block positive_rewards) long_tape
           [positive_rewards] 3).
  - reflexivity.
  - repeat constructor; simpl; unfold N_SLOTS, Qle, Qlt; simpl; try lia;
      try reflexivity.
  - repeat constructor; simpl; unfold Qlt; simpl; lia.
  - unfold total_trials; simpl. lia.
Defined.

(** * The cursor before the first trial *)

(** X13: between [__iter__] and the first [__next__] the cursor is -1,
    which as an index addresses the last item: a call of [process] made
    then records into the last slot of the records. *)
Theorem process_before_first_next (trial : Trial) (choice : Z) (RT : Q)
    (debug : bool) (t : Task) (o : Outcome) :
  index t = Some (-1)%Z → 0 < length (records t) →
  process_outcome trial choice = Ok o →
  process trial choice RT None debug t =
  (Ok (o_reward o, o_cue o, o_best o),
   written (scalars choice RT o) (length (records t) - 1) t).
Proof.
  intros Hi Hlen Ho. apply (process_no_model _ _ _ _ _ (-1)%Z); [done| |done].
  unfold py_index. rewrite decide_False by lia. rewrite decide_True by lia.
  f_equal. lia.
Qed.

Lemma process_before_first_next_witness :
  process (example_trial (3 # 10)) 1 0 None false
    (set_records [zero_record; zero_record]
       (set_cursor (Some (-1)%Z) (Some (-1)%Z) (Some 2%Z)
          (example_task (3 # 10)))) =
  (Ok (PyBool true, 0%Z, true),
   written
     (scalars 1 0 {| o_reward := PyBool true; o_cue := 0; o_best := true;
                     o_valid := true |})
     (length (records
                (set_records [zero_record; zero_record]
                   (set_cursor (Some (-1)%Z) (Some (-1)%Z) (Some 2%Z)
                      (example_task (3 # 10))))) - 1)
     (set_records [zero_record; zero_record]
        (set_cursor (Some (-1)%Z) (Some (-1)%Z) (Some 2%Z)
           (example_task (3 # 10))))).
Proof.
  apply (process_before_first_next (example_trial (3 # 10)) 1 0 false
           (set_records [zero_record; zero_record]
              (set_cursor (Some (-1)%Z) (Some (-1)%Z) (Some 2%Z)
                 (example_task (3 # 10))))
           {| o_reward := PyBool true; o_cue := 0; o_best := true;
              o_valid := true |}).
  - reflexivity.
  - simpl. lia.
  - reflexivity.
Defined.
